(** * LoopDeck import core: a shallow embedding and its verified properties

    The development follows the TypeScript sources of the import core:

    - [lib/adapters/index.ts]     (adapter registry, OTel mapping table)
    - [lib/adapters/langsmith.ts] (LangSmith run-tree adapter)
    - [lib/adapters/otel.ts]      (OpenTelemetry span adapter)
    - [lib/jsonl.ts]              (import orchestrator, generic chain, export)
    - [lib/utils.ts]              (text helpers of the user interface)
    - [lib/db.ts], [store/review-store.ts] (persistence and the review store)

    The code is dynamically typed at run time (every TypeScript annotation
    in these files is erased, and most are casts from [unknown]), so the
    embedding works on JavaScript values.  Built-ins whose results are
    engine- or environment-defined ([JSON.parse], [uuidv4], the clock,
    number/string conversions, [Date], [BigInt]) are collected in a [Host]
    record; every theorem holds for every host. *)

From Stdlib Require Import String Ascii List Bool Arith ZArith Lia Sorted Permutation.
From Stdlib Require Import PrimFloat FloatOps SpecFloat Uint63 DecimalString.
Import ListNotations.
Open Scope string_scope.
Open Scope list_scope.
Set Warnings "-register-all".

(** ** JavaScript values

    Strings are sequences of code units (restricted to units below 256);
    numbers are IEEE binary64 floats; an object is the list of its own
    enumerable properties in enumeration order (keys are unique in any
    object built by [JSON.parse] or by an object literal).  Properties
    inherited from prototypes other than [length] are not modelled: none
    of the fixed property names read by the sources is a prototype member
    of [Object], [Array], [String], [Number] or [Boolean].  The only
    property names that the sources do not fix are the attribute names of
    the OTel mapping table; the embedding covers the tables whose names
    are not prototype members (such as [constructor] or [toString]), as
    is the case of the built-in table. *)

Module JS.

Inductive value : Type :=
| VUndef
| VNull
| VBool (b : bool)
| VNum (n : float)
| VStr (s : string)
| VArr (l : list value)
| VObj (l : list (string * value)).

(** Outcome of an expression that may raise: [Throw m] carries the
    [message] of the raised [Error]. *)
Inductive res (A : Type) : Type :=
| Ok (a : A)
| Throw (msg : string).
Arguments Ok {A} a.
Arguments Throw {A} msg.

Definition rbind {A B : Type} (m : res A) (f : A -> res B) : res B :=
  match m with
  | Ok a => f a
  | Throw e => Throw e
  end.

Definition is_ok {A : Type} (m : res A) : bool :=
  match m with Ok _ => true | Throw _ => false end.

(** *** Strings *)

Definition nl : ascii := "010"%char.
Definition dquote : ascii := "034"%char.
Definition backslash : ascii := "092"%char.

Definition nat_to_string (n : nat) : string :=
  NilEmpty.string_of_uint (Nat.to_uint n).

(** [WhiteSpace] and [LineTerminator] code units below 256, as stripped by
    [String.prototype.trim]. *)
Definition is_ws (c : ascii) : bool :=
  let n := nat_of_ascii c in
  ((9 <=? n) && (n <=? 13) || (n =? 32) || (n =? 160))%nat.

Fixpoint trim_start (s : string) : string :=
  match s with
  | String c s' => if is_ws c then trim_start s' else s
  | EmptyString => EmptyString
  end.

Fixpoint rev_string (s acc : string) : string :=
  match s with
  | EmptyString => acc
  | String c s' => rev_string s' (String c acc)
  end.

Definition trim (s : string) : string :=
  rev_string (trim_start (rev_string (trim_start s) "")) "".

(** [s.split(c)] for a one-character separator. *)
Fixpoint split_on (c : ascii) (s : string) : list string :=
  match s with
  | EmptyString => [EmptyString]
  | String a s' =>
      if Ascii.eqb a c then EmptyString :: split_on c s'
      else match split_on c s' with
           | w :: ws => String a w :: ws
           | [] => [String a EmptyString]
           end
  end.

Definition startsWith (s p : string) : bool := String.prefix p s.

Fixpoint includes (s sub : string) : bool :=
  String.prefix sub s ||
  match s with
  | EmptyString => false
  | String _ s' => includes s' sub
  end.

Definition lower_ascii (c : ascii) : ascii :=
  let n := nat_of_ascii c in
  if (((65 <=? n) && (n <=? 90))
      || ((192 <=? n) && (n <=? 222) && negb (n =? 215)))%nat
  then ascii_of_nat (n + 32) else c.

Fixpoint toLowerCase (s : string) : string :=
  match s with
  | EmptyString => EmptyString
  | String c s' => String (lower_ascii c) (toLowerCase s')
  end.

Definition str_truthy (s : string) : bool :=
  match s with EmptyString => false | _ => true end.

(** *** Numbers *)

Definition num_of_nat (n : nat) : float :=
  PrimFloat.of_uint63 (Uint63.of_Z (Z.of_nat n)).

Definition num_truthy (n : float) : bool :=
  negb (PrimFloat.eqb n 0%float) && PrimFloat.eqb n n.

Definition num_finite (n : float) : bool :=
  negb (PrimFloat.is_nan n) && negb (PrimFloat.is_infinity n).

(** *** Truthiness, [typeof], property access *)

Definition truthy (v : value) : bool :=
  match v with
  | VUndef | VNull => false
  | VBool b => b
  | VNum n => num_truthy n
  | VStr s => str_truthy s
  | VArr _ | VObj _ => true
  end.

(** [a || b] on already evaluated operands. *)
Definition or_else (a b : value) : value := if truthy a then a else b.

Definition is_undefined (v : value) : bool :=
  match v with VUndef => true | _ => false end.

Definition is_nullish (v : value) : bool :=
  match v with VUndef | VNull => true | _ => false end.

Definition isArray (v : value) : bool :=
  match v with VArr _ => true | _ => false end.

Definition is_string (v : value) : bool :=
  match v with VStr _ => true | _ => false end.

(** [typeof v === 'object'] (true of [null]). *)
Definition typeof_object (v : value) : bool :=
  match v with VNull | VArr _ | VObj _ => true | _ => false end.

(** [typeof v === 'object' && v !== null]. *)
Definition is_object (v : value) : bool :=
  match v with VArr _ | VObj _ => true | _ => false end.

(** [v === s] for a string literal [s]. *)
Definition eq_str (v : value) (s : string) : bool :=
  match v with VStr t => String.eqb t s | _ => false end.

(** [v === n] for a number literal [n]. *)
Definition eq_num (v : value) (n : float) : bool :=
  match v with VNum m => PrimFloat.eqb m n | _ => false end.

Fixpoint assoc (k : string) (l : list (string * value)) : option value :=
  match l with
  | [] => None
  | (k', v) :: l' => if String.eqb k' k then Some v else assoc k l'
  end.

(** The array index denoted by a property key, if it is one below [n]. *)
Fixpoint index_of_key (k : string) (n : nat) : option nat :=
  match n with
  | O => None
  | S m => if String.eqb (nat_to_string m) k then Some m else index_of_key k m
  end.

(** [k in v] for an object or array [v] and a key [k] that is not the name
    of a prototype member: an own property. *)
Definition has_prop (k : string) (v : value) : bool :=
  match v with
  | VObj l => match assoc k l with Some _ => true | None => false end
  | VArr l =>
      String.eqb k "length" ||
      match index_of_key k (List.length l) with Some _ => true | None => false end
  | _ => false
  end.

(** [v.k] / [v[k]] where [v] is known not to be [null] or [undefined]
    (on these two the result is [undefined], which is what [v?.k] gives). *)
Definition prop (v : value) (k : string) : value :=
  match v with
  | VObj l => match assoc k l with Some x => x | None => VUndef end
  | VArr l =>
      if String.eqb k "length" then VNum (num_of_nat (List.length l))
      else match index_of_key k (List.length l) with
           | Some i => nth i l VUndef
           | None => VUndef
           end
  | VStr s =>
      if String.eqb k "length" then VNum (num_of_nat (String.length s))
      else VUndef
  | _ => VUndef
  end.

(** The messages of the [TypeError]s that the engine raises.  Their text is
    engine-defined (it names the operand and the key); each constant
    stands for the text of one kind of error. *)
Definition type_error_read : string := "Cannot read properties of null or undefined".
Definition type_error_in : string := "Cannot use 'in' operator to search for a key in a primitive".
Definition type_error_call : string := "value is not a function".
Definition type_error_iter : string := "value is not iterable".

(** [v.k] in general: reading a property of [null]/[undefined] raises. *)
Definition get (v : value) (k : string) : res value :=
  if is_nullish v then Throw type_error_read else Ok (prop v k).

(** [k in v] in general: raises on a primitive right operand. *)
Definition in_op (k : string) (v : value) : res bool :=
  if is_object v then Ok (has_prop k v) else Throw type_error_in.

(** [v[0]] for [v] not nullish. *)
Definition first_elem (v : value) : value :=
  match v with
  | VArr l => nth 0 l VUndef
  | VStr (String c _) => VStr (String c EmptyString)
  | VObj l => match assoc "0" l with Some x => x | None => VUndef end
  | _ => VUndef
  end.

(** The elements delivered by [for (const x of v)] and by spread [...v]. *)
Definition iterate (v : value) : res (list value) :=
  match v with
  | VArr l => Ok l
  | VStr s => Ok (map (fun c => VStr (String c EmptyString)) (list_ascii_of_string s))
  | _ => Throw type_error_iter
  end.

(** The receiver of an array method ([find], [filter], [map], [flatMap],
    [some], ...): anything but an array has no such method. *)
Definition as_array (v : value) : res (list value) :=
  match v with
  | VArr l => Ok l
  | VUndef | VNull => Throw type_error_read
  | _ => Throw type_error_call
  end.

(** Object literal update [{ ...o, k: v }]: an existing key keeps its
    position, a new key is appended. *)
Fixpoint set_prop (k : string) (v : value) (l : list (string * value))
  : list (string * value) :=
  match l with
  | [] => [(k, v)]
  | (k', v') :: l' =>
      if String.eqb k' k then (k, v) :: l' else (k', v') :: set_prop k v l'
  end.

(** The array index that a property key denotes, if any: a canonical
    decimal numeral below [2^32 - 1]. *)
Definition array_index (k : string) : option N :=
  match NilEmpty.uint_of_string k with
  | Some d =>
      let n := N.of_uint d in
      if String.eqb (NilEmpty.string_of_uint (N.to_uint n)) k && (n <? 4294967295)%N
      then Some n else None
  | None => None
  end.

Fixpoint insert_index (n : N) (k : string) (v : value) (l : list (string * value))
  : list (string * value) :=
  match l with
  | [] => [(k, v)]
  | (k', v') :: l' =>
      match array_index k' with
      | Some m => if (n <? m)%N then (k, v) :: l else (k', v') :: insert_index n k v l'
      | None => (k, v) :: l
      end
  end.

(** Assignment [o[k] = v] under a computed key: an existing key keeps its
    position; a new key that is an array index is enumerated among the
    array indices, in ascending order and before every other key; any
    other new key is appended. *)
Definition assign (k : string) (v : value) (l : list (string * value))
  : list (string * value) :=
  match assoc k l, array_index k with
  | None, Some n => insert_index n k v l
  | _, _ => set_prop k v l
  end.

(** Own enumerable string-keyed properties, as [Object.entries] and the
    spread [{ ...v }] see them. *)
Definition entries (v : value) : list (string * value) :=
  match v with
  | VObj l => l
  | VArr l => combine (map nat_to_string (seq 0 (List.length l))) l
  | VStr s =>
      combine (map nat_to_string (seq 0 (String.length s)))
              (map (fun c => VStr (String c EmptyString)) (list_ascii_of_string s))
  | _ => []
  end.

(** *** The host: built-ins that the embedding does not define

    [uuid] and [clock] are oracles indexed by the number of draws made so
    far; the other fields are the deterministic built-ins named in their
    comments. *)
Record Host : Type := {
  uuid : nat -> string;                    (* uuidv4() *)
  clock : nat -> string;                   (* new Date().toISOString() *)
  JSON_parse : string -> res value;        (* JSON.parse(text) *)
  String_of_number : float -> string;      (* String(n) for a number n *)
  Number_of_string : string -> float;      (* Number(s) for a string s *)
  Date_getTime : value -> float;           (* new Date(v).getTime() *)
  BigInt_of : value -> res Z;              (* BigInt(v) *)
  Number_of_bigint : Z -> float;           (* Number(b) for a bigint b *)
  Date_toISOString : float -> res string   (* new Date(ms).toISOString() *)
}.

(** *** Effects: raising, and drawing from the host oracles *)

Definition M (A : Type) : Type := nat -> res A * nat.

Definition ret {A : Type} (a : A) : M A := fun s => (Ok a, s).

Definition bind {A B : Type} (m : M A) (f : A -> M B) : M B :=
  fun s => match m s with
           | (Ok a, s') => f a s'
           | (Throw e, s') => (Throw e, s')
           end.

Definition lift {A : Type} (r : res A) : M A := fun s => (r, s).

(** [try { m } catch (e) { h e.message }]. *)
Definition try_catch {A : Type} (m : M A) (h : string -> M A) : M A :=
  fun s => match m s with
           | (Ok a, s') => (Ok a, s')
           | (Throw e, s') => h e s'
           end.

Declare Scope js_scope.
Delimit Scope js_scope with js.
Notation "x <- m ;; k" := (rbind m (fun x => k))
  (at level 61, m at next level, right associativity) : js_scope.
Notation "x <~ m ;; k" := (bind m (fun x => k))
  (at level 61, m at next level, right associativity) : js_scope.
Open Scope js_scope.

Fixpoint mapM {A B : Type} (f : A -> M B) (l : list A) : M (list B) :=
  match l with
  | [] => ret []
  | x :: l' => y <~ f x ;; ys <~ mapM f l' ;; ret (y :: ys)
  end.

Fixpoint map_res {A B : Type} (f : A -> res B) (l : list A) : res (list B) :=
  match l with
  | [] => Ok []
  | x :: l' => y <- f x ;; ys <- map_res f l' ;; Ok (y :: ys)
  end.

(** [l.find(p)]: the first element on which the callback is true, else
    [undefined]; the callback is not run past that element. *)
Fixpoint find_res (p : value -> res bool) (l : list value) : res value :=
  match l with
  | [] => Ok VUndef
  | x :: l' => b <- p x ;; if b then Ok x else find_res p l'
  end.

Fixpoint filter_res {A : Type} (p : A -> res bool) (l : list A) : res (list A) :=
  match l with
  | [] => Ok []
  | x :: l' => b <- p x ;; r <- filter_res p l' ;; Ok (if b then x :: r else r)
  end.

(** [l.some(p)] for a callback that cannot raise is [existsb p l]. *)

Section Conversions.
Context (H : Host).

Definition uuidv4 : M value := fun s => (Ok (VStr (uuid H s)), S s).

Definition now_iso : M value := fun s => (Ok (VStr (clock H s)), S s).

(** [String(v)], also the conversion done by a template literal. *)
Fixpoint to_string (v : value) : string :=
  match v with
  | VUndef => "undefined"
  | VNull => "null"
  | VBool true => "true"
  | VBool false => "false"
  | VNum n => String_of_number H n
  | VStr s => s
  | VArr l =>
      String.concat ","
        (map (fun x => match x with
                       | VUndef | VNull => ""
                       | _ => to_string x
                       end) l)
  | VObj _ => "[object Object]"
  end.

(** [Number(v)]. *)
Definition to_number (v : value) : float :=
  match v with
  | VUndef => PrimFloat.nan
  | VNull => 0%float
  | VBool true => 1%float
  | VBool false => 0%float
  | VNum n => n
  | VStr s => Number_of_string H s
  | VArr _ | VObj _ => Number_of_string H (to_string v)
  end.

Definition to_primitive (v : value) : value :=
  match v with
  | VArr _ | VObj _ => VStr (to_string v)
  | _ => v
  end.

(** [a + b]. *)
Definition add (a b : value) : value :=
  let pa := to_primitive a in
  let pb := to_primitive b in
  if is_string pa || is_string pb
  then VStr (to_string pa ++ to_string pb)%string
  else VNum (PrimFloat.add (to_number pa) (to_number pb)).

(** [v > 0]. *)
Definition gt_zero (v : value) : bool := PrimFloat.ltb 0%float (to_number v).

Definition hex_digit (n : nat) : ascii :=
  if (n <? 10)%nat then ascii_of_nat (48 + n) else ascii_of_nat (87 + n).

Definition escape_char (c : ascii) : string :=
  let n := nat_of_ascii c in
  if Ascii.eqb c dquote then String backslash (String dquote "")
  else if Ascii.eqb c backslash then String backslash (String backslash "")
  else if (n =? 8)%nat then String backslash "b"
  else if (n =? 9)%nat then String backslash "t"
  else if (n =? 10)%nat then String backslash "n"
  else if (n =? 12)%nat then String backslash "f"
  else if (n =? 13)%nat then String backslash "r"
  else if (n <? 32)%nat
       then String backslash
              ("u00" ++ String (hex_digit (n / 16)) (String (hex_digit (n mod 16)) ""))%string
  else String c "".

Fixpoint escape (s : string) : string :=
  match s with
  | EmptyString => EmptyString
  | String c s' => (escape_char c ++ escape s')%string
  end.

Definition quote (s : string) : string :=
  String dquote (escape s ++ String dquote "")%string.

(** [JSON.stringify(v)]; [None] stands for the result [undefined]. *)
Fixpoint stringify (v : value) : option string :=
  match v with
  | VUndef => None
  | VNull => Some "null"
  | VBool true => Some "true"
  | VBool false => Some "false"
  | VNum n => Some (if num_finite n then String_of_number H n else "null")
  | VStr s => Some (quote s)
  | VArr l =>
      Some ("[" ++ String.concat ","
                     (map (fun x => match stringify x with
                                    | Some t => t
                                    | None => "null"
                                    end) l) ++ "]")%string
  | VObj l =>
      Some ("{" ++ String.concat ","
                     (flat_map (fun p => let '(k, x) := p in
                                         match stringify x with
                                         | Some t => [(quote k ++ ":" ++ t)%string]
                                         | None => []
                                         end) l) ++ "}")%string
  end.

Definition JSON_stringify (v : value) : value :=
  match stringify v with Some s => VStr s | None => VUndef end.

End Conversions.

End JS.

Import JS.

(** ** The canonical record ([types/review.ts])

    A [ReviewItem] is a JavaScript object; these are the accessors the
    statements use. *)

Module Review.

Inductive SpanType : Type :=
| llm | retriever | chain | tool | embedding | unknown.

Definition SpanType_name (t : SpanType) : string :=
  match t with
  | llm => "llm"
  | retriever => "retriever"
  | chain => "chain"
  | tool => "tool"
  | embedding => "embedding"
  | unknown => "unknown"
  end.

Definition is_llm (t : SpanType) : bool :=
  match t with llm => true | _ => false end.

Definition is_retriever (t : SpanType) : bool :=
  match t with retriever => true | _ => false end.

Definition status (item : value) : value := prop item "status".
Definition input (item : value) : value := prop item "input".
Definition outputs (item : value) : value := prop item "outputs".
Definition trace_metadata (item : value) : value := prop item "trace_metadata".
Definition prompt (item : value) : value := prop (input item) "prompt".

(** [ImportResult]. *)
Record ImportError : Type := { line : nat; message : string }.

Record ImportResult : Type := {
  success : bool;
  itemsImported : nat;
  items : list value;
  errors : list ImportError
}.

End Review.

(** ** Adapter registry ([lib/adapters/index.ts]) *)

Module Adapters.

Record TokenAttributes : Type := {
  input : list string;
  output : list string;
  total : list string
}.

Record OTelMappingConfig : Type := {
  promptAttributes : list string;
  responseAttributes : list string;
  modelAttributes : list string;
  tokenAttributes : TokenAttributes;
  llmSpanNames : list string;
  retrieverSpanNames : list string
}.

Definition DEFAULT_OTEL_MAPPINGS : OTelMappingConfig := {|
  promptAttributes :=
    [ "gen_ai.prompt"; "gen_ai.prompt.0.content"; "llm.prompts"; "llm.prompts.0";
      "ai.prompt.text"; "openai.prompt"; "anthropic.prompt" ];
  responseAttributes :=
    [ "gen_ai.completion"; "gen_ai.completion.0.content"; "llm.responses";
      "llm.responses.0"; "ai.response.text"; "openai.completion";
      "anthropic.completion" ];
  modelAttributes :=
    [ "gen_ai.request.model"; "gen_ai.response.model"; "llm.model";
      "llm.model_name"; "ai.model.id"; "openai.model"; "anthropic.model" ];
  tokenAttributes := {|
    input :=
      [ "gen_ai.usage.input_tokens"; "gen_ai.usage.prompt_tokens";
        "llm.token_count.prompt"; "ai.usage.input_tokens" ];
    output :=
      [ "gen_ai.usage.output_tokens"; "gen_ai.usage.completion_tokens";
        "llm.token_count.completion"; "ai.usage.output_tokens" ];
    total :=
      [ "gen_ai.usage.total_tokens"; "llm.token_count.total";
        "ai.usage.total_tokens" ]
  |};
  llmSpanNames :=
    [ "llm.chat"; "llm.completion"; "llm"; "ChatOpenAI"; "ChatAnthropic";
      "OpenAI"; "Anthropic" ];
  retrieverSpanNames :=
    [ "retriever"; "vectorstore"; "Retriever"; "VectorStoreRetriever" ]
|}.

(** [Partial<OTelMappingConfig>]: each top-level key is either absent
    ([None]) or carries a value of the key's type.  [Partial] is shallow:
    a supplied [tokenAttributes] is a whole [TokenAttributes]. *)
Record PartialOTelMappingConfig : Type := {
  promptAttributes_opt : option (list string);
  responseAttributes_opt : option (list string);
  modelAttributes_opt : option (list string);
  tokenAttributes_opt : option TokenAttributes;
  llmSpanNames_opt : option (list string);
  retrieverSpanNames_opt : option (list string)
}.

Definition no_override : PartialOTelMappingConfig := {|
  promptAttributes_opt := None;
  responseAttributes_opt := None;
  modelAttributes_opt := None;
  tokenAttributes_opt := None;
  llmSpanNames_opt := None;
  retrieverSpanNames_opt := None
|}.

(** A full configuration passed where a partial one is expected. *)
Definition all_keys (c : OTelMappingConfig) : PartialOTelMappingConfig := {|
  promptAttributes_opt := Some (promptAttributes c);
  responseAttributes_opt := Some (responseAttributes c);
  modelAttributes_opt := Some (modelAttributes c);
  tokenAttributes_opt := Some (tokenAttributes c);
  llmSpanNames_opt := Some (llmSpanNames c);
  retrieverSpanNames_opt := Some (retrieverSpanNames c)
|}.

Definition override {A : Type} (cur : A) (o : option A) : A :=
  match o with Some v => v | None => cur end.

(** The object spread [{ ...cur, ...mappings }]. *)
Definition spread (cur : OTelMappingConfig) (mappings : PartialOTelMappingConfig)
  : OTelMappingConfig := {|
  promptAttributes := override (promptAttributes cur) (promptAttributes_opt mappings);
  responseAttributes := override (responseAttributes cur) (responseAttributes_opt mappings);
  modelAttributes := override (modelAttributes cur) (modelAttributes_opt mappings);
  tokenAttributes := override (tokenAttributes cur) (tokenAttributes_opt mappings);
  llmSpanNames := override (llmSpanNames cur) (llmSpanNames_opt mappings);
  retrieverSpanNames := override (retrieverSpanNames cur) (retrieverSpanNames_opt mappings)
|}.

(** [TraceAdapter].  [detect] may raise on malformed data; [normalize]
    reads the registry's current OTel mappings, passed here explicitly. *)
Record TraceAdapter : Type := {
  name : string;
  detect : value -> res bool;
  normalize : OTelMappingConfig -> value -> M value
}.

(** [class AdapterRegistry]: [adapters] is a [Map] in insertion order. *)
Record AdapterRegistry : Type := {
  adapters : list (string * TraceAdapter);
  otelMappings : OTelMappingConfig
}.

Definition empty_registry : AdapterRegistry := {|
  adapters := [];
  otelMappings := DEFAULT_OTEL_MAPPINGS
|}.

Fixpoint map_set (k : string) (a : TraceAdapter) (l : list (string * TraceAdapter))
  : list (string * TraceAdapter) :=
  match l with
  | [] => [(k, a)]
  | (k', a') :: l' =>
      if String.eqb k' k then (k, a) :: l' else (k', a') :: map_set k a l'
  end.

Definition register (adapter : TraceAdapter) (reg : AdapterRegistry) : AdapterRegistry := {|
  adapters := map_set (name adapter) adapter (adapters reg);
  otelMappings := otelMappings reg
|}.

Fixpoint map_get (k : string) (l : list (string * TraceAdapter)) : option TraceAdapter :=
  match l with
  | [] => None
  | (k', a) :: l' => if String.eqb k' k then Some a else map_get k l'
  end.

Definition get (reg : AdapterRegistry) (k : string) : option TraceAdapter :=
  map_get k (adapters reg).

Fixpoint first_detecting (l : list (string * TraceAdapter)) (data : value)
  : res (option TraceAdapter) :=
  match l with
  | [] => Ok None
  | (_, adapter) :: l' =>
      b <- detect adapter data ;;
      if b then Ok (Some adapter) else first_detecting l' data
  end.

Definition detectAdapter (reg : AdapterRegistry) (data : value)
  : res (option TraceAdapter) :=
  first_detecting (adapters reg) data.

Definition setOTelMappings (reg : AdapterRegistry) (mappings : PartialOTelMappingConfig)
  : AdapterRegistry := {|
  adapters := adapters reg;
  otelMappings := spread (otelMappings reg) mappings
|}.

Definition getOTelMappings (reg : AdapterRegistry) : OTelMappingConfig :=
  otelMappings reg.

End Adapters.

(** ** LangSmith adapter ([lib/adapters/langsmith.ts]) *)

Module LangSmith.
Import Review.

Definition SCHEMA_VERSION : float := 1%float.

(** Elements of a value already known to be an array. *)
Definition elements (v : value) : list value :=
  match v with VArr l => l | _ => [] end.

Definition isLangSmithRun (data : value) : bool :=
  if negb (is_object data) then false
  else if has_prop "outputs" data && isArray (prop data "outputs") then false
  else if has_prop "input" data && is_object (prop data "input")
          && has_prop "prompt" (prop data "input")
          && has_prop "context_chunks" (prop data "input") then false
  else
    let hasId := has_prop "run_id" data || has_prop "id" data in
    let hasIO := has_prop "inputs" data || has_prop "outputs" data in
    let hasRunType := has_prop "run_type" data || has_prop "name" data in
    hasId && (hasIO || hasRunType).

Definition isLangSmithExport (data : value) : bool :=
  if negb (is_object data) then false
  else if isArray data then
    negb (Nat.eqb (List.length (elements data)) 0)
    && forallb isLangSmithRun (elements data)
  else if has_prop "runs" data && isArray (prop data "runs") then
    negb (Nat.eqb (List.length (elements (prop data "runs"))) 0)
    && forallb isLangSmithRun (elements (prop data "runs"))
  else if has_prop "run" data && isLangSmithRun (prop data "run") then true
  else isLangSmithRun data.

(** [getSpanType(runType)]: [runType.toLowerCase()] raises when a truthy
    [run_type] is not a string. *)
Definition getSpanType (runType : value) : res SpanType :=
  if negb (truthy runType) then Ok unknown
  else match runType with
       | VStr s =>
           let type := toLowerCase s in
           if String.eqb type "llm" || String.eqb type "chat_model" then Ok llm
           else if String.eqb type "retriever" then Ok retriever
           else if String.eqb type "chain" then Ok chain
           else if String.eqb type "tool" then Ok tool
           else if String.eqb type "embedding" then Ok embedding
           else Ok unknown
       | _ => Throw type_error_call
       end.

(** The callback [m => m.role === r]. *)
Definition role_is (r : string) (m : value) : res bool :=
  role <- JS.get m "role" ;; Ok (eq_str role r).

Definition flat_map_res {A : Type} (f : value -> res (list A)) (l : list value)
  : res (list A) :=
  ls <- map_res f l ;; Ok (List.concat ls).

Fixpoint depth (v : value) : nat :=
  match v with
  | VArr l => S (fold_right (fun x acc => Nat.max (depth x) acc) 0 l)
  | VObj l => S (fold_right (fun p acc => Nat.max (depth (snd p)) acc) 0 l)
  | _ => 0
  end.

Definition stack_overflow : string := "Maximum call stack size exceeded".

Section WithHost.
Context (H : Host).

(** [extractPrompt(inputs)]: the pair [(prompt, systemPrompt)]. *)
Definition extractPrompt (inputs : value) : res (value * value) :=
  in_messages <- in_op "messages" inputs ;;
  if in_messages && isArray (prop inputs "messages") then
    let messages := elements (prop inputs "messages") in
    systemMsg <- find_res (role_is "system") messages ;;
    userMsg <- find_res (role_is "user") messages ;;
    lastUserMsg <- find_res (role_is "user") (rev messages) ;;
    Ok (or_else (prop lastUserMsg "content")
          (or_else (prop userMsg "content") (VStr "")),
        prop systemMsg "content")
  else
    let fallthrough :=
      if has_prop "input" inputs then
        (VStr (to_string H (prop inputs "input")), VUndef)
      else if has_prop "question" inputs then
        (VStr (to_string H (prop inputs "question")), VUndef)
      else if has_prop "query" inputs then
        (VStr (to_string H (prop inputs "query")), VUndef)
      else (JSON_stringify H inputs, VUndef) in
    if has_prop "prompt" inputs then
      match prop inputs "prompt" with
      | VStr s => Ok (VStr s, VUndef)
      | (VArr _ | VObj _) as promptObj =>
          Ok (VStr (to_string H
                      (or_else (prop promptObj "template")
                         (or_else (prop promptObj "text")
                            (JSON_stringify H promptObj)))),
              VUndef)
      | _ => Ok fallthrough
      end
    else Ok fallthrough.

Definition extractResponse (outputs : value) : res value :=
  in_generations <- in_op "generations" outputs ;;
  let g := first_elem (first_elem (prop outputs "generations")) in
  if in_generations && isArray (prop outputs "generations") && truthy g then
    Ok (or_else (prop g "text")
          (or_else (prop (prop g "message") "content") (VStr "")))
  else if has_prop "message" outputs && is_object (prop outputs "message") then
    Ok (VStr (to_string H (or_else (prop (prop outputs "message") "content") (VStr ""))))
  else if has_prop "output" outputs then
    Ok (VStr (to_string H (prop outputs "output")))
  else if has_prop "text" outputs then
    Ok (VStr (to_string H (prop outputs "text")))
  else if has_prop "answer" outputs then
    Ok (VStr (to_string H (prop outputs "answer")))
  else if has_prop "response" outputs then
    Ok (VStr (to_string H (prop outputs "response")))
  else Ok (JSON_stringify H outputs).

(** One document of a retriever's output, at position [index]. *)
Definition contextChunk (index : nat) (doc : value) : M value :=
  metadata <~ lift (JS.get doc "metadata") ;;
  id <~ (if truthy (prop doc "id") then ret (prop doc "id") else uuidv4 H) ;;
  ret (VObj
    [ ("id", VStr (to_string H id));
      ("text", VStr (to_string H
                 (or_else (prop doc "page_content")
                    (or_else (prop doc "content")
                       (or_else (prop doc "text") (VStr ""))))));
      ("source", VStr (to_string H
                   (or_else (prop metadata "source")
                      (or_else (prop doc "source")
                         (VStr ("retrieved_" ++ nat_to_string index)%string)))));
      ("score", VNum (to_number H
                  (or_else (prop doc "score")
                     (or_else (prop doc "similarity")
                        (or_else (prop metadata "score") (VNum 0%float))))));
      ("metadata", metadata) ]).

Fixpoint forEach_index (f : nat -> value -> M value) (index : nat) (l : list value)
  : M (list value) :=
  match l with
  | [] => ret []
  | x :: l' => y <~ f index x ;; ys <~ forEach_index f (S index) l' ;; ret (y :: ys)
  end.

Definition extractContextFromRetriever (run : value) : M (list value) :=
  outputs <~ lift (JS.get run "outputs") ;;
  if negb (truthy outputs) then ret []
  else
    let docs := or_else (prop outputs "documents")
                  (or_else (prop outputs "docs") (prop outputs "results")) in
    match docs with
    | VArr ds => forEach_index contextChunk 0 ds
    | _ => ret []
    end.

(** [findLLMLeafSpans(run)].  The recursion descends into [child_runs];
    [fuel] bounds the call depth, and running out of it is the engine's
    stack overflow.  [findLLMLeafSpans] supplies more fuel than the
    nesting depth of [run], which the recursion cannot exhaust. *)
Fixpoint findLLMLeafSpans_rec (fuel : nat) (run : value) : res (list value) :=
  match fuel with
  | O => Throw stack_overflow
  | S fuel' =>
      run_type <- JS.get run "run_type" ;;
      spanType <- getSpanType run_type ;;
      let child_runs := prop run "child_runs" in
      if is_llm spanType then
        if negb (truthy child_runs) || eq_num (prop child_runs "length") 0%float
        then Ok [run]
        else
          children <- as_array child_runs ;;
          childLLMSpans <- flat_map_res (findLLMLeafSpans_rec fuel') children ;;
          match childLLMSpans with
          | [] => Ok [run]
          | _ :: _ => Ok childLLMSpans
          end
      else if truthy child_runs && gt_zero H (prop child_runs "length") then
        children <- as_array child_runs ;;
        flat_map_res (findLLMLeafSpans_rec fuel') children
      else Ok []
  end.

Definition findLLMLeafSpans (run : value) : res (list value) :=
  findLLMLeafSpans_rec (S (depth run)) run.

Fixpoint findRelatedRetrieverSpans_rec (fuel : nat) (run : value) : res (list value) :=
  match fuel with
  | O => Throw stack_overflow
  | S fuel' =>
      run_type <- JS.get run "run_type" ;;
      spanType <- getSpanType run_type ;;
      let self := if is_retriever spanType then [run] else [] in
      let child_runs := prop run "child_runs" in
      if truthy child_runs then
        children <- as_array child_runs ;;
        below <- flat_map_res (findRelatedRetrieverSpans_rec fuel') children ;;
        Ok (self ++ below)
      else Ok self
  end.

Definition findRelatedRetrieverSpans (run : value) : res (list value) :=
  findRelatedRetrieverSpans_rec (S (depth run)) run.

(** The callback [f => f.k] of a [filter]. *)
Definition has_truthy (k : string) (f : value) : res bool :=
  x <- JS.get f k ;; Ok (truthy x).

(** The [human_feedback] object built from [run.feedback]. *)
Definition processFeedback (run : value) : res value :=
  let feedback := prop run "feedback" in
  if truthy feedback && gt_zero H (prop feedback "length") then
    entries <- as_array feedback ;;
    corrections <- filter_res (has_truthy "correction") entries ;;
    let withCorrection :=
      match corrections with
      | c :: _ => [("corrected_text", prop c "correction")]
      | [] => []
      end in
    commented <- filter_res (has_truthy "comment") entries ;;
    let comments :=
      String.concat (String nl "")
        (map (fun f => ("[" ++ to_string H (or_else (prop f "key") (VStr "feedback"))
                        ++ "] " ++ to_string H (prop f "comment"))%string)
             commented) in
    Ok (VObj (if str_truthy comments
              then set_prop "comments" (VStr comments) withCorrection
              else withCorrection))
  else Ok (VObj []).

Definition convertRunToReviewItem (run now : value) (contextChunks : list value)
  : M value :=
  run_id <~ lift (JS.get run "run_id") ;;
  runId <~ (if truthy (or_else run_id (prop run "id"))
            then ret (or_else run_id (prop run "id"))
            else uuidv4 H) ;;
  let inputs := or_else (prop run "inputs") (VObj []) in
  let outputs := or_else (prop run "outputs") (VObj []) in
  ps <~ lift (extractPrompt inputs) ;;
  let prompt := fst ps in
  let systemPrompt := snd ps in
  response <~ lift (extractResponse outputs) ;;
  let latency := or_else (prop run "latency") (VNum 0%float) in
  let latencyMs :=
    if negb (truthy latency) && truthy (prop run "start_time")
       && truthy (prop run "end_time")
    then VNum (PrimFloat.sub (Date_getTime H (prop run "end_time"))
                             (Date_getTime H (prop run "start_time")))
    else latency in
  let modelId :=
    or_else (prop run "model")
      (or_else (prop run "model_name")
         (or_else (prop (prop (prop run "extra") "metadata") "model")
            (VStr "langsmith"))) in
  humanFeedback <~ lift (processFeedback run) ;;
  spanType <~ lift (getSpanType (prop run "run_type")) ;;
  ret (VObj
    [ ("id", runId);
      ("version", VNum SCHEMA_VERSION);
      ("created_at", or_else (prop run "start_time") now);
      ("updated_at", now);
      ("status", VStr "pending");
      ("tags", if truthy (prop run "session_name")
               then VArr [prop run "session_name"] else VUndef);
      ("trace_metadata", VObj
         [ ("trace_id", runId);
           ("span_id", runId);
           ("parent_id", prop run "parent_run_id");
           ("span_type", VStr (SpanType_name spanType));
           ("source", VStr "langsmith");
           ("session_id", prop run "session_id");
           ("error", prop run "error");
           ("latency_ms", latencyMs);
           ("original_data", VObj
              [ ("run_type", prop run "run_type");
                ("name", prop run "name");
                ("extra", prop run "extra") ]) ]);
      ("input", VObj
         [ ("prompt", prompt);
           ("system_prompt", systemPrompt);
           ("context_chunks", VArr contextChunks) ]);
      ("outputs",
         if truthy response
         then VArr [ VObj
                [ ("model_id", modelId);
                  ("text", response);
                  ("token_usage",
                     or_else (prop run "total_tokens")
                       (add H (or_else (prop run "prompt_tokens") (VNum 0%float))
                              (or_else (prop run "completion_tokens") (VNum 0%float))));
                  ("latency_ms", latencyMs) ] ]
         else VArr []);
      ("human_feedback", humanFeedback) ]).

Definition flat_mapM {A : Type} (f : value -> M (list A)) (l : list value)
  : M (list A) :=
  ls <~ mapM f l ;; ret (List.concat ls).

(** The root runs selected at the top of [normalize]; [None] stands for
    the early [return []]. *)
Definition rootRuns (data : value) : res (option (list value)) :=
  if isArray data then Ok (Some (elements data))
  else
    in_runs <- in_op "runs" data ;;
    if in_runs && isArray (prop data "runs") then Ok (Some (elements (prop data "runs")))
    else if has_prop "run" data && truthy (prop data "run") then Ok (Some [prop data "run"])
    else if isLangSmithRun data then Ok (Some [data])
    else Ok None.

(** The body of [for (const run of runs)]: the records pushed for one
    root run. *)
Definition processRootRun (now run : value) : M (list value) :=
  retrieverSpans <~ lift (findRelatedRetrieverSpans run) ;;
  contextChunks <~ flat_mapM extractContextFromRetriever retrieverSpans ;;
  llmSpans <~ lift (findLLMLeafSpans run) ;;
  match llmSpans with
  | _ :: _ => mapM (fun llmSpan => convertRunToReviewItem llmSpan now contextChunks) llmSpans
  | [] => item <~ convertRunToReviewItem run now contextChunks ;; ret [item]
  end.

(** [items.length === 1 ? items[0] : items]. *)
Definition one_or_many (items : list value) : value :=
  match items with
  | [item] => item
  | _ => VArr items
  end.

Definition normalize (data : value) : M value :=
  now <~ now_iso H ;;
  runs <~ lift (rootRuns data) ;;
  match runs with
  | None => ret (VArr [])
  | Some runs =>
      items <~ flat_mapM (processRootRun now) runs ;;
      ret (one_or_many items)
  end.

Definition langSmithAdapter : Adapters.TraceAdapter := {|
  Adapters.name := "langsmith";
  Adapters.detect := fun data => Ok (isLangSmithExport data);
  Adapters.normalize := fun _ data => normalize data
|}.

End WithHost.
End LangSmith.

(** ** OpenTelemetry adapter ([lib/adapters/otel.ts]) *)

Module OTel.
Import Adapters Review.

Definition SCHEMA_VERSION : float := 1%float.

Definition elements (v : value) : list value :=
  match v with VArr l => l | _ => [] end.

Definition stack_overflow : string := "Maximum call stack size exceeded".

(** [v.toLowerCase()]. *)
Definition call_toLowerCase (v : value) : res string :=
  match v with
  | VStr s => Ok (toLowerCase s)
  | VUndef | VNull => Throw type_error_read
  | _ => Throw type_error_call
  end.

(** [l.some(p)] with a callback that may raise. *)
Fixpoint some_res {A : Type} (p : A -> res bool) (l : list A) : res bool :=
  match l with
  | [] => Ok false
  | x :: l' => b <- p x ;; if b then Ok true else some_res p l'
  end.

(** [SameValueZero], the key equality of [Map] and [Set], on two values
    held by different nodes of the parsed document (two distinct objects
    or arrays are never the same reference). *)
Definition same_value_zero (a b : value) : bool :=
  match a, b with
  | VUndef, VUndef => true
  | VNull, VNull => true
  | VBool x, VBool y => Bool.eqb x y
  | VNum x, VNum y => PrimFloat.eqb x y || (PrimFloat.is_nan x && PrimFloat.is_nan y)
  | VStr x, VStr y => String.eqb x y
  | _, _ => false
  end.

(** A span id together with the position of the span that holds it: the
    ids of one and the same span are the same reference. *)
Definition id_eq (a b : nat * value) : bool :=
  same_value_zero (snd a) (snd b) || (Nat.eqb (fst a) (fst b) && is_object (snd a)).

(** [Set.prototype.add]. *)
Definition set_add (x : nat * value) (s : list (nat * value)) : list (nat * value) :=
  if existsb (id_eq x) s then s else s ++ [x].

(** [Map.prototype.get]; [None] is [undefined]. *)
Fixpoint childMap_get (k : value) (m : list (value * list (nat * value)))
  : option (list (nat * value)) :=
  match m with
  | [] => None
  | (k', s) :: m' => if same_value_zero k' k then Some s else childMap_get k m'
  end.

(** [Map.prototype.set]. *)
Fixpoint childMap_set (k : value) (s : list (nat * value))
  (m : list (value * list (nat * value))) : list (value * list (nat * value)) :=
  match m with
  | [] => [(k, s)]
  | (k', s') :: m' =>
      if same_value_zero k' k then (k', s) :: m' else (k', s') :: childMap_set k s m'
  end.

Section WithHost.
Context (H : Host).

(** [getAttributeValue(value)]; the recursion follows [arrayValue] and
    [kvlistValue], with [fuel] as in the LangSmith adapter.  Keys that
    are array indices are kept in insertion order. *)
Fixpoint getAttributeValue_rec (fuel : nat) (value : value) : res JS.value :=
  match fuel with
  | O => Throw stack_overflow
  | S fuel' =>
      stringValue <- JS.get value "stringValue" ;;
      if negb (is_undefined stringValue) then Ok stringValue
      else if negb (is_undefined (prop value "intValue"))
      then Ok (VNum (to_number H (prop value "intValue")))
      else if negb (is_undefined (prop value "doubleValue"))
      then Ok (prop value "doubleValue")
      else if negb (is_undefined (prop value "boolValue"))
      then Ok (prop value "boolValue")
      else if truthy (prop value "arrayValue") then
        values <- as_array (prop (prop value "arrayValue") "values") ;;
        vs <- map_res (getAttributeValue_rec fuel') values ;;
        Ok (VArr vs)
      else if truthy (prop value "kvlistValue") then
        attrs <- iterate (prop (prop value "kvlistValue") "values") ;;
        obj <- (fix loop (attrs : list JS.value) (obj : list (string * JS.value))
                  : res (list (string * JS.value)) :=
                  match attrs with
                  | [] => Ok obj
                  | attr :: attrs' =>
                      key <- JS.get attr "key" ;;
                      v <- getAttributeValue_rec fuel' (prop attr "value") ;;
                      loop attrs' (assign (to_string H key) v obj)
                  end) attrs [] ;;
        Ok (VObj obj)
      else Ok VUndef
  end.

Definition getAttributeValue (value : value) : res JS.value :=
  getAttributeValue_rec (S (LangSmith.depth value)) value.

(** The callback [a => a.key === key]. *)
Definition key_is (key : string) (a : value) : res bool :=
  k <- JS.get a "key" ;; Ok (eq_str k key).

(** First loop of [getAttribute]: the array encoding.  [None] means the
    loop ended without returning. *)
Fixpoint getAttribute_array (attributes : list value) (keys : list string)
  : res (option value) :=
  match keys with
  | [] => Ok None
  | key :: keys' =>
      attr <- find_res (key_is key) attributes ;;
      if truthy attr then
        v <- getAttributeValue (prop attr "value") ;; Ok (Some v)
      else getAttribute_array attributes keys'
  end.

(** Second loop of [getAttribute]: flattened and nested object encodings. *)
Fixpoint getAttribute_object (span attributes : value) (keys : list string)
  : res value :=
  match keys with
  | [] => Ok VUndef
  | key :: keys' =>
      in_span <- in_op key span ;;
      if in_span && negb (is_undefined (prop span key)) then Ok (prop span key)
      else if truthy attributes && typeof_object attributes
              && negb (isArray attributes) && has_prop key attributes
      then Ok (prop attributes key)
      else getAttribute_object span attributes keys'
  end.

Definition getAttribute (span : value) (keys : list string) : res value :=
  attributes <- JS.get span "attributes" ;;
  found <- (if truthy attributes && isArray attributes
            then getAttribute_array (elements attributes) keys
            else Ok None) ;;
  match found with
  | Some v => Ok v
  | None => getAttribute_object span attributes keys
  end.

Definition getAttributesObject (span : value) : res value :=
  attributes <- JS.get span "attributes" ;;
  if truthy attributes && isArray attributes then
    obj <- (fix loop (attrs : list value) (obj : list (string * value))
              : res (list (string * value)) :=
              match attrs with
              | [] => Ok obj
              | attr :: attrs' =>
                  key <- JS.get attr "key" ;;
                  v <- getAttributeValue (prop attr "value") ;;
                  loop attrs' (assign (to_string H key) v obj)
              end) (elements attributes) [] ;;
    Ok (VObj obj)
  else if truthy attributes && typeof_object attributes then
    Ok (VObj (entries attributes))
  else Ok (VObj []).

Definition isOTelExport (data : value) : res bool :=
  if negb (is_object data) then Ok false
  else if has_prop "resourceSpans" data && isArray (prop data "resourceSpans")
  then Ok true
  else if has_prop "spans" data && isArray (prop data "spans") then
    let spans := elements (prop data "spans") in
    match spans with
    | [] => Ok false
    | span0 :: _ =>
        has_trace <- in_op "traceId" span0 ;;
        if has_trace then in_op "spanId" span0 else Ok false
    end
  else if has_prop "traceId" data && has_prop "spanId" data && has_prop "name" data
  then Ok true
  else Ok false.

(** The callback [key => getAttribute(span, [key]) !== undefined]. *)
Definition has_attribute (span : value) (key : string) : res bool :=
  v <- getAttribute span [key] ;; Ok (negb (is_undefined v)).

Definition isLLMSpan (span : value) (mappings : OTelMappingConfig) : res bool :=
  span_name <- JS.get span "name" ;;
  name <- call_toLowerCase span_name ;;
  if existsb (fun llmName => includes name (toLowerCase llmName)) (llmSpanNames mappings)
  then Ok true
  else
    hasPrompt <- some_res (has_attribute span) (promptAttributes mappings) ;;
    hasResponse <- some_res (has_attribute span) (responseAttributes mappings) ;;
    Ok (hasPrompt || hasResponse).

Definition isRetrieverSpan (span : value) (mappings : OTelMappingConfig) : res bool :=
  span_name <- JS.get span "name" ;;
  name <- call_toLowerCase span_name ;;
  Ok (existsb (fun retrieverName => includes name (toLowerCase retrieverName))
        (retrieverSpanNames mappings)).

Definition getSpanType (span : value) (mappings : OTelMappingConfig) : res SpanType :=
  isLLM <- isLLMSpan span mappings ;;
  if isLLM then Ok llm
  else
    isRetriever <- isRetrieverSpan span mappings ;;
    if isRetriever then Ok retriever
    else
      span_name <- JS.get span "name" ;;
      name <- call_toLowerCase span_name ;;
      if includes name "tool" || includes name "function" then Ok tool
      else if includes name "chain" then Ok chain
      else if includes name "embed" then Ok embedding
      else Ok unknown.

(** The loop [for (const key of keys) { v = getAttribute(span, [key]);
    if (v !== undefined) break; }]. *)
Fixpoint first_defined (span : value) (keys : list string) : res value :=
  match keys with
  | [] => Ok VUndef
  | key :: keys' =>
      v <- getAttribute span [key] ;;
      if negb (is_undefined v) then Ok v else first_defined span keys'
  end.

(** The callback [m => typeof m === 'object' && m.role === r]. *)
Definition object_role_is (r : string) (m : value) : res bool :=
  if typeof_object m then role <- JS.get m "role" ;; Ok (eq_str role r)
  else Ok false.

Definition extractPrompt (span : value) (mappings : OTelMappingConfig)
  : res (value * value) :=
  configured <- first_defined span (promptAttributes mappings) ;;
  prompt <- (if is_undefined configured
             then getAttribute span ["input"; "query"; "question"; "user_input"]
             else Ok configured) ;;
  match prompt with
  | VArr messages =>
      systemMsg <- find_res (object_role_is "system") messages ;;
      userMsg <- find_res (object_role_is "user") messages ;;
      Ok (or_else (prop userMsg "content")
            (if is_string (first_elem prompt) then first_elem prompt
             else JSON_stringify H prompt),
          prop systemMsg "content")
  | _ =>
      if is_object prompt && has_prop "messages" prompt then
        messages <- as_array (prop prompt "messages") ;;
        systemMsg <- find_res (LangSmith.role_is "system") messages ;;
        userMsg <- find_res (LangSmith.role_is "user") messages ;;
        Ok (or_else (prop userMsg "content") (VStr ""), prop systemMsg "content")
      else Ok (VStr (to_string H (or_else prompt (VStr ""))), VUndef)
  end.

(** [o.content || o.text || o.message?.content || JSON.stringify(o)]. *)
Definition content_of (o : value) : value :=
  or_else (prop o "content")
    (or_else (prop o "text")
       (or_else (prop (prop o "message") "content") (JSON_stringify H o))).

Definition extractResponse (span : value) (mappings : OTelMappingConfig) : res value :=
  configured <- first_defined span (responseAttributes mappings) ;;
  response <- (if is_undefined configured
               then getAttribute span ["output"; "answer"; "response"; "completion"]
               else Ok configured) ;;
  match response with
  | VArr (first :: _) =>
      if is_string first then Ok first
      else if is_nullish first then Throw type_error_read
      else Ok (content_of first)
  | VArr [] | VObj _ => Ok (content_of response)
  | _ => Ok (VStr (to_string H (or_else response (VStr ""))))
  end.

Fixpoint extractModel_loop (span : value) (keys : list string) : res string :=
  match keys with
  | [] => Ok "unknown"
  | key :: keys' =>
      model <- getAttribute span [key] ;;
      if negb (is_undefined model) then Ok (to_string H model)
      else extractModel_loop span keys'
  end.

Definition extractModel (span : value) (mappings : OTelMappingConfig) : res string :=
  extractModel_loop span (modelAttributes mappings).

Definition extractTokenUsage (span : value) (mappings : OTelMappingConfig) : res float :=
  total <- first_defined span (Adapters.total (tokenAttributes mappings)) ;;
  if negb (is_undefined total) then Ok (to_number H total)
  else
    input <- first_defined span (Adapters.input (tokenAttributes mappings)) ;;
    output <- first_defined span (Adapters.output (tokenAttributes mappings)) ;;
    let inputTokens := if is_undefined input then 0%float else to_number H input in
    let outputTokens := if is_undefined output then 0%float else to_number H output in
    Ok (PrimFloat.add inputTokens outputTokens).

(** One document of a retriever span's [documents] attribute. *)
Definition contextChunk (span_name : value) (doc : value) : M value :=
  match doc with
  | VStr _ =>
      id <~ uuidv4 H ;;
      ret (VObj [ ("id", id); ("text", doc); ("source", span_name);
                  ("score", VNum 0%float) ])
  | _ =>
      metadata <~ lift (JS.get doc "metadata") ;;
      id <~ (if truthy (prop doc "id") then ret (prop doc "id") else uuidv4 H) ;;
      ret (VObj
        [ ("id", VStr (to_string H id));
          ("text", VStr (to_string H
                     (or_else (prop doc "page_content")
                        (or_else (prop doc "content")
                           (or_else (prop doc "text") (VStr ""))))));
          ("source", VStr (to_string H
                       (or_else (prop doc "source")
                          (or_else (prop metadata "source") span_name))));
          ("score", VNum (to_number H
                      (or_else (prop doc "score")
                         (or_else (prop doc "similarity") (VNum 0%float)))));
          ("metadata", metadata) ])
  end.

Fixpoint extractContextFromRetrievers (spans : list value) (mappings : OTelMappingConfig)
  : M (list value) :=
  match spans with
  | [] => ret []
  | span :: spans' =>
      isRetriever <~ lift (isRetrieverSpan span mappings) ;;
      chunks <~ (if isRetriever then
                   docs <~ lift (getAttribute span
                                   ["documents"; "retriever.documents"; "docs"; "results"]) ;;
                   match docs with
                   | VArr ds => mapM (contextChunk (prop span "name")) ds
                   | _ => ret []
                   end
                 else ret []) ;;
      rest <~ extractContextFromRetrievers spans' mappings ;;
      ret (chunks ++ rest)
  end.

Definition nanoToMs (nano : value) : res float :=
  n <- BigInt_of H nano ;;
  Ok (Number_of_bigint H (Z.quot n 1000000)).

Definition nanoToIso (nano : value) : res string :=
  ms <- nanoToMs nano ;;
  Date_toISOString H ms.

Definition calculateLatency (span : value) : float :=
  match (startMs <- nanoToMs (prop span "startTimeUnixNano") ;;
         endMs <- nanoToMs (prop span "endTimeUnixNano") ;;
         Ok (PrimFloat.sub endMs startMs)) with
  | Ok latency => latency
  | Throw _ => 0%float
  end.

(** [spans.push(...v)] guarded by [if (v)]. *)
Definition spread_if_truthy (v : value) : res (list value) :=
  if truthy v then iterate v else Ok [].

Definition extractSpans (data : value) : res (list value) :=
  resourceSpans <- JS.get data "resourceSpans" ;;
  nested <-
    (if truthy resourceSpans then
       rss <- iterate resourceSpans ;;
       LangSmith.flat_map_res
         (fun resourceSpan =>
            scopeSpans <- JS.get resourceSpan "scopeSpans" ;;
            if truthy scopeSpans then
              sss <- iterate scopeSpans ;;
              LangSmith.flat_map_res
                (fun scopeSpan =>
                   spans <- JS.get scopeSpan "spans" ;;
                   spread_if_truthy spans)
                sss
            else Ok [])
         rss
     else Ok []) ;;
  flat <- spread_if_truthy (prop data "spans") ;;
  in_spanId <- in_op "spanId" data ;;
  let single :=
    if in_spanId && has_prop "traceId" data && has_prop "name" data
    then [data] else [] in
  Ok (nested ++ flat ++ single).

(** The loop that fills [childMap]; [index] is the position of the head
    of [spans] in the whole list. *)
Fixpoint build_childMap (index : nat) (spans : list value)
  (childMap : list (value * list (nat * value))) : res (list (value * list (nat * value))) :=
  match spans with
  | [] => Ok childMap
  | span :: spans' =>
      parentSpanId <- JS.get span "parentSpanId" ;;
      if truthy parentSpanId then
        let children :=
          match childMap_get parentSpanId childMap with
          | Some set => set
          | None => []
          end in
        build_childMap (S index) spans'
          (childMap_set parentSpanId (set_add (index, prop span "spanId") children) childMap)
      else build_childMap (S index) spans' childMap
  end.

(** The spans of a list paired with their positions. *)
Definition indexed (spans : list value) : list (nat * value) :=
  combine (seq 0 (List.length spans)) spans.

Definition findLeafLLMSpans (spans : list value) (mappings : OTelMappingConfig)
  : res (list value) :=
  llmSpans <- filter_res (fun s => isLLMSpan (snd s) mappings) (indexed spans) ;;
  childMap <- build_childMap 0 spans [] ;;
  let llmSpanIds :=
    fold_left (fun set s => set_add (fst s, prop (snd s) "spanId") set) llmSpans [] in
  let leafLLMSpans :=
    filter (fun s =>
              match childMap_get (prop (snd s) "spanId") childMap with
              | None => true
              | Some children =>
                  negb (existsb (fun childId => existsb (id_eq childId) llmSpanIds)
                          children)
              end) llmSpans in
  Ok (map snd leafLLMSpans).

Definition convertSpanToReviewItem (span : value) (contextChunks : list value)
  (mappings : OTelMappingConfig) (now : value) : M value :=
  ps <~ lift (extractPrompt span mappings) ;;
  let prompt := fst ps in
  let systemPrompt := snd ps in
  response <~ lift (extractResponse span mappings) ;;
  model <~ lift (extractModel span mappings) ;;
  tokenUsage <~ lift (extractTokenUsage span mappings) ;;
  let latencyMs := calculateLatency span in
  let createdAt :=
    match nanoToIso (prop span "startTimeUnixNano") with
    | Ok iso => VStr iso
    | Throw _ => now
    end in
  let error :=
    if eq_num (prop (prop span "status") "code") 2%float
    then prop (prop span "status") "message" else VUndef in
  id <~ (if truthy (prop span "spanId") then ret (prop span "spanId") else uuidv4 H) ;;
  spanType <~ lift (getSpanType span mappings) ;;
  original_data <~ lift (getAttributesObject span) ;;
  ret (VObj
    [ ("id", id);
      ("version", VNum SCHEMA_VERSION);
      ("created_at", createdAt);
      ("updated_at", now);
      ("status", VStr "pending");
      ("trace_metadata", VObj
         [ ("trace_id", prop span "traceId");
           ("span_id", prop span "spanId");
           ("parent_id", prop span "parentSpanId");
           ("span_type", VStr (SpanType_name spanType));
           ("source", VStr "otel");
           ("error", error);
           ("latency_ms", VNum latencyMs);
           ("original_data", original_data) ]);
      ("input", VObj
         [ ("prompt", prompt);
           ("system_prompt", systemPrompt);
           ("context_chunks", VArr contextChunks) ]);
      ("outputs",
         if truthy response
         then VArr [ VObj
                [ ("model_id", VStr model);
                  ("text", response);
                  ("token_usage", VNum tokenUsage);
                  ("latency_ms", VNum latencyMs) ] ]
         else VArr []);
      ("human_feedback", VObj []) ]).

(** The callback of [llmLikeSpans]: both [some] calls are evaluated. *)
Definition llmLike (mappings : OTelMappingConfig) (s : value) : res bool :=
  hasPrompt <- some_res (has_attribute s) (promptAttributes mappings) ;;
  hasResponse <- some_res (has_attribute s) (responseAttributes mappings) ;;
  Ok (hasPrompt || hasResponse).

(** The callback [s => !s.parentSpanId]. *)
Definition isRoot (s : value) : res bool :=
  parentSpanId <- JS.get s "parentSpanId" ;; Ok (negb (truthy parentSpanId)).

Definition convertAll (spans contextChunks : list value) (mappings : OTelMappingConfig)
  (now : value) : M value :=
  items <~ mapM (fun span => convertSpanToReviewItem span contextChunks mappings now) spans ;;
  ret (LangSmith.one_or_many items).

Definition normalize (mappings : OTelMappingConfig) (data : value) : M value :=
  now <~ now_iso H ;;
  spans <~ lift (if isArray data then Ok (elements data) else extractSpans data) ;;
  match spans with
  | [] => ret (VArr [])
  | _ :: _ =>
      contextChunks <~ extractContextFromRetrievers spans mappings ;;
      leafLLMSpans <~ lift (findLeafLLMSpans spans mappings) ;;
      match leafLLMSpans with
      | _ :: _ => convertAll leafLLMSpans contextChunks mappings now
      | [] =>
          llmLikeSpans <~ lift (filter_res (llmLike mappings) spans) ;;
          match llmLikeSpans with
          | _ :: _ => convertAll llmLikeSpans contextChunks mappings now
          | [] =>
              rootSpans <~ lift (filter_res isRoot spans) ;;
              convertAll rootSpans contextChunks mappings now
          end
      end
  end.

Definition otelAdapter : TraceAdapter := {|
  Adapters.name := "otel";
  Adapters.detect := isOTelExport;
  Adapters.normalize := normalize
|}.

End WithHost.
End OTel.

(** ** Import orchestrator and generic chain ([lib/jsonl.ts]) *)

Module Jsonl.
Import Adapters Review.

Definition MAX_FILE_SIZE : Z := 50 * 1024 * 1024.
Definition SCHEMA_VERSION : float := 1%float.

(** The two members of a [File] that the import reads. *)
Record File : Type := { size : Z; text : string }.

Definition elements (v : value) : list value :=
  match v with VArr l => l | _ => [] end.

Definition isReviewItemFormat (data : value) : res bool :=
  input <- JS.get data "input" ;;
  Ok (is_object input && has_prop "prompt" input && isArray (prop data "outputs")).

Definition isOpenAIFormat (data : value) : res bool :=
  in_model <- in_op "model" data ;;
  Ok (in_model && has_prop "choices" data && isArray (prop data "choices")).

Definition isOpenAIFineTuneFormat (data : value) : res bool :=
  in_messages <- in_op "messages" data ;;
  Ok (in_messages && isArray (prop data "messages")).

Definition isGenericFormat (data : value) : res bool :=
  in_prompt <- in_op "prompt" data ;;
  Ok ((in_prompt || has_prop "question" data || has_prop "input" data)
      && (has_prop "response" data || has_prop "answer" data
          || has_prop "output" data || has_prop "completion" data)).

(** The record returned when the size gate rejects the file. *)
Definition tooLarge : ImportResult := {|
  success := false;
  itemsImported := 0;
  items := [];
  errors := [ {| line := 0;
                 message := ("File size exceeds "
                             ++ nat_to_string (Z.to_nat (MAX_FILE_SIZE / 1024 / 1024))
                             ++ "MB limit")%string |} ]
|}.

(** [Array.isArray(result) ? result : [result]]. *)
Definition normalizedItems (result : value) : list value :=
  if isArray result then elements result else [result].

(** The record returned after a successful [adapter.normalize(data)]. *)
Definition adapterResult (result : value) : ImportResult :=
  let normalized := normalizedItems result in
  {| success := true;
     itemsImported := List.length normalized;
     items := normalized;
     errors := [] |}.

(** The record returned at the end of [parseJsonData] and [parseJsonlLines]. *)
Definition finish (items : list value) (errors : list ImportError) : ImportResult := {|
  success := Nat.eqb (List.length errors) 0 || Nat.ltb 0 (List.length items);
  itemsImported := List.length items;
  items := items;
  errors := errors
|}.

Section WithHost.
Context (H : Host).

Definition adapterRegistry : AdapterRegistry :=
  register (OTel.otelAdapter H) (register (LangSmith.langSmithAdapter H) empty_registry).

(** A context chunk built from an object [chunk]; [texts] and [scores]
    are the property names tried in order. *)
Definition objectChunk (texts scores : list string) (chunk : value) : M value :=
  metadata <~ lift (JS.get chunk "metadata") ;;
  id <~ (if truthy (prop chunk "id") then ret (prop chunk "id") else uuidv4 H) ;;
  ret (VObj
    [ ("id", VStr (to_string H id));
      ("text", VStr (to_string H
                 (fold_right (fun k rest => or_else (prop chunk k) rest) (VStr "") texts)));
      ("source", VStr (to_string H
                   (or_else (prop chunk "source")
                      (or_else (prop metadata "source") (VStr "unknown")))));
      ("score", VNum (to_number H
                  (fold_right (fun k rest => or_else (prop chunk k) rest)
                     (VNum 0%float) scores)));
      ("metadata", metadata) ]).

Definition convertOpenAIFormat (data now : value) : M value :=
  id <~ uuidv4 H ;;
  choices <~ lift (as_array (prop data "choices")) ;;
  outputs <~ lift (map_res
    (fun ic : nat * value =>
       let '(index, choice) := ic in
       message <- JS.get choice "message" ;;
       Ok (VObj
         [ ("model_id", VStr (to_string H
              (or_else (prop data "model")
                 (VStr ("model_" ++ nat_to_string index)%string))));
           ("text", or_else (prop message "content")
                      (or_else (prop choice "text") (VStr "")));
           ("token_usage", VNum (to_number H
              (or_else (prop (prop data "usage") "total_tokens") (VNum 0%float))));
           ("latency_ms", VNum 0%float) ]))
    (combine (seq 0 (List.length choices)) choices)) ;;
  ret (VObj
    [ ("id", id);
      ("version", VNum SCHEMA_VERSION);
      ("created_at", now);
      ("updated_at", now);
      ("status", VStr "pending");
      ("input", VObj
         [ ("prompt", VStr (to_string H (or_else (prop data "prompt") (VStr ""))));
           ("context_chunks", VArr []) ]);
      ("outputs", VArr outputs);
      ("human_feedback", VObj []) ]).

Definition convertOpenAIFineTuneFormat (data now : value) : M value :=
  messages <~ lift (as_array (prop data "messages")) ;;
  systemMessage <~ lift (find_res (LangSmith.role_is "system") messages) ;;
  userMessage <~ lift (find_res (LangSmith.role_is "user") messages) ;;
  assistantMessage <~ lift (find_res (LangSmith.role_is "assistant") messages) ;;
  contextChunks <~
    (if truthy (prop data "context") && isArray (prop data "context")
     then mapM (objectChunk ["text"; "content"] ["score"; "similarity"])
               (elements (prop data "context"))
     else ret []) ;;
  id <~ uuidv4 H ;;
  ret (VObj
    [ ("id", id);
      ("version", VNum SCHEMA_VERSION);
      ("created_at", now);
      ("updated_at", now);
      ("status", VStr "pending");
      ("input", VObj
         [ ("prompt", or_else (prop userMessage "content") (VStr ""));
           ("system_prompt", prop systemMessage "content");
           ("context_chunks", VArr contextChunks) ]);
      ("outputs",
         if truthy assistantMessage
         then VArr [ VObj
                [ ("model_id", VStr (to_string H
                     (or_else (prop data "model") (VStr "assistant"))));
                  ("text", prop assistantMessage "content");
                  ("token_usage", VNum 0%float);
                  ("latency_ms", VNum 0%float) ] ]
         else VArr []);
      ("human_feedback", VObj []) ]).

(** A chunk of the [context]/[contexts]/[documents]/[chunks] field. *)
Definition contextFieldChunk (chunk : value) : M value :=
  match chunk with
  | VStr _ =>
      id <~ uuidv4 H ;;
      ret (VObj [ ("id", id); ("text", chunk); ("source", VStr "document");
                  ("score", VNum 0%float) ])
  | _ =>
      objectChunk ["text"; "content"; "page_content"]
                  ["score"; "similarity"; "relevance_score"] chunk
  end.

Definition convertGenericFormat (data now : value) : M value :=
  let input := prop data "input" in
  let nested := is_object input && has_prop "prompt" input in
  let prompt :=
    if nested then to_string H (or_else (prop input "prompt") (VStr ""))
    else to_string H
           (or_else (prop data "prompt")
              (or_else (prop data "question")
                 (or_else (prop data "input") (VStr "")))) in
  let systemPrompt :=
    if nested then prop input "system_prompt" else prop data "system_prompt" in
  inputContextChunks <~
    (if nested && truthy (prop input "context_chunks")
        && isArray (prop input "context_chunks")
     then mapM (objectChunk ["text"; "content"]
                            ["score"; "similarity"; "relevance_score"])
               (elements (prop input "context_chunks"))
     else ret []) ;;
  let response :=
    to_string H
      (or_else (prop data "response")
         (or_else (prop data "answer")
            (or_else (prop data "output")
               (or_else (prop data "completion") (VStr ""))))) in
  let contextField :=
    or_else (prop data "context")
      (or_else (prop data "contexts")
         (or_else (prop data "documents") (prop data "chunks"))) in
  fieldChunks <~
    (if isArray contextField then mapM contextFieldChunk (elements contextField)
     else ret []) ;;
  let contextChunks := inputContextChunks ++ fieldChunks in
  id <~ (if truthy (prop data "id") then ret (prop data "id") else uuidv4 H) ;;
  ret (VObj
    [ ("id", VStr (to_string H id));
      ("version", VNum SCHEMA_VERSION);
      ("created_at", VStr (to_string H (or_else (prop data "created_at") now)));
      ("updated_at", now);
      ("status", VStr "pending");
      ("tags", if isArray (prop data "tags") then prop data "tags" else VUndef);
      ("input", VObj
         [ ("prompt", VStr prompt);
           ("system_prompt", systemPrompt);
           ("context_chunks", VArr contextChunks) ]);
      ("outputs", VArr [ VObj
         [ ("model_id", VStr (to_string H
              (or_else (prop data "model")
                 (or_else (prop data "model_id") (VStr "default")))));
           ("text", VStr response);
           ("token_usage", VNum (to_number H
              (or_else (prop data "tokens")
                 (or_else (prop data "token_usage") (VNum 0%float)))));
           ("latency_ms", VNum (to_number H
              (or_else (prop data "latency")
                 (or_else (prop data "latency_ms") (VNum 0%float))))) ] ]);
      ("human_feedback", VObj []) ]).

(** The filter of [textFields]: string values longer than 10. *)
Definition isTextField (entry : string * value) : bool :=
  match snd entry with
  | VStr s => Nat.ltb 10 (String.length s)
  | _ => false
  end.

Definition convertBestEffort (data now : value) : M value :=
  let textFields := map snd (filter isTextField (entries data)) in
  let prompt := or_else (nth 0 textFields VUndef) (JSON_stringify H data) in
  let response := or_else (nth 1 textFields VUndef) (VStr "") in
  id <~ uuidv4 H ;;
  ret (VObj
    [ ("id", id);
      ("version", VNum SCHEMA_VERSION);
      ("created_at", now);
      ("updated_at", now);
      ("status", VStr "pending");
      ("input", VObj [ ("prompt", prompt); ("context_chunks", VArr []) ]);
      ("outputs",
         if truthy response
         then VArr [ VObj
                [ ("model_id", VStr "unknown");
                  ("text", response);
                  ("token_usage", VNum 0%float);
                  ("latency_ms", VNum 0%float) ] ]
         else VArr []);
      ("human_feedback", VObj []) ]).

(** The already-canonical branch of [normalizeToReviewItem]: the spread
    [{ ...data, id, version, created_at, updated_at, status }]. *)
Definition passThrough (data now : value) : M value :=
  id <~ (if truthy (prop data "id") then ret (prop data "id") else uuidv4 H) ;;
  ret (VObj
    (set_prop "status" (or_else (prop data "status") (VStr "pending"))
      (set_prop "updated_at" now
        (set_prop "created_at" (or_else (prop data "created_at") now)
          (set_prop "version" (VNum SCHEMA_VERSION)
            (set_prop "id" id (entries data))))))).

Definition normalizeToReviewItem (data : value) (lineNumber : nat) : M value :=
  now <~ now_iso H ;;
  reviewItem <~ lift (isReviewItemFormat data) ;;
  if reviewItem then passThrough data now
  else
    openAI <~ lift (isOpenAIFormat data) ;;
    if openAI then convertOpenAIFormat data now
    else
      fineTune <~ lift (isOpenAIFineTuneFormat data) ;;
      if fineTune then convertOpenAIFineTuneFormat data now
      else
        generic <~ lift (isGenericFormat data) ;;
        if generic then convertGenericFormat data now
        else convertBestEffort data now.

(** One iteration of the item loop of [parseJsonData]: [try] the
    normalization of [item], [catch] into the error list. *)
Definition processItem (lineNumber : nat) (item : value)
  (acc : list value * list ImportError) : M (list value * list ImportError) :=
  try_catch
    (record <~ normalizeToReviewItem item lineNumber ;;
     ret (if truthy record then (fst acc ++ [record], snd acc) else acc))
    (fun e => ret (fst acc, snd acc ++ [ {| line := lineNumber; message := e |} ])).

Fixpoint processItems (i : nat) (data : list value)
  (acc : list value * list ImportError) : M (list value * list ImportError) :=
  match data with
  | [] => ret acc
  | item :: data' =>
      acc' <~ processItem (i + 1) item acc ;;
      processItems (S i) data' acc'
  end.

(** [try { return adapterResult(adapter.normalize(data)) } catch (e) {...}]:
    [inl] is the early return, [inr] the message caught. *)
Definition tryAdapter (reg : AdapterRegistry) (adapter : TraceAdapter) (data : value)
  : M (ImportResult + string) :=
  try_catch
    (result <~ normalize adapter (getOTelMappings reg) data ;;
     ret (inl (adapterResult result)))
    (fun e => ret (inr e)).

Definition parseJsonData (reg : AdapterRegistry) (data : value) : M ImportResult :=
  adapter <~ lift (detectAdapter reg data) ;;
  first <~ match adapter with
           | Some adapter =>
               r <~ tryAdapter reg adapter data ;;
               match r with
               | inl result => ret (inl result)
               | inr e =>
                   ret (inr [ {| line := 0;
                                 message := (name adapter ++ " adapter error: " ++ e)%string |} ])
               end
           | None => ret (inr [])
           end ;;
  match first with
  | inl result => ret result
  | inr errors =>
      if isArray data then
        second <~ match Adapters.get reg "langsmith" with
                  | Some langSmithAdapter =>
                      detected <~ lift (detect langSmithAdapter data) ;;
                      if detected then
                        r <~ tryAdapter reg langSmithAdapter data ;;
                        match r with
                        | inl result => ret (Some result)
                        | inr _ => ret None
                        end
                      else ret None
                  | None => ret None
                  end ;;
        match second with
        | Some result => ret result
        | None =>
            acc <~ processItems 0 (elements data) ([], errors) ;;
            ret (finish (fst acc) (snd acc))
        end
      else if is_object data then
        acc <~ processItem 1 data ([], errors) ;;
        ret (finish (fst acc) (snd acc))
      else ret (finish [] errors)
  end.

(** One iteration of the line loop of [parseJsonlLines]. *)
Definition processLine (reg : AdapterRegistry) (lineNumber : nat) (line : string)
  (acc : list value * list ImportError) : M (list value * list ImportError) :=
  try_catch
    (parsed <~ lift (JSON_parse H line) ;;
     adapter <~ lift (detectAdapter reg parsed) ;;
     match adapter with
     | Some adapter =>
         result <~ normalize adapter (getOTelMappings reg) parsed ;;
         let normalized := normalizedItems result in
         ret (fst acc ++ normalized, snd acc)
     | None =>
         item <~ normalizeToReviewItem parsed lineNumber ;;
         ret (if truthy item then (fst acc ++ [item], snd acc) else acc)
     end)
    (fun e => ret (fst acc, snd acc ++ [ {| line := lineNumber; message := e |} ])).

Fixpoint processLines (reg : AdapterRegistry) (i : nat) (lines : list string)
  (acc : list value * list ImportError) : M (list value * list ImportError) :=
  match lines with
  | [] => ret acc
  | line :: lines' =>
      acc' <~ processLine reg (i + 1) line acc ;;
      processLines reg (S i) lines' acc'
  end.

(** [text.split('\n').filter((line) => line.trim())]. *)
Definition nonBlankLines (text : string) : list string :=
  filter (fun line => str_truthy (trim line)) (split_on nl text).

Definition parseJsonlLines (reg : AdapterRegistry) (text : string) : M ImportResult :=
  let lines := nonBlankLines text in
  acc <~ processLines reg 0 lines ([], []) ;;
  ret (finish (fst acc) (snd acc)).

(** The part of [parseJsonlFile] that follows the size check, from
    [const text = await file.text()] on. *)
Definition parseText (reg : AdapterRegistry) (text : string) : M ImportResult :=
  let trimmed := trim text in
  if startsWith trimmed "{" || startsWith trimmed "[" then
    try_catch
      (parsed <~ lift (JSON_parse H trimmed) ;;
       parseJsonData reg parsed)
      (fun _ => parseJsonlLines reg text)
  else parseJsonlLines reg text.

Definition parseJsonlFile (reg : AdapterRegistry) (file : File) : M ImportResult :=
  if (MAX_FILE_SIZE <? size file)%Z then ret tooLarge
  else parseText reg (text file).

(** *** Vocabulary of the statements

    The stage of the generic chain that [normalizeToReviewItem] selects
    for [data], by the same tests in the same order. *)
Inductive Stage : Type :=
| PassThrough | OpenAICompletion | OpenAIFineTune | Generic | BestEffort.

Definition stageOf (data : value) : res Stage :=
  reviewItem <- isReviewItemFormat data ;;
  if reviewItem then Ok PassThrough
  else
    openAI <- isOpenAIFormat data ;;
    if openAI then Ok OpenAICompletion
    else
      fineTune <- isOpenAIFineTuneFormat data ;;
      if fineTune then Ok OpenAIFineTune
      else
        generic <- isGenericFormat data ;;
        if generic then Ok Generic else Ok BestEffort.

(** The way a record comes out of the core normalization. *)
Inductive Route : Type :=
| ViaLangSmith
| ViaOTel
| ViaChain (stage : Stage).

(** [produces mappings data route item]: normalizing the unit [data]
    along [route] returns, and [item] is one of the records handed to the
    orchestrator. *)
Inductive produces (mappings : OTelMappingConfig) (data : value)
  : Route -> value -> Prop :=
| produces_langsmith (s s' : nat) (result item : value) :
    LangSmith.normalize H data s = (Ok result, s') ->
    In item (normalizedItems result) ->
    produces mappings data ViaLangSmith item
| produces_otel (s s' : nat) (result item : value) :
    OTel.normalize H mappings data s = (Ok result, s') ->
    In item (normalizedItems result) ->
    produces mappings data ViaOTel item
| produces_chain (lineNumber s s' : nat) (stage : Stage) (item : value) :
    stageOf data = Ok stage ->
    normalizeToReviewItem data lineNumber s = (Ok item, s') ->
    produces mappings data (ViaChain stage) item.

End WithHost.
End Jsonl.

(** ** Export ([lib/jsonl.ts], [exportToJsonl] and [exportForTraining]) *)

Module JsonlExport.

(** [a === b] on two values held by different properties (two distinct
    objects or arrays are never the same reference). *)
Definition strict_equals (a b : value) : bool :=
  match a, b with
  | VUndef, VUndef => true
  | VNull, VNull => true
  | VBool x, VBool y => Bool.eqb x y
  | VNum x, VNum y => PrimFloat.eqb x y
  | VStr x, VStr y => String.eqb x y
  | _, _ => false
  end.

(** The callback [o => o.model_id === selected]. *)
Definition model_is (selected : value) (o : value) : res bool :=
  model_id <- JS.get o "model_id" ;; Ok (strict_equals model_id selected).

(** [item.human_feedback.corrected_text ||
     (item.human_feedback.selected_model_id
        ? item.outputs.find(...)?.text : item.outputs[0]?.text) || '']. *)
Definition responseText (item : value) : res value :=
  human_feedback <- JS.get item "human_feedback" ;;
  corrected_text <- JS.get human_feedback "corrected_text" ;;
  if truthy corrected_text then Ok corrected_text
  else
    let selected := prop human_feedback "selected_model_id" in
    chosen <- (if truthy selected then
                 outputs <- as_array (prop item "outputs") ;;
                 found <- find_res (model_is selected) outputs ;;
                 Ok (prop found "text")
               else
                 if is_nullish (prop item "outputs") then Throw type_error_read
                 else Ok (prop (first_elem (prop item "outputs")) "text")) ;;
    Ok (or_else chosen (VStr "")).

Definition message (role : string) (content : value) : value :=
  VObj [ ("role", VStr role); ("content", content) ].

(** The [messages] array that both exports build for one record. *)
Definition exportMessages (item : value) : res (list value) :=
  input <- JS.get item "input" ;;
  system_prompt <- JS.get input "system_prompt" ;;
  let system := if truthy system_prompt then [ message "system" system_prompt ] else [] in
  let user := [ message "user" (prop input "prompt") ] in
  response <- responseText item ;;
  let assistant := if truthy response then [ message "assistant" response ] else [] in
  Ok (system ++ user ++ assistant).

(** The stable sort of [Array.prototype.sort]: an element moves behind a
    later one only when the comparator is positive on the pair.  For a
    consistent comparator this is the order ECMAScript prescribes; for an
    inconsistent one (a comparator that yields [NaN] on some pairs only)
    ECMAScript leaves the order to the engine, and this is one such
    order. *)
Fixpoint insert_sorted (compare : value -> value -> float) (x : value) (l : list value)
  : list value :=
  match l with
  | [] => [x]
  | y :: l' =>
      if PrimFloat.ltb 0%float (compare x y) then y :: insert_sorted compare x l'
      else x :: l
  end.

Definition sort (compare : value -> value -> float) (l : list value) : list value :=
  fold_right (insert_sorted compare) [] l.

(** The callback [c => !c.excluded]. *)
Definition not_excluded (c : value) : res bool :=
  excluded <- JS.get c "excluded" ;; Ok (negb (truthy excluded)).

(** The callback [c => ({ text: c.text, source: c.source, score: c.score })]. *)
Definition exportedChunk (c : value) : value :=
  VObj [ ("text", prop c "text"); ("source", prop c "source"); ("score", prop c "score") ].

Section WithHost.
Context (H : Host).

(** [arr.join(sep)] on the values of an array. *)
Definition join (sep : string) (l : list value) : string :=
  String.concat sep
    (map (fun x => match x with
                   | VUndef | VNull => ""
                   | _ => to_string H x
                   end) l).

(** The callback of [items.map] in [exportToJsonl]. *)
Definition exportLine (options item : value) : res value :=
  if truthy (prop options "includeMetadata") then Ok (JSON_stringify H item)
  else
    messages <- exportMessages item ;;
    Ok (JSON_stringify H (VObj [ ("messages", VArr messages) ])).

Definition exportToJsonl (items : list value) (options : value) : res string :=
  lines <- map_res (exportLine options) items ;;
  Ok (join (String nl "") lines).

(** [c.rank ?? 999], as a number. *)
Definition rank (c : value) : float :=
  to_number H (if is_nullish (prop c "rank") then VNum 999%float else prop c "rank").

(** The comparator [(a, b) => (a.rank ?? 999) - (b.rank ?? 999)]. *)
Definition byRank (a b : value) : float := PrimFloat.sub (rank a) (rank b).

(** The object [exported] that [exportForTraining] serializes. *)
Definition exportedRecord (item : value) : res value :=
  id <- JS.get item "id" ;;
  input <- JS.get item "input" ;;
  context_chunks <- JS.get input "context_chunks" ;;
  chunks <- as_array context_chunks ;;
  kept <- filter_res not_excluded chunks ;;
  let context := map exportedChunk (sort byRank kept) in
  let human_feedback := prop item "human_feedback" in
  messages <- exportMessages item ;;
  Ok (VObj [ ("id", id);
             ("messages", VArr messages);
             ("context", VArr context);
             ("human_feedback", human_feedback) ]).

Definition exportForTraining (items : list value) : res string :=
  lines <- map_res (fun item => exported <- exportedRecord item ;;
                                Ok (JSON_stringify H exported)) items ;;
  Ok (join (String nl "") lines).

End WithHost.
End JsonlExport.

(** ** Helpers of the user interface ([lib/utils.ts]) *)

Module Utils.

(** [s.slice(start, end)] for integral bounds. *)
Definition slice (s : string) (start end_ : Z) : string :=
  let len := Z.of_nat (String.length s) in
  let from := if (start <? 0)%Z then Z.max (len + start) 0 else Z.min start len in
  let to := if (end_ <? 0)%Z then Z.max (len + end_) 0 else Z.min end_ len in
  String.substring (Z.to_nat from) (Z.to_nat (Z.max (to - from) 0)) s.

(** [truncateText(text, maxLength)], for an integral [maxLength]. *)
Definition truncateText (text : string) (maxLength : Z) : string :=
  if (Z.of_nat (String.length text) <=? maxLength)%Z then text
  else (slice text 0 maxLength ++ "...")%string.

(** [Math.ceil(n / d)] for a length [n] and a positive [d]. *)
Definition ceil_div (n d : nat) : nat :=
  n / d + (if Nat.eqb (n mod d) 0 then 0 else 1).

(** [estimateTokenCount(text)]. *)
Definition estimateTokenCount (text : string) : nat := ceil_div (String.length text) 4.

Section WithLocale.
(** [new Date(ms).toLocaleDateString()]; [None] is the invalid date. *)
Variable toLocaleDateString : option Z -> string.

(** [formatRelativeTime(date)] at the time [now]; [then_] is
    [new Date(date).getTime()], [None] standing for [NaN]. *)
Definition formatRelativeTime (now : Z) (then_ : option Z) : string :=
  match then_ with
  | None => toLocaleDateString then_
  | Some t =>
      let diffMs := (now - t)%Z in
      let diffSec := (diffMs / 1000)%Z in
      let diffMin := (diffSec / 60)%Z in
      let diffHour := (diffMin / 60)%Z in
      let diffDay := (diffHour / 24)%Z in
      if (diffSec <? 60)%Z then "just now"
      else if (diffMin <? 60)%Z then (nat_to_string (Z.to_nat diffMin) ++ "m ago")%string
      else if (diffHour <? 24)%Z then (nat_to_string (Z.to_nat diffHour) ++ "h ago")%string
      else if (diffDay <? 7)%Z then (nat_to_string (Z.to_nat diffDay) ++ "d ago")%string
      else toLocaleDateString then_
  end.

End WithLocale.
End Utils.

(** ** Persistence ([lib/db.ts])

    [Table] gathers the operations of the Dexie table [db.reviewItems]
    that the functions below call; [D] is the state of the database, and
    a rejected promise is a [Throw]. *)

Module Db.

Record Table (D : Type) : Type := {
  bulkAdd : list value -> D -> res unit * D;           (* reviewItems.bulkAdd(items) *)
  toArray : D -> res (list value) * D;                 (* reviewItems.toArray() *)
  countByStatus : string -> D -> res value * D;        (* where('status').equals(s).count() *)
  count : D -> res value * D;                          (* reviewItems.count() *)
  bulkDelete : list string -> D -> res unit * D        (* reviewItems.bulkDelete(ids) *)
}.
Arguments bulkAdd {D} _ _ _.
Arguments toArray {D} _ _.
Arguments countByStatus {D} _ _ _.
Arguments count {D} _ _.
Arguments bulkDelete {D} _ _ _.

Section WithTable.
Context {D : Type} (T : Table D).

Definition addItems (items : list value) (d : D) : res unit * D := bulkAdd T items d.

Definition getAllItems (d : D) : res (list value) * D := toArray T d.

Definition deleteItems (ids : list string) (d : D) : res unit * D := bulkDelete T ids d.

(** The loop over the four statuses, then the total. *)
Fixpoint countStatuses (statuses : list string) (counts : list (string * value)) (d : D)
  : res (list (string * value)) * D :=
  match statuses with
  | [] => (Ok counts, d)
  | status :: statuses' =>
      match countByStatus T status d with
      | (Ok n, d') => countStatuses statuses' (set_prop status n counts) d'
      | (Throw e, d') => (Throw e, d')
      end
  end.

Definition getStatusCounts (d : D) : res value * D :=
  match countStatuses ["pending"; "approved"; "rejected"; "modified"] [] d with
  | (Ok counts, d1) =>
      match count T d1 with
      | (Ok total, d2) => (Ok (VObj (set_prop "total" total counts)), d2)
      | (Throw e, d2) => (Throw e, d2)
      end
  | (Throw e, d1) => (Throw e, d1)
  end.

End WithTable.
End Db.

(** ** The review store ([store/review-store.ts])

    The state of the store, with the types its interface declares; a
    [Set<string>] is the list of its members in insertion order. *)

Module Store.
Import Review.

Record ReviewFilters : Type := {
  status : value;
  tags : value;
  modelId : value;
  search : value;
  sortBy : value;
  sortOrder : value
}.

Definition defaultFilters : ReviewFilters := {|
  status := VStr "all";
  tags := VArr [];
  modelId := VUndef;
  search := VStr "";
  sortBy := VStr "created_at";
  sortOrder := VStr "desc"
|}.

Record ReviewStats : Type := {
  total : value;
  pending : value;
  approved : value;
  rejected : value;
  modified : value
}.

Definition defaultStats : ReviewStats := {|
  total := VNum 0%float;
  pending := VNum 0%float;
  approved := VNum 0%float;
  rejected := VNum 0%float;
  modified := VNum 0%float
|}.

Record State : Type := {
  items : list value;
  selectedItemId : option string;      (* string | null *)
  selectedIds : list string;           (* Set<string> *)
  filters : ReviewFilters;
  stats : ReviewStats;
  isLoading : bool;
  error : option string                (* string | null *)
}.

Definition initialState : State := {|
  items := [];
  selectedItemId := None;
  selectedIds := [];
  filters := defaultFilters;
  stats := defaultStats;
  isLoading := false;
  error := None
|}.

(** [Set.prototype.has], [delete] and [add] on a [Set<string>]. *)
Definition set_has (id : string) (s : list string) : bool := existsb (String.eqb id) s.

Definition set_delete (id : string) (s : list string) : list string :=
  filter (fun x => negb (String.eqb x id)) s.

Definition set_add (id : string) (s : list string) : list string :=
  if set_has id s then s else s ++ [id].

Definition toggleItemSelection (id : string) (st : State) : State := {|
  items := items st;
  selectedItemId := selectedItemId st;
  selectedIds := if set_has id (selectedIds st)
                 then set_delete id (selectedIds st)
                 else set_add id (selectedIds st);
  filters := filters st;
  stats := stats st;
  isLoading := isLoading st;
  error := error st
|}.

(** The outcome that [importFile] reports to the interface. *)
Record ImportOutcome : Type := { success : bool; message : string }.

(** What [downloadFile] is called with. *)
Record Download : Type := { content : string; filename : string; mimeType : string }.

(** [s.replace(/[:.]/g, '-')]. *)
Fixpoint dashed (s : string) : string :=
  match s with
  | EmptyString => EmptyString
  | String c s' =>
      String (if Ascii.eqb c ":" || Ascii.eqb c "." then "-"%char else c) (dashed s')
  end.

(** The callback [item => item.status === status]. *)
Definition status_is (status : value) (item : value) : res bool :=
  item_status <- JS.get item "status" ;; Ok (JsonlExport.strict_equals item_status status).

(** The callback [item => item.status === 'approved' || item.status === 'modified']. *)
Definition approved_or_modified (item : value) : res bool :=
  item_status <- JS.get item "status" ;;
  Ok (eq_str item_status "approved" || eq_str item_status "modified").

(** The filter that [exportItems] applies to the items of the store. *)
Definition exportable (f : ReviewFilters) (item : value) : res bool :=
  if truthy (status f) && negb (eq_str (status f) "all")
  then status_is (status f) item
  else approved_or_modified item.

Section WithHost.
Context (H : Host).

(** [exportItems(options)]: [None] when nothing is downloaded. *)
Definition exportItems (st : State) (options : value) : M (option Download) :=
  itemsToExport <~ lift (filter_res (exportable (filters st)) (items st)) ;;
  match itemsToExport with
  | [] => ret None
  | _ :: _ =>
      jsonl <~ lift (JsonlExport.exportToJsonl H itemsToExport options) ;;
      now <~ now_iso H ;;
      let timestamp := dashed (to_string H now) in
      ret (Some {| content := jsonl;
                   filename := ("loopdeck-export-" ++ timestamp ++ ".jsonl")%string;
                   mimeType := "application/jsonl" |})
  end.

(** [exportForTraining()] of the store. *)
Definition exportForTraining (st : State) : M (option Download) :=
  approvedItems <~ lift (filter_res approved_or_modified (items st)) ;;
  match approvedItems with
  | [] => ret None
  | _ :: _ =>
      jsonl <~ lift (JsonlExport.exportForTraining H approvedItems) ;;
      now <~ now_iso H ;;
      let timestamp := dashed (to_string H now) in
      ret (Some {| content := jsonl;
                   filename := ("loopdeck-training-" ++ timestamp ++ ".jsonl")%string;
                   mimeType := "application/jsonl" |})
  end.

Section WithTable.
Context {D : Type} (T : Db.Table D).

(** The store, the database and the number of oracle draws. *)
Record World : Type := { store : State; db : D; draws : nat }.

Definition withStore (w : World) (st : State) : World :=
  {| store := st; db := db w; draws := draws w |}.

(** [counts.k || 0]. *)
Definition countOr0 (counts : value) (k : string) : value :=
  or_else (prop counts k) (VNum 0%float).

Definition loadItems (w : World) : World :=
  let st := store w in
  let loading := {| items := items st; selectedItemId := selectedItemId st;
                    selectedIds := selectedIds st; filters := filters st;
                    stats := stats st; isLoading := true; error := None |} in
  let failed (e : string) (d : D) :=
    {| store := {| items := items st; selectedItemId := selectedItemId st;
                   selectedIds := selectedIds st; filters := filters st;
                   stats := stats st; isLoading := false; error := Some e |};
       db := d; draws := draws w |} in
  match Db.getAllItems T (db w) with
  | (Ok loaded, d1) =>
      match Db.getStatusCounts T d1 with
      | (Ok counts, d2) =>
          {| store := {| items := loaded; selectedItemId := selectedItemId loading;
                         selectedIds := selectedIds loading; filters := filters loading;
                         stats := {| total := prop counts "total";
                                     pending := countOr0 counts "pending";
                                     approved := countOr0 counts "approved";
                                     rejected := countOr0 counts "rejected";
                                     modified := countOr0 counts "modified" |};
                         isLoading := false; error := error loading |};
             db := d2; draws := draws w |}
      | (Throw e, d2) => failed e d2
      end
  | (Throw e, d1) => failed e d1
  end.

(** The message of a successful import. *)
Definition importedMessage (r : ImportResult) : string :=
  ("Successfully imported " ++ nat_to_string (List.length (Review.items r)) ++ " items"
   ++ (if Nat.ltb 0 (List.length (errors r))
       then " (" ++ nat_to_string (List.length (errors r)) ++ " errors)"
       else ""))%string.

Definition setLoading (st : State) (loading : bool) (e : option string) : State :=
  {| items := items st; selectedItemId := selectedItemId st; selectedIds := selectedIds st;
     filters := filters st; stats := stats st; isLoading := loading; error := e |}.

Definition importFile (reg : Adapters.AdapterRegistry) (file : Jsonl.File) (w : World)
  : ImportOutcome * World :=
  let started := setLoading (store w) true None in
  match Jsonl.parseJsonlFile H reg file (draws w) with
  | (Ok result, s') =>
      if Nat.ltb 0 (List.length (Review.items result)) then
        match Db.addItems T (Review.items result) (db w) with
        | (Ok _, d1) =>
            let loaded := loadItems {| store := started; db := d1; draws := s' |} in
            ({| success := true; message := importedMessage result |},
             withStore loaded (setLoading (store loaded) false (error (store loaded))))
        | (Throw e, d1) =>
            ({| success := false; message := e |},
             {| store := setLoading started false (Some e); db := d1; draws := s' |})
        end
      else
        ({| success := false; message := "No valid items found in file" |},
         {| store := setLoading started false None; db := db w; draws := s' |})
  | (Throw e, s') =>
      ({| success := false; message := e |},
       {| store := setLoading started false (Some e); db := db w; draws := s' |})
  end.

(** [ids.includes(state.selectedItemId || '')]. *)
Definition selectedItemDeleted (ids : list string) (st : State) : bool :=
  existsb (String.eqb (match selectedItemId st with
                       | Some id => id
                       | None => ""
                       end)) ids.

Definition deleteItems (ids : list string) (w : World) : World :=
  let st := store w in
  match Db.deleteItems T ids (db w) with
  | (Ok _, d1) =>
      loadItems
        {| store := {| items := items st;
                       selectedItemId := if selectedItemDeleted ids st then None
                                         else selectedItemId st;
                       selectedIds := filter (fun id => negb (existsb (String.eqb id) ids))
                                        (selectedIds st);
                       filters := filters st; stats := stats st;
                       isLoading := isLoading st; error := error st |};
           db := d1; draws := draws w |}
  | (Throw e, d1) =>
      {| store := setLoading st (isLoading st) (Some e); db := d1; draws := draws w |}
  end.

End WithTable.
End WithHost.
End Store.

(** ** A host for running the embedding

    [Reference.host] instantiates [Host] so that the definitions above
    can be evaluated on concrete payloads.  Its oracles are fixed
    sequences; its parser reads the JSON subset made of objects, arrays,
    strings with the simple escapes, integers, short decimals and the
    three literals; its number conversions are exact on integers; its dates are read and
    printed in the ISO format of [toISOString].  Every general statement
    below quantifies over all hosts and does not depend on this one. *)

Module Reference.

Fixpoint skip_ws (s : string) : string :=
  match s with
  | String c s' => if is_ws c then skip_ws s' else s
  | EmptyString => EmptyString
  end.

Definition is_digit (c : ascii) : bool :=
  let n := nat_of_ascii c in ((48 <=? n) && (n <=? 57))%nat.

Fixpoint read_digits (s : string) (acc : Z) : Z * string :=
  match s with
  | String c s' =>
      if is_digit c
      then read_digits s' (10 * acc + Z.of_nat (nat_of_ascii c - 48))%Z
      else (acc, s)
  | EmptyString => (acc, s)
  end.

Definition num_of_Z (z : Z) : float :=
  if (z <? 0)%Z then PrimFloat.opp (PrimFloat.of_uint63 (Uint63.of_Z (- z)))
  else PrimFloat.of_uint63 (Uint63.of_Z z).

(** The characters of a string literal after its opening quote. *)
Fixpoint read_string (s : string) : option (string * string) :=
  match s with
  | EmptyString => None
  | String c s' =>
      if Ascii.eqb c dquote then Some (EmptyString, s')
      else if Ascii.eqb c backslash then
        match s' with
        | String e s'' =>
            let unescaped :=
              if Ascii.eqb e "n" then Some nl
              else if Ascii.eqb e "t" then Some "009"%char
              else if Ascii.eqb e "r" then Some "013"%char
              else if Ascii.eqb e "b" then Some "008"%char
              else if Ascii.eqb e "f" then Some "012"%char
              else if Ascii.eqb e "/" then Some "/"%char
              else if Ascii.eqb e dquote then Some dquote
              else if Ascii.eqb e backslash then Some backslash
              else None in
            match unescaped, read_string s'' with
            | Some u, Some (t, rest) => Some (String u t, rest)
            | _, _ => None
            end
        | EmptyString => None
        end
      else if (nat_of_ascii c <? 32)%nat then None
      else match read_string s' with
           | Some (t, rest) => Some (String c t, rest)
           | None => None
           end
  end.

Fixpoint read_value (fuel : nat) (s : string) : option (value * string) :=
  match fuel with
  | O => None
  | S fuel' =>
      match skip_ws s with
      | EmptyString => None
      | String c s' =>
          if Ascii.eqb c dquote then
            match read_string s' with
            | Some (t, rest) => Some (VStr t, rest)
            | None => None
            end
          else if Ascii.eqb c "[" then
            match skip_ws s' with
            | String "]" rest => Some (VArr [], rest)
            | _ =>
                (fix elems (n : nat) (s : string) (acc : list value)
                   : option (value * string) :=
                   match n with
                   | O => None
                   | S n' =>
                       match read_value fuel' s with
                       | Some (v, rest) =>
                           match skip_ws rest with
                           | String "," rest' => elems n' rest' (acc ++ [v])
                           | String "]" rest' => Some (VArr (acc ++ [v]), rest')
                           | _ => None
                           end
                       | None => None
                       end
                   end) fuel' s' []
            end
          else if Ascii.eqb c "{" then
            match skip_ws s' with
            | String "}" rest => Some (VObj [], rest)
            | _ =>
                (fix members (n : nat) (s : string) (acc : list (string * value))
                   : option (value * string) :=
                   match n with
                   | O => None
                   | S n' =>
                       match skip_ws s with
                       | String q s1 =>
                           if Ascii.eqb q dquote then
                             match read_string s1 with
                             | Some (k, s2) =>
                                 match skip_ws s2 with
                                 | String ":" s3 =>
                                     match read_value fuel' s3 with
                                     | Some (v, rest) =>
                                         match skip_ws rest with
                                         | String "," rest' =>
                                             members n' rest' (assign k v acc)
                                         | String "}" rest' =>
                                             Some (VObj (assign k v acc), rest')
                                         | _ => None
                                         end
                                     | None => None
                                     end
                                 | _ => None
                                 end
                             | None => None
                             end
                           else None
                       | EmptyString => None
                       end
                   end) fuel' s' []
            end
          else if String.prefix "null" (String c s') then
            Some (VNull, String.substring 4 (String.length s') (String c s'))
          else if String.prefix "true" (String c s') then
            Some (VBool true, String.substring 4 (String.length s') (String c s'))
          else if String.prefix "false" (String c s') then
            Some (VBool false, String.substring 5 (String.length s') (String c s'))
          else if Ascii.eqb c "-" then
            match s' with
            | String d _ =>
                if is_digit d then
                  let '(z, rest) := read_digits s' 0%Z in
                  Some (VNum (PrimFloat.opp (num_of_Z z)), rest)
                else None
            | EmptyString => None
            end
          else if is_digit c then
            let '(z, rest) := read_digits (String c s') 0%Z in
            match rest with
            | String "." (String d frac) =>
                if is_digit d then
                  let '(numerator, rest') := read_digits (String d frac) z in
                  let places := (String.length (String d frac) - String.length rest')%nat in
                  Some (VNum (PrimFloat.div (num_of_Z numerator)
                                            (num_of_Z (10 ^ Z.of_nat places))), rest')
                else None
            | _ => Some (VNum (num_of_Z z), rest)
            end
          else None
      end
  end.

Definition parse (s : string) : res value :=
  match read_value (S (String.length s)) s with
  | Some (v, rest) =>
      match skip_ws rest with
      | EmptyString => Ok v
      | _ => Throw "Unexpected non-whitespace character after JSON"
      end
  | None => Throw "Unexpected token in JSON"
  end.

(** The integer a float denotes, when it denotes one. *)
Definition Z_of_num (n : float) : option Z :=
  match FloatOps.Prim2SF n with
  | SpecFloat.S754_zero _ => Some 0%Z
  | SpecFloat.S754_finite sign m e =>
      let magnitude :=
        if (0 <=? e)%Z then Some (Z.pos m * 2 ^ e)%Z
        else if (Z.pos m mod 2 ^ (- e) =? 0)%Z then Some (Z.pos m / 2 ^ (- e))%Z
        else None in
      match magnitude with
      | Some z => Some (if sign then (- z)%Z else z)
      | None => None
      end
  | _ => None
  end.

Definition Z_to_string (z : Z) : string :=
  if (z <? 0)%Z then ("-" ++ nat_to_string (Z.to_nat (- z)))%string
  else nat_to_string (Z.to_nat z).

Definition string_of_number (n : float) : string :=
  match Z_of_num n with
  | Some z => Z_to_string z
  | None => "NaN"
  end.

Definition Z_of_string (s : string) : option Z :=
  match trim s with
  | EmptyString => Some 0%Z
  | String "-" (String d t) =>
      if is_digit d then
        match read_digits (String d t) 0%Z with
        | (z, EmptyString) => Some (- z)%Z
        | _ => None
        end
      else None
  | String d t =>
      if is_digit d then
        match read_digits (String d t) 0%Z with
        | (z, EmptyString) => Some z
        | _ => None
        end
      else None
  end.

Definition number_of_string (s : string) : float :=
  match Z_of_string s with
  | Some z => num_of_Z z
  | None => PrimFloat.nan
  end.

Definition bigint_of (v : value) : res Z :=
  match v with
  | VStr s =>
      match Z_of_string s with
      | Some z => Ok z
      | None => Throw "Cannot convert string to a BigInt"
      end
  | VNum n =>
      match Z_of_num n with
      | Some z => Ok z
      | None => Throw "The number cannot be converted to a BigInt"
      end
  | VBool true => Ok 1%Z
  | VBool false => Ok 0%Z
  | _ => Throw "Cannot convert value to a BigInt"
  end.

(** Calendar arithmetic on the proleptic Gregorian calendar: days since
    1970-01-01 of a date, and back. *)
Definition days_from_civil (y m d : Z) : Z :=
  let y := if (m <=? 2)%Z then (y - 1)%Z else y in
  let era := (y / 400)%Z in
  let yoe := (y - era * 400)%Z in
  let mp := if (2 <? m)%Z then (m - 3)%Z else (m + 9)%Z in
  let doy := ((153 * mp + 2) / 5 + d - 1)%Z in
  let doe := (yoe * 365 + yoe / 4 - yoe / 100 + doy)%Z in
  (era * 146097 + doe - 719468)%Z.

Definition civil_from_days (days : Z) : Z * Z * Z :=
  let z := (days + 719468)%Z in
  let era := (z / 146097)%Z in
  let doe := (z - era * 146097)%Z in
  let yoe := ((doe - doe / 1460 + doe / 36524 - doe / 146096) / 365)%Z in
  let doy := (doe - (365 * yoe + yoe / 4 - yoe / 100))%Z in
  let mp := ((5 * doy + 2) / 153)%Z in
  let d := (doy - (153 * mp + 2) / 5 + 1)%Z in
  let m := if (mp <? 10)%Z then (mp + 3)%Z else (mp - 9)%Z in
  let y := (yoe + era * 400)%Z in
  (if (m <=? 2)%Z then (y + 1)%Z else y, m, d).

(** The integer part of a finite float. *)
Definition Z_trunc (n : float) : option Z :=
  match FloatOps.Prim2SF n with
  | SpecFloat.S754_zero _ => Some 0%Z
  | SpecFloat.S754_finite sign m e =>
      let magnitude :=
        if (0 <=? e)%Z then (Z.pos m * 2 ^ e)%Z else (Z.pos m / 2 ^ (- e))%Z in
      Some (if sign then (- magnitude)%Z else magnitude)
  | _ => None
  end.

Fixpoint pad (n width : nat) (s : string) : string :=
  match n with
  | O => s
  | S n' => if (String.length s <? width)%nat then pad n' width ("0" ++ s)%string else s
  end.

Definition digits (width : nat) (z : Z) : string :=
  pad width width (nat_to_string (Z.to_nat z)).

(** [new Date(ms).toISOString()]. *)
Definition toISOString (ms : float) : res string :=
  match Z_trunc ms with
  | Some t =>
      if (Z.abs t <=? 8640000000000000)%Z then
        let days := (t / 86400000)%Z in
        let rest := (t mod 86400000)%Z in
        let '(y, m, d) := civil_from_days days in
        let year :=
          if ((0 <=? y) && (y <=? 9999))%Z then digits 4 y
          else ((if (y <? 0)%Z then "-" else "+") ++ digits 6 (Z.abs y))%string in
        Ok (year ++ "-" ++ digits 2 m ++ "-" ++ digits 2 d ++ "T"
            ++ digits 2 (rest / 3600000) ++ ":"
            ++ digits 2 (rest mod 3600000 / 60000) ++ ":"
            ++ digits 2 (rest mod 60000 / 1000) ++ "."
            ++ digits 3 (rest mod 1000) ++ "Z")%string
      else Throw "Invalid time value"
  | None => Throw "Invalid time value"
  end.

(** A run of exactly [n] digits at the head of a string. *)
Fixpoint read_fixed (n : nat) (s : string) (acc : Z) : option (Z * string) :=
  match n with
  | O => Some (acc, s)
  | S n' =>
      match s with
      | String c s' =>
          if is_digit c
          then read_fixed n' s' (10 * acc + Z.of_nat (nat_of_ascii c - 48))%Z
          else None
      | EmptyString => None
      end
  end.

Definition expect (c : ascii) (s : string) : option string :=
  match s with
  | String a s' => if Ascii.eqb a c then Some s' else None
  | EmptyString => None
  end.

(** [Date.parse] on the forms [YYYY-MM-DD], [YYYY-MM-DDTHH:mm:ssZ] and
    [YYYY-MM-DDTHH:mm:ss.sssZ]; other strings are not recognised. *)
Definition parse_date (s : string) : option Z :=
  match read_fixed 4 s 0%Z with
  | Some (y, s1) =>
      match expect "-" s1 with
      | Some s2 =>
          match read_fixed 2 s2 0%Z with
          | Some (m, s3) =>
              match expect "-" s3 with
              | Some s4 =>
                  match read_fixed 2 s4 0%Z with
                  | Some (d, s5) =>
                      let day := (days_from_civil y m d * 86400000)%Z in
                      match s5 with
                      | EmptyString => Some day
                      | String "T" s6 =>
                          match read_fixed 2 s6 0%Z with
                          | Some (hh, String ":" s7) =>
                              match read_fixed 2 s7 0%Z with
                              | Some (mm, String ":" s8) =>
                                  match read_fixed 2 s8 0%Z with
                                  | Some (ss, s9) =>
                                      let time := (hh * 3600000 + mm * 60000 + ss * 1000)%Z in
                                      match s9 with
                                      | String "Z" EmptyString => Some (day + time)%Z
                                      | String "." s10 =>
                                          match read_fixed 3 s10 0%Z with
                                          | Some (ms, String "Z" EmptyString) =>
                                              Some (day + time + ms)%Z
                                          | _ => None
                                          end
                                      | _ => None
                                      end
                                  | None => None
                                  end
                              | _ => None
                              end
                          | _ => None
                          end
                      | _ => None
                      end
                  | None => None
                  end
              | None => None
              end
          | None => None
          end
      | None => None
      end
  | None => None
  end.

(** [new Date(v).getTime()]. *)
Definition getTime (v : value) : float :=
  match v with
  | VNum n =>
      match Z_trunc n with
      | Some t => if (Z.abs t <=? 8640000000000000)%Z then num_of_Z t else PrimFloat.nan
      | None => PrimFloat.nan
      end
  | VStr s =>
      match parse_date s with
      | Some t => num_of_Z t
      | None => PrimFloat.nan
      end
  | VNull | VBool false => 0%float
  | VBool true => 1%float
  | _ => PrimFloat.nan
  end.

Definition host : Host := {|
  uuid := fun n => ("uuid-" ++ nat_to_string n)%string;
  clock := fun _ => "2026-01-11T00:00:00.000Z";
  JSON_parse := parse;
  String_of_number := string_of_number;
  Number_of_string := number_of_string;
  Date_getTime := getTime;
  BigInt_of := bigint_of;
  Number_of_bigint := num_of_Z;
  Date_toISOString := toISOString
|}.

(** JSON text is written with apostrophes for the double quotes. *)
Fixpoint json (s : string) : string :=
  match s with
  | EmptyString => EmptyString
  | String c s' => String (if Ascii.eqb c "'" then dquote else c) (json s')
  end.

End Reference.

(** ** Vocabulary and example payloads of the statements *)

Import Adapters Review.

(** The properties that the pass-through stage writes. *)
Definition bookkeeping (k : string) : bool :=
  String.eqb k "id" || String.eqb k "version" || String.eqb k "created_at"
  || String.eqb k "updated_at" || String.eqb k "status".

(** The top-level keys of [OTelMappingConfig], the value a configuration
    holds under a key, and the value a partial override supplies for it. *)
Inductive Key : Type :=
| KPromptAttributes | KResponseAttributes | KModelAttributes
| KTokenAttributes | KLlmSpanNames | KRetrieverSpanNames.

Inductive KeyValue : Type :=
| Names (l : list string)
| Tokens (t : Adapters.TokenAttributes).

Definition read (k : Key) (c : Adapters.OTelMappingConfig) : KeyValue :=
  match k with
  | KPromptAttributes => Names (Adapters.promptAttributes c)
  | KResponseAttributes => Names (Adapters.responseAttributes c)
  | KModelAttributes => Names (Adapters.modelAttributes c)
  | KTokenAttributes => Tokens (Adapters.tokenAttributes c)
  | KLlmSpanNames => Names (Adapters.llmSpanNames c)
  | KRetrieverSpanNames => Names (Adapters.retrieverSpanNames c)
  end.

Definition supplied (k : Key) (m : Adapters.PartialOTelMappingConfig) : option KeyValue :=
  match k with
  | KPromptAttributes => option_map Names (Adapters.promptAttributes_opt m)
  | KResponseAttributes => option_map Names (Adapters.responseAttributes_opt m)
  | KModelAttributes => option_map Names (Adapters.modelAttributes_opt m)
  | KTokenAttributes => option_map Tokens (Adapters.tokenAttributes_opt m)
  | KLlmSpanNames => option_map Names (Adapters.llmSpanNames_opt m)
  | KRetrieverSpanNames => option_map Names (Adapters.retrieverSpanNames_opt m)
  end.

(** The registry after a sequence of [setOTelMappings] calls. *)
Definition afterUpdates (reg : Adapters.AdapterRegistry)
  (updates : list Adapters.PartialOTelMappingConfig) : Adapters.AdapterRegistry :=
  fold_left Adapters.setOTelMappings updates reg.

(** The three records an import can return. *)
Inductive ImportShape : ImportResult -> Prop :=
| shape_tooLarge : ImportShape Jsonl.tooLarge
| shape_adapter (result : value) : ImportShape (Jsonl.adapterResult result)
| shape_finish (items : list value) (errors : list ImportError) :
    ImportShape (Jsonl.finish items errors).

Definition successRule (r : ImportResult) : Prop :=
  success r = (Nat.eqb (List.length (errors r)) 0 || Nat.ltb 0 (List.length (items r)))
  /\ itemsImported r = List.length (items r).

(** A value that is a string, or else truthy: what [x || ''] yields. *)
Definition stringOrTruthy (v : value) : bool := is_string v || truthy v.


Section StatementVocabulary.
Context (H : Host).

(** A record of the LangSmith adapter is the conversion of some run. *)
Definition fromRun (item : value) : Prop :=
  exists run now ctx s s',
    LangSmith.convertRunToReviewItem H run now ctx s = (Ok item, s').

Definition fromSpan (mappings : OTelMappingConfig) (item : value) : Prop :=
  exists span now ctx s s',
    OTel.convertSpanToReviewItem H span ctx mappings now s = (Ok item, s').

(** The conversion that [normalizeToReviewItem] applies at each stage. *)
Definition stageConversion (stage : Jsonl.Stage) : value -> value -> M value :=
  match stage with
  | Jsonl.PassThrough => Jsonl.passThrough H
  | Jsonl.OpenAICompletion => Jsonl.convertOpenAIFormat H
  | Jsonl.OpenAIFineTune => Jsonl.convertOpenAIFineTuneFormat H
  | Jsonl.Generic => Jsonl.convertGenericFormat H
  | Jsonl.BestEffort => Jsonl.convertBestEffort H
  end.

End StatementVocabulary.

(** *** Vocabulary of the further properties *)

(** [inRunTree run r]: [r] is [run] or one of the runs below it, reached
    through [child_runs] arrays. *)
Inductive inRunTree : value -> value -> Prop :=
| inRunTree_self (run : value) : inRunTree run run
| inRunTree_child (run child r : value) (children : list value) :
    prop run "child_runs" = VArr children ->
    In child children ->
    inRunTree child r ->
    inRunTree run r.

(** [getSpanType(run.run_type)]. *)
Definition runType (run : value) : res SpanType :=
  run_type <- JS.get run "run_type" ;; LangSmith.getSpanType run_type.

(** The spans that the OTel [normalize] works on. *)
Definition spansOf (data : value) : res (list value) :=
  if isArray data then Ok (OTel.elements data) else OTel.extractSpans data.

Definition context_chunks (item : value) : value := prop (input item) "context_chunks".

Definition system_prompt (item : value) : value := prop (input item) "system_prompt".

(** A string without line feed. *)
Fixpoint singleLine (s : string) : bool :=
  match s with
  | EmptyString => true
  | String c s' => negb (Ascii.eqb c nl) && singleLine s'
  end.

(** Two texts joined by a line feed. *)
Definition lines2 (a b : string) : string := (a ++ String nl b)%string.

(** A result of [JSON.stringify]: a string without line feed, or
    [undefined]. *)
Definition lineOk (x : value) : Prop :=
  match x with
  | VStr t => singleLine t = true
  | VUndef => True
  | _ => False
  end.

(** The chunks that the reviewer has not excluded. *)
Definition keptChunks (chunks : list value) : list value :=
  filter (fun c => negb (truthy (prop c "excluded"))) chunks.

Section FurtherVocabulary.
Context (H : Host).

(** The text that [join] writes for one element. *)
Definition lineText (x : value) : string :=
  match x with VUndef | VNull => "" | _ => to_string H x end.

(** A record in the canonical format that no trace adapter claims. *)
Definition canonical_undetected (item : value) : Prop :=
  Jsonl.isReviewItemFormat item = Ok true
  /\ detectAdapter (Jsonl.adapterRegistry H) item = Ok None.

End FurtherVocabulary.

Module Examples.

(** A canonical record carrying trace metadata and a review status. *)
Definition canonicalRecord : value :=
  VObj [ ("id", VStr "r-1");
         ("status", VStr "approved");
         ("trace_metadata", VObj [ ("trace_id", VStr "t-1"); ("source", VStr "manual") ]);
         ("input", VObj [ ("prompt", VStr "What is RAG?"); ("context_chunks", VArr []) ]);
         ("outputs", VArr [ VObj [ ("model_id", VStr "m"); ("text", VStr "An answer") ] ]);
         ("human_feedback", VObj []) ].


(** Two partial overrides, each supplying one key. *)
Definition customPrompt : Adapters.PartialOTelMappingConfig := {|
  Adapters.promptAttributes_opt := Some ["custom.input.text"];
  Adapters.responseAttributes_opt := None;
  Adapters.modelAttributes_opt := None;
  Adapters.tokenAttributes_opt := None;
  Adapters.llmSpanNames_opt := None;
  Adapters.retrieverSpanNames_opt := None
|}.

Definition customModel : Adapters.PartialOTelMappingConfig := {|
  Adapters.promptAttributes_opt := None;
  Adapters.responseAttributes_opt := None;
  Adapters.modelAttributes_opt := Some ["custom.model"];
  Adapters.tokenAttributes_opt := None;
  Adapters.llmSpanNames_opt := None;
  Adapters.retrieverSpanNames_opt := None
|}.

(** A file reported as 51 MiB. *)
Definition oversized : Jsonl.File := {|
  Jsonl.size := 51 * 1024 * 1024;
  Jsonl.text := "{ this text is never read"
|}.

(** An already-canonical record whose prompt is [null]. *)
Definition nullPrompt : value :=
  VObj [ ("input", VObj [ ("prompt", VNull) ]); ("outputs", VArr []) ].

(** A generic prompt/response line whose response is empty. *)
Definition genericEmptyResponse : value :=
  VObj [ ("prompt", VStr "hi"); ("response", VStr "") ].

(** A flat span list whose only span names a parent outside the file. *)
Definition orphanSpan : value :=
  VObj [ ("traceId", VStr "t"); ("spanId", VStr "s"); ("parentSpanId", VStr "p");
         ("name", VStr "step") ].
Definition orphanSpans : value := VObj [ ("spans", VArr [ orphanSpan ]) ].

(** The same span without the parent id. *)
Definition rootSpan : value :=
  VObj [ ("traceId", VStr "t"); ("spanId", VStr "s"); ("name", VStr "step") ].
Definition rootSpans : value := VObj [ ("spans", VArr [ rootSpan ]) ].

(** A LangSmith run of type chain that names a parent outside the file. *)
Definition orphanRun : value :=
  VObj [ ("run_id", VStr "s"); ("parent_run_id", VStr "p"); ("run_type", VStr "chain");
         ("name", VStr "step") ].

(** An LLM span wrapping a chain span that wraps an LLM span. *)
Definition outerSpan : value :=
  VObj [ ("traceId", VStr "t"); ("spanId", VStr "outer"); ("name", VStr "llm.chat");
         ("attributes", VArr
            [ VObj [ ("key", VStr "gen_ai.prompt");
                     ("value", VObj [ ("stringValue", VStr "Outer prompt") ]) ] ]) ].
Definition middleSpan : value :=
  VObj [ ("traceId", VStr "t"); ("spanId", VStr "middle"); ("parentSpanId", VStr "outer");
         ("name", VStr "chain") ].
Definition innerSpan : value :=
  VObj [ ("traceId", VStr "t"); ("spanId", VStr "inner"); ("parentSpanId", VStr "middle");
         ("name", VStr "llm.completion");
         ("attributes", VArr
            [ VObj [ ("key", VStr "gen_ai.prompt");
                     ("value", VObj [ ("stringValue", VStr "Inner prompt") ]) ] ]) ].
Definition nestedThroughChain : value :=
  VObj [ ("spans", VArr [ outerSpan; middleSpan; innerSpan ]) ].

(** The same nesting as a LangSmith run tree. *)
Definition nestedRun : value :=
  VObj [ ("run_id", VStr "outer"); ("run_type", VStr "llm");
         ("inputs", VObj [ ("prompt", VStr "Outer prompt") ]);
         ("child_runs", VArr
            [ VObj [ ("run_id", VStr "middle"); ("run_type", VStr "chain");
                     ("child_runs", VArr
                        [ VObj [ ("run_id", VStr "inner"); ("run_type", VStr "llm");
                                 ("inputs", VObj [ ("prompt", VStr "Inner prompt") ]) ] ]) ] ]) ].

(** A LangSmith LLM run without usable output (from the test suite). *)
Definition emptyOutputsRun : value :=
  VObj [ ("run_id", VStr "run_error"); ("run_type", VStr "llm");
         ("inputs", VObj [ ("prompt", VStr "Test") ]);
         ("outputs", VObj []);
         ("error", VStr "Rate limit exceeded") ].

(** A payload whose first line is blank and whose second line is
    malformed. *)
Definition blankThenMalformed : string := String nl "{bad".

(** Three physical lines: a generic record, a blank line, a malformed line. *)
Definition recordBlankMalformed : string :=
  (Reference.json "{'prompt':'hi','response':'ok'}" ++ String nl (String nl "{bad"))%string.

(** Three lines, the second malformed (the error-isolation example). *)
Definition secondLineMalformed : string :=
  (Reference.json "{'prompt':'hi','response':'ok'}" ++ String nl "{bad"
   ++ String nl (Reference.json "{'question':'q','answer':'a'}"))%string.

End Examples.

(** ** The payloads of the repository's adapter tests
    ([langsmith.test.ts], [otel.test.ts]) *)

Module Tests.

Definition payload (text : string) : value :=
  match Reference.parse (Reference.json text) with
  | Ok v => v
  | Throw _ => VUndef
  end.

(** [v.k1.k2...]; an array index is the key of its decimal numeral. *)
Definition path (keys : list string) (v : value) : value :=
  fold_left prop keys v.

Definition returned (m : M value) : value :=
  match fst (m 0) with
  | Ok v => v
  | Throw _ => VUndef
  end.

Definition langsmith (text : string) : value :=
  returned (LangSmith.normalize Reference.host (payload text)).

Definition otel (mappings : Adapters.OTelMappingConfig) (text : string) : value :=
  returned (OTel.normalize Reference.host mappings (payload text)).

Definition singleRun : string :=
  "{'run_id':'run_123','inputs':{'prompt':'Hello'},'outputs':{'text':'World'}}".

Definition runArray : string :=
  "[{'run_id':'run_1','inputs':{},'outputs':{}},{'run_id':'run_2','inputs':{},'outputs':{}}]".

Definition runsContainer : string :=
  "{'runs':[{'run_id':'run_1','inputs':{},'outputs':{}}]}".

Definition genericObject : string := "{'prompt':'Hello','response':'World'}".

Definition otlpWithoutName : string :=
  "{'resourceSpans':[{'scopeSpans':[{'spans':[{'traceId':'abc','spanId':'123'}]}]}]}".

Definition simpleLlmRun : string :=
  "{'run_id':'run_abc123','run_type':'llm',
    'inputs':{'messages':[{'role':'user','content':'What is TypeScript?'}]},
    'outputs':{'generations':[[{'text':'TypeScript is a typed superset of JavaScript.'}]]},
    'model':'gpt-4','total_tokens':50,
    'start_time':'2026-01-10T10:00:00.000Z','end_time':'2026-01-10T10:00:02.000Z'}".

Definition systemPromptRun : string :=
  "{'run_id':'run_123','run_type':'llm',
    'inputs':{'messages':[{'role':'system','content':'You are a helpful assistant.'},
                          {'role':'user','content':'Hello!'}]},
    'outputs':{'generations':[[{'text':'Hi there!'}]]}}".

Definition ragChain : string :=
  "{'run_id':'run_chain','run_type':'chain',
    'inputs':{'question':'What is RAG?'},
    'outputs':{'answer':'RAG stands for Retrieval Augmented Generation.'},
    'child_runs':[
      {'run_id':'run_retriever','run_type':'retriever','inputs':{'query':'What is RAG?'},
       'outputs':{'documents':[
          {'page_content':'RAG combines retrieval with generation.',
           'metadata':{'source':'docs/rag.md'},'score':0.95},
          {'page_content':'Retrieval helps ground LLM responses.',
           'metadata':{'source':'docs/retrieval.md'},'score':0.88}]}},
      {'run_id':'run_llm','run_type':'llm',
       'inputs':{'messages':[{'role':'user','content':'What is RAG?'}]},
       'outputs':{'generations':[[{'text':'RAG stands for Retrieval Augmented Generation.'}]]}}]}".

Definition twoLlmRuns : string :=
  "[{'run_id':'run_1','run_type':'llm','inputs':{'prompt':'Question 1'},'outputs':{'text':'Answer 1'}},
    {'run_id':'run_2','run_type':'llm','inputs':{'prompt':'Question 2'},'outputs':{'text':'Answer 2'}}]".

Definition feedbackRun : string :=
  "{'run_id':'run_feedback','run_type':'llm','inputs':{'prompt':'Test'},
    'outputs':{'text':'Response'},
    'feedback':[{'key':'correctness','score':1,'comment':'Good answer',
                 'correction':'Improved response text'}]}".

Definition errorRun : string :=
  "{'run_id':'run_error','run_type':'llm','inputs':{'prompt':'Test'},'outputs':{},
    'error':'Rate limit exceeded'}".

Definition otlpExport : string :=
  "{'resourceSpans':[{'scopeSpans':[{'spans':[{'traceId':'abc','spanId':'123','name':'test'}]}]}]}".

Definition flatSpans : string := "{'spans':[{'traceId':'abc','spanId':'123','name':'test'}]}".

Definition singleSpan : string :=
  "{'traceId':'abc','spanId':'123','name':'llm.chat',
    'startTimeUnixNano':'1000000000','endTimeUnixNano':'2000000000'}".

Definition genAiSpan : string :=
  "{'resourceSpans':[{'scopeSpans':[{'spans':[
     {'traceId':'trace123','spanId':'span456','name':'llm.chat',
      'startTimeUnixNano':'1736506800000000000','endTimeUnixNano':'1736506802500000000',
      'attributes':[
        {'key':'gen_ai.request.model','value':{'stringValue':'gpt-4'}},
        {'key':'gen_ai.prompt','value':{'stringValue':'What is AI?'}},
        {'key':'gen_ai.completion','value':{'stringValue':'AI stands for Artificial Intelligence.'}},
        {'key':'gen_ai.usage.input_tokens','value':{'intValue':10}},
        {'key':'gen_ai.usage.output_tokens','value':{'intValue':20}}],
      'status':{'code':1}}]}]}]}".

Definition llmConventionSpan : string :=
  "{'spans':[{'traceId':'trace1','spanId':'span1','name':'ChatAnthropic',
     'startTimeUnixNano':'1000000000000000','endTimeUnixNano':'2000000000000000',
     'attributes':[
       {'key':'llm.model','value':{'stringValue':'claude-3'}},
       {'key':'llm.prompts','value':{'stringValue':'Explain closures'}},
       {'key':'llm.responses','value':{'stringValue':'A closure is a function...'}}]}]}".

Definition retrieverAndLlm : string :=
  "{'spans':[
     {'traceId':'trace1','spanId':'span1','name':'retriever',
      'startTimeUnixNano':'1000000000000000','endTimeUnixNano':'1500000000000000',
      'attributes':[{'key':'documents','value':{'arrayValue':{'values':[
         {'stringValue':'Document 1 content'},{'stringValue':'Document 2 content'}]}}}]},
     {'traceId':'trace1','spanId':'span2','parentSpanId':'span1','name':'llm.chat',
      'startTimeUnixNano':'1500000000000000','endTimeUnixNano':'2000000000000000',
      'attributes':[
        {'key':'gen_ai.prompt','value':{'stringValue':'Query'}},
        {'key':'gen_ai.completion','value':{'stringValue':'Answer'}}]}]}".

Definition failedSpan : string :=
  "{'spans':[{'traceId':'trace1','spanId':'span1','name':'llm.chat',
     'startTimeUnixNano':'1000000000000000','endTimeUnixNano':'1100000000000000',
     'attributes':[{'key':'gen_ai.prompt','value':{'stringValue':'Test'}}],
     'status':{'code':2,'message':'Rate limit exceeded'}}]}".

Definition timedSpan : string :=
  "{'spans':[{'traceId':'trace1','spanId':'span1','name':'llm.chat',
     'startTimeUnixNano':'1736506800000000000','endTimeUnixNano':'1736506802500000000',
     'attributes':[
       {'key':'gen_ai.prompt','value':{'stringValue':'Test'}},
       {'key':'gen_ai.completion','value':{'stringValue':'Response'}}]}]}".

Definition messageArraySpan : string :=
  "{'spans':[{'traceId':'trace1','spanId':'span1','name':'llm.chat',
     'startTimeUnixNano':'1000000000000000','endTimeUnixNano':'2000000000000000',
     'attributes':[
       {'key':'gen_ai.prompt','value':{'arrayValue':{'values':[
          {'kvlistValue':{'values':[
             {'key':'role','value':{'stringValue':'system'}},
             {'key':'content','value':{'stringValue':'You are helpful.'}}]}},
          {'kvlistValue':{'values':[
             {'key':'role','value':{'stringValue':'user'}},
             {'key':'content','value':{'stringValue':'Hello!'}}]}}]}}},
       {'key':'gen_ai.completion','value':{'stringValue':'Hi there!'}}]}]}".

Definition parentAndChild : string :=
  "{'spans':[
     {'traceId':'trace1','spanId':'parent','name':'llm.chat',
      'startTimeUnixNano':'1000000000000000','endTimeUnixNano':'3000000000000000',
      'attributes':[
        {'key':'gen_ai.prompt','value':{'stringValue':'Outer prompt'}},
        {'key':'gen_ai.completion','value':{'stringValue':'Outer response'}}]},
     {'traceId':'trace1','spanId':'child','parentSpanId':'parent','name':'llm.chat',
      'startTimeUnixNano':'1500000000000000','endTimeUnixNano':'2500000000000000',
      'attributes':[
        {'key':'gen_ai.prompt','value':{'stringValue':'Inner prompt'}},
        {'key':'gen_ai.completion','value':{'stringValue':'Inner response'}}]}]}".

Definition customSpan : string :=
  "{'spans':[{'traceId':'trace1','spanId':'span1','name':'CustomLLM',
     'startTimeUnixNano':'1000000000000000','endTimeUnixNano':'2000000000000000',
     'attributes':[
       {'key':'custom.input.text','value':{'stringValue':'Custom prompt'}},
       {'key':'custom.output.text','value':{'stringValue':'Custom response'}}]}]}".

(** The registry of the "configurable mappings" test: reset to the
    defaults, then extended by two vendor keys. *)
Definition customRegistry : Adapters.AdapterRegistry :=
  Adapters.setOTelMappings
    (Adapters.setOTelMappings Adapters.empty_registry
       (Adapters.all_keys Adapters.DEFAULT_OTEL_MAPPINGS))
    {| Adapters.promptAttributes_opt :=
         Some ("custom.input.text"
               :: Adapters.promptAttributes Adapters.DEFAULT_OTEL_MAPPINGS);
       Adapters.responseAttributes_opt :=
         Some ("custom.output.text"
               :: Adapters.responseAttributes Adapters.DEFAULT_OTEL_MAPPINGS);
       Adapters.modelAttributes_opt :=
         Some (Adapters.modelAttributes Adapters.DEFAULT_OTEL_MAPPINGS);
       Adapters.tokenAttributes_opt :=
         Some (Adapters.tokenAttributes Adapters.DEFAULT_OTEL_MAPPINGS);
       Adapters.llmSpanNames_opt :=
         Some (Adapters.llmSpanNames Adapters.DEFAULT_OTEL_MAPPINGS);
       Adapters.retrieverSpanNames_opt :=
         Some (Adapters.retrieverSpanNames Adapters.DEFAULT_OTEL_MAPPINGS) |}.

End Tests.

(** ** Sample data of the further properties *)

Module Samples.

(** A reviewed record: a system prompt, two outputs, a corrected text,
    three context chunks of which the second is excluded. *)
Definition reviewed : value :=
  VObj [ ("id", VStr "r-7");
         ("status", VStr "approved");
         ("input", VObj
            [ ("prompt", VStr "What is RAG?");
              ("system_prompt", VStr "Be brief.");
              ("context_chunks", VArr
                 [ VObj [ ("id", VStr "c1"); ("text", VStr "one"); ("source", VStr "a");
                          ("score", VNum 1%float) ];
                   VObj [ ("id", VStr "c2"); ("text", VStr "two"); ("source", VStr "b");
                          ("score", VNum 2%float); ("excluded", VBool true) ];
                   VObj [ ("id", VStr "c3"); ("text", VStr "three"); ("source", VStr "c");
                          ("score", VNum 3%float) ] ]) ]);
         ("outputs", VArr
            [ VObj [ ("model_id", VStr "m1"); ("text", VStr "first answer") ];
              VObj [ ("model_id", VStr "m2"); ("text", VStr "second answer") ] ]);
         ("human_feedback", VObj [ ("corrected_text", VStr "Retrieval augmented generation.") ]) ].

(** A pending record without feedback. *)
Definition unreviewed : value :=
  VObj [ ("id", VStr "r-8");
         ("status", VStr "pending");
         ("input", VObj [ ("prompt", VStr "Hi"); ("context_chunks", VArr []) ]);
         ("outputs", VArr [ VObj [ ("model_id", VStr "m1"); ("text", VStr "Hello") ] ]);
         ("human_feedback", VObj []) ].

(** A store holding the two records, with the default filters. *)
Definition twoItems : Store.State := {|
  Store.items := [ reviewed; unreviewed ];
  Store.selectedItemId := Some "r-7";
  Store.selectedIds := [ "r-7"; "r-8" ];
  Store.filters := Store.defaultFilters;
  Store.stats := Store.defaultStats;
  Store.isLoading := false;
  Store.error := None
|}.

(** A table kept in a list, keyed by the [id] of its items. *)
Definition memoryTable : Db.Table (list value) := {|
  Db.bulkAdd := fun items d => (Ok tt, d ++ items);
  Db.toArray := fun d => (Ok d, d);
  Db.countByStatus := fun status d =>
    (Ok (VNum (num_of_nat
                 (List.length (filter (fun item => eq_str (prop item "status") status) d)))), d);
  Db.count := fun d => (Ok (VNum (num_of_nat (List.length d))), d);
  Db.bulkDelete := fun ids d =>
    (Ok tt, filter (fun item => negb (existsb (eq_str (prop item "id")) ids)) d)
|}.

Definition twoItemsWorld : Store.World := {|
  Store.store := twoItems;
  Store.db := [ reviewed; unreviewed ];
  Store.draws := 0
|}.

(** An array of two elements, the second of which is [null]. *)
Definition recordAndNull : list value :=
  [ VObj [ ("prompt", VStr "hi"); ("response", VStr "ok") ]; VNull ].


(** A locale date for running [formatRelativeTime]. *)
Definition localeDate (t : option Z) : string :=
  match t with Some _ => "1/1/2026" | None => "Invalid Date" end.

(** The innermost run of [Examples.nestedRun]. *)
Definition innerRun : value :=
  VObj [ ("run_id", VStr "inner"); ("run_type", VStr "llm");
         ("inputs", VObj [ ("prompt", VStr "Inner prompt") ]) ].

(** A payload that both trace adapters accept. *)
Definition runAndSpan : value :=
  VObj [ ("run_id", VStr "r"); ("name", VStr "llm.chat");
         ("traceId", VStr "t"); ("spanId", VStr "s") ].

(** The line that the fine-tuning export writes for [reviewed]. *)
Definition reviewedLine : string :=
  Reference.json
    "{'messages':[{'role':'system','content':'Be brief.'},{'role':'user','content':'What is RAG?'},{'role':'assistant','content':'Retrieval augmented generation.'}]}".

(** The two lines of the error-isolation example that are well formed. *)
Definition firstLine : string := Reference.json "{'prompt':'hi','response':'ok'}".
Definition thirdLine : string := Reference.json "{'question':'q','answer':'a'}".

(** A LangSmith run whose [inputs] is a string. *)
Definition runWithTextInputs : value :=
  VObj [ ("run_id", VStr "r"); ("inputs", VStr "some text") ].

End Samples.

(** * Properties *)

(** ** Reasoning about effects *)

Lemma bind_inv {A B : Type} (m : M A) (f : A -> M B) (s s' : nat) (b : B) :
  bind m f s = (Ok b, s') ->
  exists a s1, m s = (Ok a, s1) /\ f a s1 = (Ok b, s').
Proof.
  unfold bind. destruct (m s) as [[a | e] s1]; intros E.
  - exists a, s1. split; [reflexivity | exact E].
  - discriminate E.
Qed.

Lemma ret_inv {A : Type} (a b : A) (s s' : nat) :
  ret a s = (Ok b, s') -> a = b /\ s = s'.
Proof. unfold ret. intros E. inversion E. split; reflexivity. Qed.

Lemma lift_inv {A : Type} (r : res A) (a : A) (s s' : nat) :
  lift r s = (Ok a, s') -> r = Ok a /\ s = s'.
Proof. unfold lift. intros E. inversion E. split; reflexivity. Qed.

Lemma rbind_inv {A B : Type} (m : res A) (f : A -> res B) (b : B) :
  rbind m f = Ok b -> exists a, m = Ok a /\ f a = Ok b.
Proof.
  destruct m as [a | e]; simpl; intros E.
  - exists a. split; [reflexivity | exact E].
  - discriminate E.
Qed.

Lemma try_catch_returns {A : Type} (m : M A) (h : string -> M A) (s : nat) :
  (forall e s1, exists a s2, h e s1 = (Ok a, s2)) ->
  exists a s', try_catch m h s = (Ok a, s').
Proof.
  intros Hh. unfold try_catch. destruct (m s) as [[a | e] s1].
  - exists a, s1. reflexivity.
  - apply Hh.
Qed.

Lemma try_catch_inv {A : Type} (m : M A) (h : string -> M A) (s s' : nat) (a : A) :
  try_catch m h s = (Ok a, s') ->
  m s = (Ok a, s') \/ exists e s1, m s = (Throw e, s1) /\ h e s1 = (Ok a, s').
Proof.
  unfold try_catch. destruct (m s) as [[x | e] s1]; intros E.
  - left. exact E.
  - right. exists e, s1. split; [reflexivity | exact E].
Qed.

(** Inversion of a hypothesis stating that a computation returned. *)
Ltac minv :=
  repeat match goal with
    | E : bind _ _ _ = (Ok _, _) |- _ =>
        let a := fresh "a" in
        let s := fresh "s" in
        let E1 := fresh "E" in
        let E2 := fresh "E" in
        apply bind_inv in E; destruct E as (a & s & E1 & E2)
    | E : ret _ _ = (Ok _, _) |- _ =>
        apply ret_inv in E; destruct E; subst
    | E : lift _ _ = (Ok _, _) |- _ =>
        apply lift_inv in E; destruct E; subst
    | E : rbind _ _ = Ok _ |- _ =>
        let a := fresh "a" in
        let E1 := fresh "E" in
        let E2 := fresh "E" in
        apply rbind_inv in E; destruct E as (a & E1 & E2)
    | E : Ok _ = Ok _ |- _ => inversion E; subst; clear E
    | E : Throw _ = Ok _ |- _ => discriminate E
    | E : (Throw _, _) = (Ok _, _) |- _ => discriminate E
    end.

(** Case analysis on the scrutinee of a computation that returned. *)
Ltac mcase :=
  match goal with
  | E : (match ?x with _ => _ end) _ = (Ok _, _) |- _ => destruct x eqn:?
  | E : (if ?b then _ else _) _ = (Ok _, _) |- _ => destruct b eqn:?
  | E : match ?x with _ => _ end = Ok _ |- _ => destruct x eqn:?
  | E : (if ?b then _ else _) = Ok _ |- _ => destruct b eqn:?
  end.

Lemma mapM_In {A B : Type} (f : A -> M B) (l : list A) (s s' : nat) (ys : list B) :
  mapM f l s = (Ok ys, s') ->
  forall y, In y ys -> exists x s1 s2, In x l /\ f x s1 = (Ok y, s2).
Proof.
  revert s s' ys. induction l as [| x l IH]; simpl; intros s s' ys E y Hy.
  - apply ret_inv in E. destruct E as [<- _]. contradiction.
  - apply bind_inv in E. destruct E as (y0 & s1 & Ex & E).
    apply bind_inv in E. destruct E as (ys0 & s2 & El & E).
    apply ret_inv in E. destruct E as [<- _].
    destruct Hy as [<- | Hy].
    + exists x, s, s1. split; [left; reflexivity | assumption].
    + destruct (IH _ _ _ El y Hy) as (x' & s1' & s2' & Hin & Ef).
      exists x', s1', s2'. split; [right; assumption | assumption].
Qed.

Lemma mapM_length {A B : Type} (f : A -> M B) (l : list A) (s s' : nat) (ys : list B) :
  mapM f l s = (Ok ys, s') -> List.length ys = List.length l.
Proof.
  revert s s' ys. induction l as [| x l IH]; simpl; intros s s' ys E.
  - apply ret_inv in E. destruct E as [<- _]. reflexivity.
  - apply bind_inv in E. destruct E as (y0 & s1 & Ex & E).
    apply bind_inv in E. destruct E as (ys0 & s2 & El & E).
    apply ret_inv in E. destruct E as [<- _].
    simpl. f_equal. eapply IH. eassumption.
Qed.

(** [l.map(f)] pairs every element with its image, in order. *)
Lemma mapM_Forall2 {A B : Type} (f : A -> M B) (l : list A) (s s' : nat) (ys : list B) :
  mapM f l s = (Ok ys, s') ->
  Forall2 (fun x y => exists s1 s2, f x s1 = (Ok y, s2)) l ys.
Proof.
  revert s s' ys. induction l as [| x l IH]; simpl; intros s s' ys E.
  - apply ret_inv in E. destruct E as [<- _]. constructor.
  - apply bind_inv in E. destruct E as (y0 & s1 & Ex & E).
    apply bind_inv in E. destruct E as (ys0 & s2 & El & E).
    apply ret_inv in E. destruct E as [<- _].
    constructor; [exists s, s1; exact Ex | eapply IH; exact El].
Qed.

(** Inversion of the two oracle draws. *)
Lemma uuidv4_inv (H : Host) (s s' : nat) (v : value) :
  uuidv4 H s = (Ok v, s') -> v = VStr (uuid H s) /\ s' = S s.
Proof. unfold uuidv4. intros E. injection E as <- <-. split; reflexivity. Qed.

Lemma now_iso_inv (H : Host) (s s' : nat) (v : value) :
  now_iso H s = (Ok v, s') -> v = VStr (clock H s) /\ s' = S s.
Proof. unfold now_iso. intros E. injection E as <- <-. split; reflexivity. Qed.

Ltac moracle :=
  match goal with
  | E : uuidv4 _ _ = (Ok _, _) |- _ => apply uuidv4_inv in E; destruct E; subst
  | E : now_iso _ _ = (Ok _, _) |- _ => apply now_iso_inv in E; destruct E; subst
  end.

Ltac mauto := repeat (minv || moracle || mcase).

Lemma flat_mapM_In {A : Type} (f : value -> M (list A)) (l : list value)
  (s s' : nat) (ys : list A) :
  LangSmith.flat_mapM f l s = (Ok ys, s') ->
  forall y, In y ys ->
  exists x s1 s2 zs, In x l /\ f x s1 = (Ok zs, s2) /\ In y zs.
Proof.
  unfold LangSmith.flat_mapM. intros E y Hy.
  apply bind_inv in E. destruct E as (ls & s1 & El & E).
  apply ret_inv in E. destruct E as [<- _].
  apply in_concat in Hy. destruct Hy as (zs & Hzs & Hy).
  destruct (mapM_In f l s s1 ls El zs Hzs) as (x & s2 & s3 & Hx & Ef).
  exists x, s2, s3, zs. repeat split; assumption.
Qed.

Lemma concat_length_ge {A : Type} (ls : list (list A)) :
  Forall (fun zs => zs <> []) ls -> List.length ls <= List.length (List.concat ls).
Proof.
  induction 1 as [| zs ls Hzs _ IH]; simpl.
  - apply Nat.le_refl.
  - rewrite length_app. destruct zs as [| z zs]; [contradiction |]. simpl. lia.
Qed.

Lemma mapM_Forall {A B : Type} (P : B -> Prop) (f : A -> M B) (l : list A)
  (s s' : nat) (ys : list B) :
  (forall x s1 s2 y, f x s1 = (Ok y, s2) -> P y) ->
  mapM f l s = (Ok ys, s') -> Forall P ys.
Proof.
  intros Hf E. apply Forall_forall. intros y Hy.
  destruct (mapM_In f l s s' ys E y Hy) as (x & s1 & s2 & _ & Ef).
  eapply Hf. exact Ef.
Qed.

Lemma normalizedItems_one_or_many (items : list value) :
  Forall (fun item => isArray item = false) items ->
  Jsonl.normalizedItems (LangSmith.one_or_many items) = items.
Proof.
  intros Hall. destruct items as [| item [| item' items]]; try reflexivity.
  unfold LangSmith.one_or_many, Jsonl.normalizedItems.
  inversion Hall as [| ? ? Hitem _]; subst. rewrite Hitem. reflexivity.
Qed.

(** ** Objects *)

Lemma assoc_set_prop_same (k : string) (v : value) (l : list (string * value)) :
  assoc k (set_prop k v l) = Some v.
Proof.
  induction l as [| [k' v'] l IH]; simpl.
  - rewrite String.eqb_refl. reflexivity.
  - destruct (String.eqb k' k) eqn:E; simpl.
    + rewrite String.eqb_refl. reflexivity.
    + rewrite E. exact IH.
Qed.

Lemma assoc_set_prop_other (k k' : string) (v : value) (l : list (string * value)) :
  k' <> k -> assoc k (set_prop k' v l) = assoc k l.
Proof.
  intros Hne. induction l as [| [k0 v0] l IH]; simpl.
  - destruct (String.eqb_spec k' k); [contradiction | reflexivity].
  - destruct (String.eqb_spec k0 k') as [-> | Hk0]; simpl.
    + destruct (String.eqb_spec k' k); [contradiction | reflexivity].
    + destruct (String.eqb k0 k); [reflexivity | exact IH].
Qed.

Lemma or_else_string_or_truthy (a b : value) :
  is_string b || truthy b = true ->
  is_string (or_else a b) || truthy (or_else a b) = true.
Proof.
  intros Hb. unfold or_else. destruct (truthy a) eqn:Ea.
  - rewrite Ea. apply orb_true_r.
  - exact Hb.
Qed.

Lemma string_or_truthy_not_nullish (v : value) :
  is_string v || truthy v = true -> is_nullish v = false.
Proof. destruct v; simpl; intros E; try reflexivity; discriminate E. Qed.

(** ** Arrays have no named properties besides [length] *)

Lemma index_of_key_not_numeric (k : string) (n : nat) :
  NilEmpty.uint_of_string k = None -> index_of_key k n = None.
Proof.
  intros Hk. induction n as [| m IH]; simpl.
  - reflexivity.
  - destruct (String.eqb_spec (nat_to_string m) k) as [E | _].
    + rewrite <- E in Hk. unfold nat_to_string in Hk.
      rewrite NilEmpty.usu in Hk. discriminate Hk.
    + exact IH.
Qed.

Lemma prop_array_named (l : list value) (k : string) :
  NilEmpty.uint_of_string k = None -> String.eqb k "length" = false ->
  prop (VArr l) k = VUndef.
Proof.
  intros Hk Hl. simpl. rewrite Hl.
  rewrite (index_of_key_not_numeric k _ Hk). reflexivity.
Qed.

Lemma isReviewItemFormat_object (data : value) :
  Jsonl.isReviewItemFormat data = Ok true ->
  exists l, data = VObj l /\ is_object (prop data "input") = true
            /\ has_prop "prompt" (prop data "input") = true
            /\ isArray (prop data "outputs") = true.
Proof.
  unfold Jsonl.isReviewItemFormat, JS.get.
  destruct data as [| | b | n | s | l | l];
    try (simpl; discriminate).
  - cbn [is_nullish rbind]. rewrite prop_array_named by reflexivity.
    simpl. discriminate.
  - cbn [is_nullish rbind]. intros E. injection E as E'. exists l.
    apply andb_prop in E'. destruct E' as [E1 E3].
    apply andb_prop in E1. destruct E1 as [E1 E2].
    repeat split; assumption.
Qed.

(** ** The pass-through stage *)

Section PassThroughFacts.
Context (H : Host).

Lemma passThrough_returns (l : list (string * value)) (now : value) (s : nat) :
  exists id s',
    Jsonl.passThrough H (VObj l) now s =
      (Ok (VObj
        (set_prop "status" (or_else (prop (VObj l) "status") (VStr "pending"))
          (set_prop "updated_at" now
            (set_prop "created_at" (or_else (prop (VObj l) "created_at") now)
              (set_prop "version" (VNum Jsonl.SCHEMA_VERSION)
                (set_prop "id" id l)))))), s').
Proof.
  unfold Jsonl.passThrough.
  destruct (truthy (prop (VObj l) "id")).
  - eexists _, _. reflexivity.
  - eexists _, _. reflexivity.
Qed.

Lemma passThrough_frame (l : list (string * value)) (now id st ca : value) (k : string) :
  bookkeeping k = false ->
  prop (VObj
        (set_prop "status" st
          (set_prop "updated_at" now
            (set_prop "created_at" ca
              (set_prop "version" (VNum Jsonl.SCHEMA_VERSION)
                (set_prop "id" id l)))))) k = prop (VObj l) k.
Proof.
  unfold bookkeeping. intros Hk.
  repeat (apply orb_false_elim in Hk; destruct Hk as [Hk ?]).
  simpl.
  rewrite !assoc_set_prop_other; try reflexivity;
    intros E; subst k; simpl in *; discriminate.
Qed.

Lemma normalizeToReviewItem_passThrough (data : value) (n s : nat) :
  Jsonl.isReviewItemFormat data = Ok true ->
  Jsonl.normalizeToReviewItem H data n s
  = Jsonl.passThrough H data (VStr (clock H s)) (S s).
Proof.
  intros E. unfold Jsonl.normalizeToReviewItem, now_iso, bind, lift.
  rewrite E. reflexivity.
Qed.

(** The record of the pass-through stage, with the id it keeps or draws. *)
Lemma passThrough_eq (l : list (string * value)) (now : value) (s : nat) :
  Jsonl.passThrough H (VObj l) now s
  = (Ok (VObj
      (set_prop "status" (or_else (prop (VObj l) "status") (VStr "pending"))
        (set_prop "updated_at" now
          (set_prop "created_at" (or_else (prop (VObj l) "created_at") now)
            (set_prop "version" (VNum Jsonl.SCHEMA_VERSION)
              (set_prop "id" (or_else (prop (VObj l) "id") (VStr (uuid H s))) l)))))),
     if truthy (prop (VObj l) "id") then s else S s).
Proof.
  unfold Jsonl.passThrough.
  replace (or_else (prop (VObj l) "id") (VStr (uuid H s)))
    with (if truthy (prop (VObj l) "id") then prop (VObj l) "id" else VStr (uuid H s))
    by reflexivity.
  destruct (truthy (prop (VObj l) "id")); reflexivity.
Qed.

(** What the five written properties hold afterwards. *)
Lemma passThrough_written (l : list (string * value)) (now id st ca : value) :
  let r := VObj
        (set_prop "status" st
          (set_prop "updated_at" now
            (set_prop "created_at" ca
              (set_prop "version" (VNum Jsonl.SCHEMA_VERSION)
                (set_prop "id" id l))))) in
  prop r "status" = st /\ prop r "updated_at" = now /\ prop r "created_at" = ca
  /\ prop r "version" = VNum Jsonl.SCHEMA_VERSION /\ prop r "id" = id.
Proof.
  simpl.
  repeat split;
    repeat first [ rewrite assoc_set_prop_same; reflexivity
                 | rewrite assoc_set_prop_other by discriminate ].
Qed.

Lemma or_else_truthy (a b : value) : truthy a = true -> or_else a b = a.
Proof. unfold or_else. intros ->. reflexivity. Qed.

(** Claim C10.  Normalizing an already-canonical record [data] (one with
    [input.prompt] and an [outputs] array) takes the pass-through stage
    and returns a record [r1]; normalizing [r1] again takes the
    pass-through stage too and returns a record [r2] with the same
    [input], [outputs] and [trace_metadata] as [r1].  The first pass keeps
    every property of [data] that it does not write, keeps [data.id] and
    [data.created_at] when they are truthy, and else fills them from
    [uuidv4()] and the clock.  The second pass changes [updated_at] and
    nothing else: [version] and [status] are the same in [r1] and [r2],
    and so are [id] and [created_at] as soon as they are truthy in [r1],
    which they are on every host whose [uuidv4()] and [toISOString()]
    return non-empty strings. *)
Theorem C10_pass_through_idempotent (data : value) (n n' s : nat) :
  Jsonl.isReviewItemFormat data = Ok true ->
  exists r1 s1 r2 s2,
    Jsonl.normalizeToReviewItem H data n s = (Ok r1, s1)
    /\ Jsonl.normalizeToReviewItem H r1 n' s1 = (Ok r2, s2)
    /\ input r2 = input r1
    /\ outputs r2 = outputs r1
    /\ trace_metadata r2 = trace_metadata r1
    /\ (forall k, bookkeeping k = false -> prop r2 k = prop r1 k /\ prop r1 k = prop data k)
    /\ prop r1 "id" = or_else (prop data "id") (VStr (uuid H (S s)))
    /\ prop r1 "created_at" = or_else (prop data "created_at") (VStr (clock H s))
    /\ (forall k, k <> "updated_at" -> k <> "id" -> k <> "created_at" ->
          prop r2 k = prop r1 k)
    /\ (truthy (prop r1 "id") = true -> prop r2 "id" = prop r1 "id")
    /\ (truthy (prop r1 "created_at") = true ->
          prop r2 "created_at" = prop r1 "created_at")
    /\ prop r2 "updated_at" = VStr (clock H s1)
    /\ ((forall t, uuid H t <> "") -> (forall t, clock H t <> "") ->
        forall k, k <> "updated_at" -> prop r2 k = prop r1 k).
Proof.
  intros E.
  destruct (isReviewItemFormat_object data E) as (l & -> & Ei & Ep & Eo).
  pose proof (passThrough_eq l (VStr (clock H s)) (S s)) as E1.
  match type of E1 with _ = (Ok (VObj ?x), ?t) => set (l1 := x) in *; set (s1 := t) in * end.
  assert (F1 : forall k, bookkeeping k = false -> prop (VObj l1) k = prop (VObj l) k).
  { intros k Hk. apply passThrough_frame. exact Hk. }
  assert (E' : Jsonl.isReviewItemFormat (VObj l1) = Ok true).
  { unfold Jsonl.isReviewItemFormat, JS.get. cbn [is_nullish rbind].
    rewrite !F1 by reflexivity. rewrite Ei, Ep, Eo. reflexivity. }
  pose proof (passThrough_eq l1 (VStr (clock H s1)) (S s1)) as E2.
  match type of E2 with _ = (Ok (VObj ?x), ?t) => set (l2 := x) in *; set (s2 := t) in * end.
  assert (F2 : forall k, bookkeeping k = false -> prop (VObj l2) k = prop (VObj l1) k).
  { intros k Hk. apply passThrough_frame. exact Hk. }
  destruct (passThrough_written l (VStr (clock H s))
              (or_else (prop (VObj l) "id") (VStr (uuid H (S s))))
              (or_else (prop (VObj l) "status") (VStr "pending"))
              (or_else (prop (VObj l) "created_at") (VStr (clock H s))))
    as (W1s & W1u & W1c & W1v & W1i).
  destruct (passThrough_written l1 (VStr (clock H s1))
              (or_else (prop (VObj l1) "id") (VStr (uuid H (S s1))))
              (or_else (prop (VObj l1) "status") (VStr "pending"))
              (or_else (prop (VObj l1) "created_at") (VStr (clock H s1))))
    as (W2s & W2u & W2c & W2v & W2i).
  fold l1 in W1s, W1u, W1c, W1v, W1i. fold l2 in W2s, W2u, W2c, W2v, W2i.
  assert (Hstatus : prop (VObj l2) "status" = prop (VObj l1) "status").
  { rewrite W2s. apply or_else_truthy. rewrite W1s. unfold or_else.
    destruct (truthy (prop (VObj l) "status")) eqn:Es; [exact Es | reflexivity]. }
  assert (Hversion : prop (VObj l2) "version" = prop (VObj l1) "version").
  { rewrite W2v, W1v. reflexivity. }
  assert (Hid : truthy (prop (VObj l1) "id") = true ->
                prop (VObj l2) "id" = prop (VObj l1) "id").
  { intros Ht. rewrite W2i. apply or_else_truthy. exact Ht. }
  assert (Hca : truthy (prop (VObj l1) "created_at") = true ->
                prop (VObj l2) "created_at" = prop (VObj l1) "created_at").
  { intros Ht. rewrite W2c. apply or_else_truthy. exact Ht. }
  assert (Hrest : forall k, k <> "updated_at" -> k <> "id" -> k <> "created_at" ->
                    prop (VObj l2) k = prop (VObj l1) k).
  { intros k Hu Hi Hc.
    destruct (String.eqb_spec k "status") as [-> | Hs]; [exact Hstatus |].
    destruct (String.eqb_spec k "version") as [-> | Hv]; [exact Hversion |].
    apply F2. unfold bookkeeping.
    apply String.eqb_neq in Hu, Hi, Hc, Hs, Hv.
    rewrite Hu, Hi, Hc, Hs, Hv. reflexivity. }
  exists (VObj l1), s1, (VObj l2), s2.
  split; [rewrite (normalizeToReviewItem_passThrough _ n s E); exact E1 |].
  split; [rewrite (normalizeToReviewItem_passThrough _ n' s1 E'); exact E2 |].
  unfold input, outputs, trace_metadata.
  split; [apply F2; reflexivity |].
  split; [apply F2; reflexivity |].
  split; [apply F2; reflexivity |].
  split; [intros k Hk; split; [apply F2; exact Hk | apply F1; exact Hk] |].
  split; [exact W1i |].
  split; [exact W1c |].
  split; [exact Hrest |].
  split; [exact Hid |].
  split; [exact Hca |].
  split; [exact W2u |].
  intros Huuid Hclock k Hu.
  destruct (String.eqb_spec k "id") as [-> | Hi].
  - apply Hid. rewrite W1i. unfold or_else.
    destruct (truthy (prop (VObj l) "id")) eqn:Et; [exact Et |].
    simpl. specialize (Huuid (S s)). destruct (uuid H (S s)); [contradiction | reflexivity].
  - destruct (String.eqb_spec k "created_at") as [-> | Hc].
    + apply Hca. rewrite W1c. unfold or_else.
      destruct (truthy (prop (VObj l) "created_at")) eqn:Et; [exact Et |].
      simpl. specialize (Hclock s). destruct (clock H s); [contradiction | reflexivity].
    + apply Hrest; assumption.
Qed.
End PassThroughFacts.

Lemma Reference_uuid_nonempty (t : nat) : uuid Reference.host t <> "".
Proof. discriminate. Qed.

Lemma Reference_clock_nonempty (t : nat) : clock Reference.host t <> "".
Proof. discriminate. Qed.

Lemma C10_witness :
  exists r1 s1 r2 s2,
    Jsonl.normalizeToReviewItem Reference.host Examples.canonicalRecord 1 0 = (Ok r1, s1)
    /\ Jsonl.normalizeToReviewItem Reference.host r1 1 s1 = (Ok r2, s2)
    /\ input r2 = input r1
    /\ outputs r2 = outputs r1
    /\ trace_metadata r2 = trace_metadata r1
    /\ prop r1 "id" = VStr "r-1"
    /\ forall k, k <> "updated_at" -> prop r2 k = prop r1 k.
Proof.
  destruct (C10_pass_through_idempotent Reference.host Examples.canonicalRecord 1 1 0 eq_refl)
    as (r1 & s1 & r2 & s2 & E1 & E2 & Hi & Ho & Ht & _ & Hid & _ & _ & _ & _ & _ & Hall).
  exists r1, s1, r2, s2.
  repeat split; try assumption.
  apply Hall; [exact Reference_uuid_nonempty | exact Reference_clock_nonempty].
Defined.


(** ** Nesting depth *)

Lemma depth_element (x : value) (l : list value) :
  In x l -> LangSmith.depth x < LangSmith.depth (VArr l).
Proof.
  simpl. induction l as [| y l IH]; simpl; intros Hin.
  - contradiction.
  - destruct Hin as [-> | Hin]; [lia | specialize (IH Hin); lia].
Qed.

Lemma depth_assoc (k : string) (l : list (string * value)) (x : value) :
  assoc k l = Some x -> LangSmith.depth x < LangSmith.depth (VObj l).
Proof.
  simpl. induction l as [| [k' y] l IH]; simpl; intros E.
  - discriminate E.
  - destruct (String.eqb k' k).
    + injection E as ->. lia.
    + specialize (IH E). lia.
Qed.

Lemma depth_nth (i : nat) (l : list value) :
  LangSmith.depth (nth i l VUndef) <= LangSmith.depth (VArr l) - 1.
Proof.
  destruct (Nat.lt_ge_cases i (List.length l)) as [Hlt | Hge].
  - pose proof (depth_element _ _ (nth_In l VUndef Hlt)). lia.
  - rewrite nth_overflow by exact Hge. simpl. lia.
Qed.

(** A property is nested strictly deeper than its holder, unless it is
    flat itself. *)
Lemma depth_prop (v : value) (k : string) :
  LangSmith.depth (prop v k) <= LangSmith.depth v - 1.
Proof.
  destruct v as [| | b | n | s | l | l].
  - simpl. lia.
  - simpl. lia.
  - simpl. lia.
  - simpl. lia.
  - unfold prop. destruct (String.eqb k "length"); simpl; lia.
  - unfold prop. destruct (String.eqb k "length"); [simpl; lia |].
    destruct (index_of_key k (List.length l)); [apply depth_nth | simpl; lia].
  - unfold prop. destruct (assoc k l) eqn:E; [| simpl; lia].
    pose proof (depth_assoc _ _ _ E). lia.
Qed.

Lemma map_res_ext {A B : Type} (f g : A -> res B) (l : list A) :
  (forall x, In x l -> f x = g x) -> map_res f l = map_res g l.
Proof.
  induction l as [| x l IH]; simpl; intros Hfg.
  - reflexivity.
  - rewrite (Hfg x (or_introl eq_refl)).
    rewrite IH by (intros y Hy; apply Hfg; right; exact Hy). reflexivity.
Qed.

Lemma as_array_inv (v : value) (l : list value) : as_array v = Ok l -> v = VArr l.
Proof. destruct v; simpl; intros E; try discriminate E. injection E as ->. reflexivity. Qed.

(** *** The recursions never run out of fuel

    With more fuel than the nesting depth of the argument the recursive
    functions do not depend on the fuel: the stack-overflow branch of the
    embedding is never taken by [findLLMLeafSpans],
    [findRelatedRetrieverSpans] and [getAttributeValue]. *)

Section Fuel.
Context (H : Host).

(** The children reached by a recursive call lie two levels deeper. *)
Lemma child_depth (run child : value) (children : list value) :
  as_array (prop run "child_runs") = Ok children -> In child children ->
  S (LangSmith.depth child) < LangSmith.depth run.
Proof.
  intros E Hin. apply as_array_inv in E.
  pose proof (depth_prop run "child_runs") as Hp. rewrite E in Hp.
  pose proof (depth_element child children Hin). lia.
Qed.

Lemma findLLMLeafSpans_fuel (fuel fuel' : nat) (run : value) :
  LangSmith.depth run < fuel -> LangSmith.depth run < fuel' ->
  LangSmith.findLLMLeafSpans_rec H fuel run = LangSmith.findLLMLeafSpans_rec H fuel' run.
Proof.
  revert fuel' run. induction fuel as [| fuel IH]; intros fuel' run Hf Hf'; [lia |].
  destruct fuel' as [| fuel']; [lia |].
  simpl.
  destruct (JS.get run "run_type") as [run_type | e]; [simpl | reflexivity].
  destruct (LangSmith.getSpanType run_type) as [spanType | e]; [simpl | reflexivity].
  assert (Hrec : forall children,
            as_array (prop run "child_runs") = Ok children ->
            LangSmith.flat_map_res (LangSmith.findLLMLeafSpans_rec H fuel) children
            = LangSmith.flat_map_res (LangSmith.findLLMLeafSpans_rec H fuel') children).
  { intros children E. unfold LangSmith.flat_map_res. f_equal.
    apply map_res_ext. intros child Hin.
    pose proof (child_depth run child children E Hin).
    apply IH; lia. }
  destruct (as_array (prop run "child_runs")) as [children | e] eqn:E; simpl.
  - rewrite (Hrec children eq_refl). reflexivity.
  - reflexivity.
Qed.

Lemma findRelatedRetrieverSpans_fuel (fuel fuel' : nat) (run : value) :
  LangSmith.depth run < fuel -> LangSmith.depth run < fuel' ->
  LangSmith.findRelatedRetrieverSpans_rec fuel run
  = LangSmith.findRelatedRetrieverSpans_rec fuel' run.
Proof.
  revert fuel' run. induction fuel as [| fuel IH]; intros fuel' run Hf Hf'; [lia |].
  destruct fuel' as [| fuel']; [lia |].
  simpl.
  destruct (JS.get run "run_type") as [run_type | e]; [simpl | reflexivity].
  destruct (LangSmith.getSpanType run_type) as [spanType | e]; [simpl | reflexivity].
  destruct (as_array (prop run "child_runs")) as [children | e] eqn:E; simpl;
    [| reflexivity].
  unfold LangSmith.flat_map_res.
  rewrite (map_res_ext (LangSmith.findRelatedRetrieverSpans_rec fuel)
             (LangSmith.findRelatedRetrieverSpans_rec fuel') children).
  - reflexivity.
  - intros child Hin. pose proof (child_depth run child children E Hin).
    apply IH; lia.
Qed.

(** Unfolding equation of [findLLMLeafSpans]: the recursive calls are
    again calls of [findLLMLeafSpans]. *)
Lemma findLLMLeafSpans_eq (run : value) :
  LangSmith.findLLMLeafSpans H run =
  (run_type <- JS.get run "run_type" ;;
   spanType <- LangSmith.getSpanType run_type ;;
   let child_runs := prop run "child_runs" in
   if is_llm spanType then
     if negb (truthy child_runs) || eq_num (prop child_runs "length") 0%float
     then Ok [run]
     else
       children <- as_array child_runs ;;
       childLLMSpans <- LangSmith.flat_map_res (LangSmith.findLLMLeafSpans H) children ;;
       match childLLMSpans with
       | [] => Ok [run]
       | _ :: _ => Ok childLLMSpans
       end
   else if truthy child_runs && gt_zero H (prop child_runs "length") then
     children <- as_array child_runs ;;
     LangSmith.flat_map_res (LangSmith.findLLMLeafSpans H) children
   else Ok [])%js.
Proof.
  unfold LangSmith.findLLMLeafSpans at 1. simpl.
  destruct (JS.get run "run_type") as [run_type | e]; [simpl | reflexivity].
  destruct (LangSmith.getSpanType run_type) as [spanType | e]; [simpl | reflexivity].
  assert (Hrec : forall children,
            as_array (prop run "child_runs") = Ok children ->
            LangSmith.flat_map_res
              (LangSmith.findLLMLeafSpans_rec H (LangSmith.depth run)) children
            = LangSmith.flat_map_res (LangSmith.findLLMLeafSpans H) children).
  { intros children E. unfold LangSmith.flat_map_res. f_equal.
    apply map_res_ext. intros child Hin.
    pose proof (child_depth run child children E Hin).
    unfold LangSmith.findLLMLeafSpans. apply findLLMLeafSpans_fuel; lia. }
  destruct (as_array (prop run "child_runs")) as [children | e] eqn:E; simpl.
  - rewrite (Hrec children eq_refl). reflexivity.
  - reflexivity.
Qed.
End Fuel.

Section FuelOTel.
Context (H : Host).

Lemma iterate_depth (v attr : value) (attrs : list value) :
  iterate v = Ok attrs -> In attr attrs ->
  LangSmith.depth attr <= LangSmith.depth v - 1.
Proof.
  destruct v as [| | b | n | s | l | l]; simpl; intros E Hin; try discriminate E.
  - injection E as <-. apply in_map_iff in Hin. destruct Hin as (c & <- & _).
    simpl. lia.
  - injection E as <-. pose proof (depth_element attr l Hin). simpl in *. lia.
Qed.

Lemma truthy_prop_depth (v : value) (k : string) :
  truthy (prop v k) = true -> String.eqb k "length" = false -> 0 < LangSmith.depth v.
Proof.
  destruct v as [| | b | n | s | l | l]; simpl; intros E Hk; try discriminate E;
    try lia.
  rewrite Hk in E. discriminate E.
Qed.

Lemma getAttributeValue_fuel (fuel fuel' : nat) (v : value) :
  LangSmith.depth v < fuel -> LangSmith.depth v < fuel' ->
  OTel.getAttributeValue_rec H fuel v = OTel.getAttributeValue_rec H fuel' v.
Proof.
  revert fuel' v. induction fuel as [| fuel IH]; intros fuel' v Hf Hf'; [lia |].
  destruct fuel' as [| fuel']; [lia |].
  simpl.
  destruct (JS.get v "stringValue") as [stringValue | e]; [simpl | reflexivity].
  destruct (negb (is_undefined stringValue)); [reflexivity |].
  destruct (negb (is_undefined (prop v "intValue"))); [reflexivity |].
  destruct (negb (is_undefined (prop v "doubleValue"))); [reflexivity |].
  destruct (negb (is_undefined (prop v "boolValue"))); [reflexivity |].
  destruct (truthy (prop v "arrayValue")) eqn:Harr.
  - destruct (as_array (prop (prop v "arrayValue") "values")) as [values | e] eqn:E;
      simpl; [| reflexivity].
    rewrite (map_res_ext (OTel.getAttributeValue_rec H fuel)
               (OTel.getAttributeValue_rec H fuel') values); [reflexivity |].
    intros x Hin. apply as_array_inv in E.
    pose proof (depth_prop v "arrayValue").
    pose proof (depth_prop (prop v "arrayValue") "values") as Hv. rewrite E in Hv.
    pose proof (depth_element x values Hin).
    apply IH; lia.
  - destruct (truthy (prop v "kvlistValue")) eqn:Hkv; [| reflexivity].
    destruct (iterate (prop (prop v "kvlistValue") "values")) as [attrs | e] eqn:E;
      simpl; [| reflexivity].
    assert (Hattrs : forall attr, In attr attrs ->
              OTel.getAttributeValue_rec H fuel (prop attr "value")
              = OTel.getAttributeValue_rec H fuel' (prop attr "value")).
    { intros attr Hin.
      pose proof (truthy_prop_depth v "kvlistValue" Hkv eq_refl).
      pose proof (depth_prop v "kvlistValue").
      pose proof (depth_prop (prop v "kvlistValue") "values").
      pose proof (iterate_depth _ attr attrs E Hin).
      pose proof (depth_prop attr "value").
      apply IH; lia. }
    clear E. generalize (@nil (string * value)) as obj.
    induction attrs as [| attr attrs IHattrs]; intros obj; [reflexivity |].
    destruct (JS.get attr "key") as [key | e]; [simpl | reflexivity].
    rewrite <- (Hattrs attr (or_introl eq_refl)).
    destruct (OTel.getAttributeValue_rec H fuel (prop attr "value")) as [x | e];
      [simpl | reflexivity].
    apply IHattrs. intros a Ha. apply Hattrs. right. exact Ha.
Qed.
End FuelOTel.

(** ** The OTel mapping table *)

Lemma spread_read (cur : OTelMappingConfig) (m : PartialOTelMappingConfig) (k : Key) :
  read k (spread cur m) =
  match supplied k m with Some v => v | None => read k cur end.
Proof.
  destruct k; simpl;
    match goal with |- context [override _ ?o] => destruct o end; reflexivity.
Qed.

Lemma afterUpdates_adapters (updates : list PartialOTelMappingConfig) (reg : AdapterRegistry) :
  adapters (afterUpdates reg updates) = adapters reg.
Proof.
  revert reg. induction updates as [| m updates IH]; intros reg.
  - reflexivity.
  - unfold afterUpdates in *. simpl. rewrite IH. reflexivity.
Qed.

(** A key that no update of a sequence supplies holds, after the whole
    sequence, the value it held before it; from the initial registry, that
    is the built-in default. *)
Lemma afterUpdates_never_supplied (updates : list PartialOTelMappingConfig)
  (reg : AdapterRegistry) (k : Key) :
  Forall (fun m => supplied k m = None) updates ->
  read k (getOTelMappings (afterUpdates reg updates)) = read k (getOTelMappings reg).
Proof.
  intros Hall. revert reg. induction Hall as [| m updates Hm _ IH]; intros reg.
  - reflexivity.
  - unfold afterUpdates in *. simpl. rewrite IH.
    unfold getOTelMappings, setOTelMappings. simpl.
    rewrite spread_read, Hm. reflexivity.
Qed.

(** The last update that supplies a key decides its value. *)
Lemma afterUpdates_last_supplied (before after : list PartialOTelMappingConfig)
  (m : PartialOTelMappingConfig) (reg : AdapterRegistry) (k : Key) (v : KeyValue) :
  supplied k m = Some v ->
  Forall (fun m' => supplied k m' = None) after ->
  read k (getOTelMappings (afterUpdates reg (before ++ m :: after))) = v.
Proof.
  intros Hm Hafter. unfold afterUpdates. rewrite fold_left_app. simpl.
  fold (afterUpdates (setOTelMappings (fold_left setOTelMappings before reg) m) after).
  rewrite (afterUpdates_never_supplied after _ k Hafter).
  unfold getOTelMappings, setOTelMappings. simpl.
  rewrite spread_read, Hm. reflexivity.
Qed.

(** Claim C9.  [setOTelMappings] changes only the keys that the partial
    override supplies: a key of the configuration that the override does
    not supply keeps the value it had before the update, a supplied key
    takes the supplied value ([tokenAttributes], with its three lists, is
    one key of the override type and is replaced as a whole), and the
    registered adapters are untouched.  Starting from the initial
    registry, a key that no override has supplied holds its built-in
    default after the update. *)
Theorem C9_override_changes_only_supplied_keys
  (reg : AdapterRegistry) (mappings : PartialOTelMappingConfig) (k : Key) :
  (supplied k mappings = None ->
     read k (getOTelMappings (setOTelMappings reg mappings))
     = read k (getOTelMappings reg))
  /\ (forall v, supplied k mappings = Some v ->
        read k (getOTelMappings (setOTelMappings reg mappings)) = v)
  /\ adapters (setOTelMappings reg mappings) = adapters reg
  /\ (forall updates,
        reg = afterUpdates empty_registry updates ->
        Forall (fun m => supplied k m = None) updates ->
        supplied k mappings = None ->
        read k (getOTelMappings (setOTelMappings reg mappings))
        = read k DEFAULT_OTEL_MAPPINGS).
Proof.
  assert (Hstep : read k (getOTelMappings (setOTelMappings reg mappings))
                  = match supplied k mappings with
                    | Some v => v
                    | None => read k (getOTelMappings reg)
                    end).
  { unfold getOTelMappings, setOTelMappings. simpl. apply spread_read. }
  split; [intros Hk; rewrite Hstep, Hk; reflexivity |].
  split; [intros v Hk; rewrite Hstep, Hk; reflexivity |].
  split; [reflexivity |].
  intros updates -> Hall Hk. rewrite Hstep, Hk.
  apply (afterUpdates_never_supplied updates empty_registry k Hall).
Qed.

Lemma C9_witness :
  read KResponseAttributes
    (getOTelMappings (setOTelMappings (setOTelMappings empty_registry Examples.customPrompt)
                        Examples.customModel))
  = read KResponseAttributes DEFAULT_OTEL_MAPPINGS
  /\ read KModelAttributes
       (getOTelMappings (setOTelMappings (setOTelMappings empty_registry Examples.customPrompt)
                           Examples.customModel))
     = Names ["custom.model"].
Proof.
  split.
  - apply (proj2 (proj2 (proj2
      (C9_override_changes_only_supplied_keys
         (setOTelMappings empty_registry Examples.customPrompt)
         Examples.customModel KResponseAttributes)))
      [Examples.customPrompt]).
    + reflexivity.
    + repeat constructor.
    + reflexivity.
  - apply (proj1 (proj2
      (C9_override_changes_only_supplied_keys
         (setOTelMappings empty_registry Examples.customPrompt)
         Examples.customModel KModelAttributes))).
    reflexivity.
Defined.

(** ** The size gate *)

Section SizeGate.
Context (H : Host).

(** Claim C7.  A file whose reported size exceeds [MAX_FILE_SIZE]
    (50 MiB) is answered with [success = false], no record, and the single
    error "File size exceeds 50MB limit"; the answer is this constant
    whatever the host, the registry and the text are, and no oracle is
    drawn, so the content is not parsed.  A file at or below the ceiling
    is handed to the parsing code unchanged. *)
Theorem C7_size_ceiling (reg : AdapterRegistry) (file : Jsonl.File) (s : nat) :
  Jsonl.MAX_FILE_SIZE = (50 * 2 ^ 20)%Z
  /\ ((Jsonl.MAX_FILE_SIZE < Jsonl.size file)%Z ->
        Jsonl.parseJsonlFile H reg file s
        = (Ok {| success := false;
                 itemsImported := 0;
                 items := [];
                 errors := [ {| line := 0;
                                message := "File size exceeds 50MB limit" |} ] |},
           s))
  /\ includes "File size exceeds 50MB limit" "50MB" = true
  /\ ((Jsonl.size file <= Jsonl.MAX_FILE_SIZE)%Z ->
        Jsonl.parseJsonlFile H reg file s
        = Jsonl.parseText H reg (Jsonl.text file) s).
Proof.
  split; [reflexivity |].
  split.
  - intros Hgt. unfold Jsonl.parseJsonlFile.
    destruct (Z.ltb_spec Jsonl.MAX_FILE_SIZE (Jsonl.size file)) as [_ | Hle].
    + reflexivity.
    + exfalso. apply (Z.lt_irrefl Jsonl.MAX_FILE_SIZE).
      eapply Z.lt_le_trans; eassumption.
  - split; [reflexivity |].
    intros Hle. unfold Jsonl.parseJsonlFile.
    destruct (Z.ltb_spec Jsonl.MAX_FILE_SIZE (Jsonl.size file)) as [Hgt | _].
    + exfalso. apply (Z.lt_irrefl Jsonl.MAX_FILE_SIZE).
      eapply Z.lt_le_trans; eassumption.
    + reflexivity.
Qed.

End SizeGate.

Lemma C7_witness :
  Jsonl.parseJsonlFile Reference.host (Jsonl.adapterRegistry Reference.host)
    Examples.oversized 0
  = (Ok {| success := false;
           itemsImported := 0;
           items := [];
           errors := [ {| line := 0; message := "File size exceeds 50MB limit" |} ] |},
     0)
  /\ Jsonl.parseJsonlFile Reference.host (Jsonl.adapterRegistry Reference.host)
       {| Jsonl.size := 50 * 1024 * 1024; Jsonl.text := "[]" |} 0
     = Jsonl.parseText Reference.host (Jsonl.adapterRegistry Reference.host) "[]" 0.
Proof.
  split.
  - apply (proj1 (proj2 (C7_size_ceiling Reference.host
             (Jsonl.adapterRegistry Reference.host) Examples.oversized 0))).
    reflexivity.
  - apply (proj2 (proj2 (proj2 (C7_size_ceiling Reference.host
             (Jsonl.adapterRegistry Reference.host)
             {| Jsonl.size := 50 * 1024 * 1024; Jsonl.text := "[]" |} 0)))).
    simpl. discriminate.
Defined.

(** ** The import result *)

Lemma ImportShape_successRule (r : ImportResult) : ImportShape r -> successRule r.
Proof. intros [| result | items errors]; split; reflexivity. Qed.

Section Orchestrator.
Context (H : Host).

Lemma processLine_returns (reg : AdapterRegistry) (n : nat) (line : string)
  (acc : list value * list ImportError) (s : nat) :
  exists acc' s', Jsonl.processLine H reg n line acc s = (Ok acc', s').
Proof.
  unfold Jsonl.processLine. apply try_catch_returns.
  intros e s1. eexists _, _. reflexivity.
Qed.

Lemma processLines_returns (reg : AdapterRegistry) (lines : list string) (i : nat)
  (acc : list value * list ImportError) (s : nat) :
  exists acc' s', Jsonl.processLines H reg i lines acc s = (Ok acc', s').
Proof.
  revert i acc s. induction lines as [| line lines IH]; intros i acc s; simpl.
  - eexists _, _. reflexivity.
  - unfold bind.
    destruct (processLine_returns reg (i + 1) line acc s) as (acc1 & s1 & E1).
    rewrite E1. apply IH.
Qed.

Lemma parseJsonlLines_returns (reg : AdapterRegistry) (text : string) (s : nat) :
  exists items errors s',
    Jsonl.parseJsonlLines H reg text s = (Ok (Jsonl.finish items errors), s').
Proof.
  unfold Jsonl.parseJsonlLines, bind.
  destruct (processLines_returns reg (Jsonl.nonBlankLines text) 0 ([], []) s)
    as (acc & s' & E).
  rewrite E. eexists _, _, _. reflexivity.
Qed.

Lemma tryAdapter_shape (reg : AdapterRegistry) (adapter : TraceAdapter) (data : value)
  (s s' : nat) (r : ImportResult) :
  Jsonl.tryAdapter reg adapter data s = (Ok (inl r), s') -> ImportShape r.
Proof.
  unfold Jsonl.tryAdapter. intros E.
  apply try_catch_inv in E. destruct E as [E | (e & s1 & _ & E)].
  - minv. match goal with E : inl _ = inl _ |- _ => injection E as <- end.
    constructor.
  - minv. discriminate.
Qed.

Lemma parseJsonData_shape (reg : AdapterRegistry) (data : value) (s s' : nat)
  (r : ImportResult) :
  Jsonl.parseJsonData H reg data s = (Ok r, s') -> ImportShape r.
Proof.
  unfold Jsonl.parseJsonData. intros E.
  repeat (minv || mcase);
    try (match goal with E : inl _ = inl _ |- _ => injection E as <- end);
    try (match goal with E : Some _ = Some _ |- _ => injection E as <- end);
    try discriminate;
    try (constructor; fail);
    try (eapply tryAdapter_shape; eassumption).
Qed.

Lemma parseText_returns (reg : AdapterRegistry) (text : string) (s : nat) :
  exists r s', Jsonl.parseText H reg text s = (Ok r, s') /\ ImportShape r.
Proof.
  assert (Hlines : exists r s', Jsonl.parseJsonlLines H reg text s = (Ok r, s')
                                /\ ImportShape r).
  { destruct (parseJsonlLines_returns reg text s) as (items & errors & s' & E).
    eexists _, _. split; [exact E | constructor]. }
  unfold Jsonl.parseText.
  destruct (startsWith (trim text) "{" || startsWith (trim text) "["); [| exact Hlines].
  unfold try_catch.
  destruct ((parsed <~ lift (JSON_parse H (trim text)) ;; Jsonl.parseJsonData H reg parsed) s)
    as [[r | e] s1] eqn:E.
  - exists r, s1. split; [reflexivity |].
    apply bind_inv in E. destruct E as (parsed & s2 & _ & E).
    eapply parseJsonData_shape. exact E.
  - destruct (parseJsonlLines_returns reg text s1) as (items & errors & s' & E').
    eexists _, _. split; [exact E' | constructor].
Qed.

Lemma parseJsonlFile_returns (reg : AdapterRegistry) (file : Jsonl.File) (s : nat) :
  exists r s', Jsonl.parseJsonlFile H reg file s = (Ok r, s') /\ ImportShape r.
Proof.
  unfold Jsonl.parseJsonlFile.
  destruct (Jsonl.MAX_FILE_SIZE <? Jsonl.size file)%Z.
  - eexists _, _. split; [reflexivity | constructor].
  - apply parseText_returns.
Qed.

(** Claim C1, as amended.  An import never raises, and the [success]
    field of its result is true if and only if no error was recorded or
    at least one record was produced ([itemsImported] being the number of
    records).  Hence an import that produced a record reports
    [success = true], and [success = false] is reported exactly when no
    record was produced and at least one error was recorded. *)
Theorem C1_success_rule (reg : AdapterRegistry) (file : Jsonl.File) (s : nat) :
  exists r s',
    Jsonl.parseJsonlFile H reg file s = (Ok r, s')
    /\ success r = (Nat.eqb (List.length (errors r)) 0
                    || Nat.ltb 0 (List.length (items r)))
    /\ itemsImported r = List.length (items r)
    /\ (items r <> [] -> success r = true)
    /\ (success r = false <-> items r = [] /\ errors r <> []).
Proof.
  destruct (parseJsonlFile_returns reg file s) as (r & s' & E & Hshape).
  exists r, s'. split; [exact E |].
  destruct (ImportShape_successRule r Hshape) as [Hs Hn].
  split; [exact Hs |]. split; [exact Hn |].
  rewrite Hs. destruct (items r) as [| item items'], (errors r) as [| e errors']; simpl.
  - split; [intros Hne; reflexivity |].
    split; [discriminate | intros [_ Hne]; contradiction].
  - split; [intros Hne; contradiction |].
    split; [intros _; split; [reflexivity | discriminate] | reflexivity].
  - split; [reflexivity |].
    split; [discriminate | intros [Hnil _]; discriminate].
  - split; [reflexivity |].
    split; [discriminate | intros [Hnil _]; discriminate].
Qed.
End Orchestrator.

(** An import without records and without errors reports success, on
    every host: the empty file, and the empty array handed to
    [parseJsonData]. *)
Lemma empty_import_succeeds (H : Host) (s : nat) :
  Jsonl.parseJsonlFile H (Jsonl.adapterRegistry H) {| Jsonl.size := 0; Jsonl.text := "" |} s
  = (Ok {| success := true; itemsImported := 0; items := []; errors := [] |}, s)
  /\ Jsonl.parseJsonData H (Jsonl.adapterRegistry H) (VArr []) s
     = (Ok {| success := true; itemsImported := 0; items := []; errors := [] |}, s).
Proof. split; reflexivity. Qed.

Lemma C1_witness :
  exists r s',
    Jsonl.parseJsonlFile Reference.host (Jsonl.adapterRegistry Reference.host)
      Examples.oversized 0 = (Ok r, s')
    /\ success r = (Nat.eqb (List.length (errors r)) 0
                    || Nat.ltb 0 (List.length (items r)))
    /\ itemsImported r = List.length (items r)
    /\ (items r <> [] -> success r = true)
    /\ (success r = false <-> items r = [] /\ errors r <> []).
Proof.
  exact (C1_success_rule Reference.host (Jsonl.adapterRegistry Reference.host)
           Examples.oversized 0).
Defined.

(** Claim C1 as stated fails: the whole-document payload [[]] and the
    empty payload both produce zero records and report [success = true]. *)
Lemma C1_counterexample :
  Jsonl.parseJsonlFile Reference.host (Jsonl.adapterRegistry Reference.host)
    {| Jsonl.size := 2; Jsonl.text := "[]" |} 0
  = (Ok {| success := true; itemsImported := 0; items := []; errors := [] |}, 0)
  /\ Jsonl.parseJsonlFile Reference.host (Jsonl.adapterRegistry Reference.host)
       {| Jsonl.size := 0; Jsonl.text := "" |} 0
     = (Ok {| success := true; itemsImported := 0; items := []; errors := [] |}, 0).
Proof. split; vm_compute; reflexivity. Qed.

(** ** Status and prompt of the produced records *)

Section Prompts.
Context (H : Host).

Lemma JSON_stringify_object (v : value) :
  is_object v = true -> is_string (JSON_stringify H v) = true.
Proof. destruct v; simpl; intros E; try discriminate E; reflexivity. Qed.

Lemma in_op_object (k : string) (v : value) (b : bool) :
  in_op k v = Ok b -> is_object v = true.
Proof. unfold in_op. destruct (is_object v); [reflexivity | discriminate]. Qed.

Lemma LangSmith_extractPrompt_prompt (inputs : value) (ps : value * value) :
  LangSmith.extractPrompt H inputs = Ok ps -> stringOrTruthy (fst ps) = true.
Proof.
  unfold LangSmith.extractPrompt, stringOrTruthy. intros E.
  apply rbind_inv in E. destruct E as (in_messages & Ein & E).
  pose proof (JSON_stringify_object inputs (in_op_object _ _ _ Ein)) as Hjson.
  mauto; simpl; try reflexivity;
    repeat (apply or_else_string_or_truthy); try reflexivity.
  all: repeat match goal with
             | |- context [if ?b then _ else _] => destruct b
             end; simpl; try reflexivity; try (rewrite Hjson; reflexivity).
Qed.

Lemma OTel_extractPrompt_prompt (span : value) (mappings : OTelMappingConfig)
  (ps : value * value) :
  OTel.extractPrompt H span mappings = Ok ps -> stringOrTruthy (fst ps) = true.
Proof.
  unfold OTel.extractPrompt, stringOrTruthy. intros E.
  apply rbind_inv in E. destruct E as (configured & _ & E).
  apply rbind_inv in E. destruct E as (prompt & _ & E).
  destruct prompt as [| | b | n | str | messages | l];
    mauto; simpl; try reflexivity;
    repeat (apply or_else_string_or_truthy); try reflexivity.
  destruct (is_string (nth 0 messages VUndef)) eqn:Ef.
  - rewrite Ef. reflexivity.
  - reflexivity.
Qed.


(** What every record built by [convertRunToReviewItem] satisfies. *)
Lemma LangSmith_convert_facts (run now : value) (ctx : list value) (s s' : nat)
  (item : value) :
  LangSmith.convertRunToReviewItem H run now ctx s = (Ok item, s') ->
  status item = VStr "pending"
  /\ isArray item = false
  /\ stringOrTruthy (prompt item) = true.
Proof.
  unfold LangSmith.convertRunToReviewItem. intros E.
  apply bind_inv in E. destruct E as (run_id & s1 & _ & E).
  apply bind_inv in E. destruct E as (runId & s2 & _ & E).
  apply bind_inv in E. destruct E as (ps & s3 & Eps & E).
  apply lift_inv in Eps. destruct Eps as [Eps _].
  apply LangSmith_extractPrompt_prompt in Eps.
  mauto. split; [reflexivity |]. split; [reflexivity |]. exact Eps.
Qed.

Lemma OTel_convert_facts (span now : value) (ctx : list value)
  (mappings : OTelMappingConfig) (s s' : nat) (item : value) :
  OTel.convertSpanToReviewItem H span ctx mappings now s = (Ok item, s') ->
  status item = VStr "pending"
  /\ isArray item = false
  /\ stringOrTruthy (prompt item) = true.
Proof.
  unfold OTel.convertSpanToReviewItem. intros E.
  apply bind_inv in E. destruct E as (ps & s1 & Eps & E).
  apply lift_inv in Eps. destruct Eps as [Eps _].
  apply OTel_extractPrompt_prompt in Eps.
  mauto; (split; [reflexivity |]; split; [reflexivity |]; exact Eps).
Qed.


Lemma fromRun_not_array (item : value) : fromRun H item -> isArray item = false.
Proof.
  intros (run & now & ctx & s & s' & E).
  apply (LangSmith_convert_facts _ _ _ _ _ _ E).
Qed.

Lemma fromSpan_not_array (mappings : OTelMappingConfig) (item : value) :
  fromSpan H mappings item -> isArray item = false.
Proof.
  intros (span & now & ctx & s & s' & E).
  apply (OTel_convert_facts _ _ _ _ _ _ _ E).
Qed.

Lemma processRootRun_items (now run : value) (s s' : nat) (items : list value) :
  LangSmith.processRootRun H now run s = (Ok items, s') ->
  items <> [] /\ Forall (fromRun H) items.
Proof.
  unfold LangSmith.processRootRun. intros E.
  apply bind_inv in E. destruct E as (retrieverSpans & s1 & _ & E).
  apply bind_inv in E. destruct E as (contextChunks & s2 & _ & E).
  apply bind_inv in E. destruct E as (llmSpans & s3 & _ & E).
  destruct llmSpans as [| llmSpan llmSpans].
  - apply bind_inv in E. destruct E as (item & s4 & Ec & E).
    apply ret_inv in E. destruct E as [<- _].
    split; [discriminate |]. constructor; [| constructor].
    exists run, now, contextChunks, s3, s4. exact Ec.
  - split.
    + apply mapM_length in E. destruct items; [discriminate E | discriminate].
    + eapply mapM_Forall; [| exact E].
      intros x s4 s5 y Ec. exists x, now, contextChunks, s4, s5. exact Ec.
Qed.

Lemma LangSmith_normalize_items (data : value) (s s' : nat) (result : value) :
  LangSmith.normalize H data s = (Ok result, s') ->
  Forall (fromRun H) (Jsonl.normalizedItems result)
  /\ forall runs, LangSmith.rootRuns data = Ok (Some runs) ->
       List.length runs <= List.length (Jsonl.normalizedItems result).
Proof.
  unfold LangSmith.normalize. intros E.
  apply bind_inv in E. destruct E as (now & s1 & _ & E).
  apply bind_inv in E. destruct E as (runs & s2 & Eruns & E).
  apply lift_inv in Eruns. destruct Eruns as [Eruns _].
  destruct runs as [runs |].
  - apply bind_inv in E. destruct E as (items & s3 & Eitems & E).
    apply ret_inv in E. destruct E as [<- _].
    unfold LangSmith.flat_mapM in Eitems.
    apply bind_inv in Eitems. destruct Eitems as (ls & s4 & Els & Eitems).
    apply ret_inv in Eitems. destruct Eitems as [<- _].
    assert (Hls : Forall (fun zs => zs <> [] /\ Forall (fromRun H) zs) ls).
    { eapply mapM_Forall; [| exact Els].
      intros x s5 s6 y Ey. eapply processRootRun_items. exact Ey. }
    assert (Hall : Forall (fromRun H) (List.concat ls)).
    { apply Forall_forall. intros y Hy. apply in_concat in Hy.
      destruct Hy as (zs & Hzs & Hy).
      rewrite Forall_forall in Hls. destruct (Hls zs Hzs) as [_ Hz].
      rewrite Forall_forall in Hz. apply Hz. exact Hy. }
    rewrite normalizedItems_one_or_many.
    + split; [exact Hall |].
      intros runs' Er. rewrite Eruns in Er. injection Er as <-.
      rewrite <- (mapM_length _ _ _ _ _ Els).
      apply concat_length_ge. eapply Forall_impl; [| exact Hls].
      intros zs [Hz _]. exact Hz.
    + eapply Forall_impl; [| exact Hall]. apply fromRun_not_array.
  - apply ret_inv in E. destruct E as [<- _].
    split; [constructor |].
    intros runs' Er. rewrite Eruns in Er. discriminate Er.
Qed.

Lemma convertAll_items (spans ctx : list value) (mappings : OTelMappingConfig)
  (now : value) (s s' : nat) (result : value) :
  OTel.convertAll H spans ctx mappings now s = (Ok result, s') ->
  Forall (fromSpan H mappings) (Jsonl.normalizedItems result)
  /\ List.length (Jsonl.normalizedItems result) = List.length spans.
Proof.
  unfold OTel.convertAll. intros E.
  apply bind_inv in E. destruct E as (items & s1 & Eitems & E).
  apply ret_inv in E. destruct E as [<- _].
  assert (Hall : Forall (fromSpan H mappings) items).
  { eapply mapM_Forall; [| exact Eitems].
    intros x s2 s3 y Ey. exists x, now, ctx, s2, s3. exact Ey. }
  rewrite normalizedItems_one_or_many.
  - split; [exact Hall | eapply mapM_length; exact Eitems].
  - eapply Forall_impl; [| exact Hall]. apply fromSpan_not_array.
Qed.

Lemma OTel_normalize_items (mappings : OTelMappingConfig) (data : value)
  (s s' : nat) (result : value) :
  OTel.normalize H mappings data s = (Ok result, s') ->
  Forall (fromSpan H mappings) (Jsonl.normalizedItems result).
Proof.
  unfold OTel.normalize. intros E.
  apply bind_inv in E. destruct E as (now & s1 & _ & E).
  apply bind_inv in E. destruct E as (spans & s2 & _ & E).
  destruct spans as [| span spans].
  - apply ret_inv in E. destruct E as [<- _]. constructor.
  - apply bind_inv in E. destruct E as (ctx & s3 & _ & E).
    apply bind_inv in E. destruct E as (leafLLMSpans & s4 & _ & E).
    destruct leafLLMSpans as [| leaf leafs].
    + apply bind_inv in E. destruct E as (llmLikeSpans & s5 & _ & E).
      destruct llmLikeSpans as [| like likes].
      * apply bind_inv in E. destruct E as (rootSpans & s6 & _ & E).
        eapply convertAll_items. exact E.
      * eapply convertAll_items. exact E.
    + eapply convertAll_items. exact E.
Qed.


Lemma normalizeToReviewItem_dispatch (data : value) (n s : nat) (stage : Jsonl.Stage) :
  Jsonl.stageOf data = Ok stage ->
  Jsonl.normalizeToReviewItem H data n s
  = stageConversion H stage data (VStr (clock H s)) (S s).
Proof.
  unfold Jsonl.stageOf, Jsonl.normalizeToReviewItem, now_iso, bind, lift.
  destruct (Jsonl.isReviewItemFormat data) as [[|] | e]; simpl;
    [intros E; injection E as <-; reflexivity | | discriminate].
  destruct (Jsonl.isOpenAIFormat data) as [[|] | e]; simpl;
    [intros E; injection E as <-; reflexivity | | discriminate].
  destruct (Jsonl.isOpenAIFineTuneFormat data) as [[|] | e]; simpl;
    [intros E; injection E as <-; reflexivity | | discriminate].
  destruct (Jsonl.isGenericFormat data) as [[|] | e]; simpl;
    [intros E; injection E as <-; reflexivity | | discriminate].
  intros E; injection E as <-; reflexivity.
Qed.

Lemma normalizeToReviewItem_stage (data : value) (n s s' : nat) (item : value) :
  Jsonl.normalizeToReviewItem H data n s = (Ok item, s') ->
  exists stage, Jsonl.stageOf data = Ok stage.
Proof.
  unfold Jsonl.stageOf, Jsonl.normalizeToReviewItem, now_iso, bind, lift.
  destruct (Jsonl.isReviewItemFormat data) as [[|] | e]; simpl;
    [eexists; reflexivity | | discriminate].
  destruct (Jsonl.isOpenAIFormat data) as [[|] | e]; simpl;
    [eexists; reflexivity | | discriminate].
  destruct (Jsonl.isOpenAIFineTuneFormat data) as [[|] | e]; simpl;
    [eexists; reflexivity | | discriminate].
  destruct (Jsonl.isGenericFormat data) as [[|] | e]; simpl;
    [eexists; reflexivity | | discriminate].
  eexists; reflexivity.
Qed.

Lemma stageOf_object (data : value) (stage : Jsonl.Stage) :
  Jsonl.stageOf data = Ok stage -> stage <> Jsonl.PassThrough -> is_object data = true.
Proof.
  unfold Jsonl.stageOf. intros E Hne.
  destruct (Jsonl.isReviewItemFormat data) as [[|] | e]; simpl in E;
    [injection E as <-; contradiction | | discriminate].
  unfold Jsonl.isOpenAIFormat in E.
  destruct (in_op "model" data) as [b | e] eqn:Ein; [| discriminate E].
  eapply in_op_object. exact Ein.
Qed.

Lemma textFields_strings (data : value) :
  Forall (fun v => is_string v = true /\ truthy v = true)
    (map snd (filter Jsonl.isTextField (entries data))).
Proof.
  apply Forall_forall. intros v Hv.
  apply in_map_iff in Hv. destruct Hv as ([k x] & <- & Hx).
  apply filter_In in Hx. destruct Hx as [_ Hx].
  unfold Jsonl.isTextField in Hx. simpl in *.
  destruct x as [| | b | n | str | l | l]; try discriminate Hx.
  split; [reflexivity |].
  destruct str; [discriminate Hx | reflexivity].
Qed.

Lemma passThrough_facts (data now : value) (s s' : nat) (item : value) :
  Jsonl.isReviewItemFormat data = Ok true ->
  Jsonl.passThrough H data now s = (Ok item, s') ->
  status item = or_else (prop data "status") (VStr "pending")
  /\ input item = prop data "input"
  /\ has_prop "prompt" (input item) = true.
Proof.
  intros Ef E.
  destruct (isReviewItemFormat_object data Ef) as (l & -> & Ei & Ep & Eo).
  destruct (passThrough_returns H l now s) as (id & s1 & E1).
  rewrite E1 in E. injection E as <- <-.
  split.
  - unfold status. simpl. rewrite assoc_set_prop_same. reflexivity.
  - unfold input.
    split; [apply passThrough_frame; reflexivity |].
    rewrite passThrough_frame by reflexivity. exact Ep.
Qed.

Lemma chain_facts (stage : Jsonl.Stage) (data now : value) (s s' : nat) (item : value) :
  Jsonl.stageOf data = Ok stage ->
  stage <> Jsonl.PassThrough ->
  stageConversion H stage data now s = (Ok item, s') ->
  status item = VStr "pending"
  /\ stringOrTruthy (prompt item) = true
  /\ (stage <> Jsonl.OpenAIFineTune -> is_string (prompt item) = true).
Proof.
  intros Estage Hne E.
  pose proof (stageOf_object data stage Estage Hne) as Hobj.
  destruct stage; simpl in E; try contradiction.
  - unfold Jsonl.convertOpenAIFormat in E. mauto.
    repeat split; reflexivity.
  - unfold Jsonl.convertOpenAIFineTuneFormat in E. mauto;
      (split; [reflexivity |]; split;
       [apply or_else_string_or_truthy; reflexivity | intros Hc; contradiction]).
  - unfold Jsonl.convertGenericFormat in E. mauto; repeat split; reflexivity.
  - unfold Jsonl.convertBestEffort in E. mauto.
    split; [reflexivity |].
    assert (Hp : is_string
                   (or_else (nth 0 (map snd (filter Jsonl.isTextField (entries data))) VUndef)
                      (JSON_stringify H data)) = true).
    { pose proof (textFields_strings data) as Ht.
      destruct (map snd (filter Jsonl.isTextField (entries data))) as [| v vs]; simpl.
      - unfold or_else. simpl. apply JSON_stringify_object. exact Hobj.
      - inversion Ht as [| ? ? [Hs Htr] _]; subst.
        unfold or_else. rewrite Htr. exact Hs. }
    unfold stringOrTruthy.
    change (prompt _) with
      (or_else (nth 0 (map snd (filter Jsonl.isTextField (entries data))) VUndef)
         (JSON_stringify H data)).
    rewrite Hp. split; [reflexivity | intros _; reflexivity].
Qed.


Lemma stageOf_passThrough (data : value) :
  Jsonl.stageOf data = Ok Jsonl.PassThrough -> Jsonl.isReviewItemFormat data = Ok true.
Proof.
  unfold Jsonl.stageOf. intros E.
  destruct (Jsonl.isReviewItemFormat data) as [[|] | e]; simpl in E;
    [reflexivity | | discriminate].
  destruct (Jsonl.isOpenAIFormat data) as [[|] | e']; simpl in E; try discriminate.
  destruct (Jsonl.isOpenAIFineTuneFormat data) as [[|] | e']; simpl in E; try discriminate.
  destruct (Jsonl.isGenericFormat data) as [[|] | e']; simpl in E; discriminate.
Qed.

(** Claim C2, as amended.  Every record produced by the LangSmith adapter,
    by the OTel adapter, or by a stage of the generic chain other than the
    already-canonical pass-through has status 'pending'.  The pass-through
    stage keeps the status of the source unit when it is truthy and uses
    'pending' otherwise ([data.status || 'pending']). *)
Theorem C2_status_pending (mappings : OTelMappingConfig) (data : value)
  (route : Jsonl.Route) (item : value) :
  Jsonl.produces H mappings data route item ->
  status item =
  match route with
  | Jsonl.ViaChain Jsonl.PassThrough => or_else (prop data "status") (VStr "pending")
  | _ => VStr "pending"
  end.
Proof.
  intros [s s' result item' E Hin | s s' result item' E Hin | n s s' stage item' Estage E].
  - destruct (LangSmith_normalize_items data s s' result E) as [Hall _].
    rewrite Forall_forall in Hall.
    destruct (Hall item' Hin) as (run & now & ctx & s1 & s2 & Ec).
    apply (LangSmith_convert_facts _ _ _ _ _ _ Ec).
  - pose proof (OTel_normalize_items mappings data s s' result E) as Hall.
    rewrite Forall_forall in Hall.
    destruct (Hall item' Hin) as (span & now & ctx & s1 & s2 & Ec).
    apply (OTel_convert_facts _ _ _ _ _ _ _ Ec).
  - rewrite (normalizeToReviewItem_dispatch data n s stage Estage) in E.
    assert (Hchain : stage <> Jsonl.PassThrough -> status item' = VStr "pending").
    { intros Hne. apply (chain_facts stage data _ _ _ _ Estage Hne E). }
    destruct stage; try (apply Hchain; discriminate).
    apply (passThrough_facts data _ _ _ _ (stageOf_passThrough data Estage) E).
Qed.

(** Claim C3, as amended.  In a record produced by the OpenAI
    chat-completion stage, the generic prompt/response stage or the
    best-effort fallback, [input.prompt] is a string.  In a record
    produced by the fine-tune stage or by an adapter it is never [null]
    or [undefined] (it is a string or a truthy value).  The pass-through
    stage hands on the [input] object of the source unit unchanged, so
    the key [prompt] is present there with the value the source gave it. *)
Theorem C3_prompt_present (mappings : OTelMappingConfig) (data : value)
  (route : Jsonl.Route) (item : value) :
  Jsonl.produces H mappings data route item ->
  match route with
  | Jsonl.ViaChain Jsonl.PassThrough =>
      input item = prop data "input" /\ has_prop "prompt" (input item) = true
  | Jsonl.ViaChain Jsonl.OpenAIFineTune | Jsonl.ViaLangSmith | Jsonl.ViaOTel =>
      is_nullish (prompt item) = false /\ stringOrTruthy (prompt item) = true
  | Jsonl.ViaChain _ => is_string (prompt item) = true
  end.
Proof.
  intros [s s' result item' E Hin | s s' result item' E Hin | n s s' stage item' Estage E].
  - destruct (LangSmith_normalize_items data s s' result E) as [Hall _].
    rewrite Forall_forall in Hall.
    destruct (Hall item' Hin) as (run & now & ctx & s1 & s2 & Ec).
    destruct (LangSmith_convert_facts _ _ _ _ _ _ Ec) as (_ & _ & Hp).
    split; [apply string_or_truthy_not_nullish |]; exact Hp.
  - pose proof (OTel_normalize_items mappings data s s' result E) as Hall.
    rewrite Forall_forall in Hall.
    destruct (Hall item' Hin) as (span & now & ctx & s1 & s2 & Ec).
    destruct (OTel_convert_facts _ _ _ _ _ _ _ Ec) as (_ & _ & Hp).
    split; [apply string_or_truthy_not_nullish |]; exact Hp.
  - rewrite (normalizeToReviewItem_dispatch data n s stage Estage) in E.
    assert (Hchain : stage <> Jsonl.PassThrough ->
              stringOrTruthy (prompt item') = true
              /\ (stage <> Jsonl.OpenAIFineTune -> is_string (prompt item') = true)).
    { intros Hne. apply (chain_facts stage data _ _ _ _ Estage Hne E). }
    destruct stage.
    + apply (passThrough_facts data _ _ _ _ (stageOf_passThrough data Estage) E).
    + apply Hchain; discriminate.
    + destruct Hchain as [Hp _]; [discriminate |].
      split; [apply string_or_truthy_not_nullish |]; exact Hp.
    + apply Hchain; discriminate.
    + apply Hchain; discriminate.
Qed.

End Prompts.

(** On every host, the pass-through stage keeps the status 'approved'
    of the canonical example record. *)
Lemma passThrough_keeps_status (H : Host) (n s : nat) :
  exists item s',
    Jsonl.normalizeToReviewItem H Examples.canonicalRecord n s = (Ok item, s')
    /\ Jsonl.stageOf Examples.canonicalRecord = Ok Jsonl.PassThrough
    /\ status item = VStr "approved".
Proof. eexists _, _. split; [reflexivity |]. split; reflexivity. Qed.

(** Claim C2 as stated fails at the pass-through stage: the record
    produced for a canonical unit with status 'approved' has status
    'approved'. *)
Lemma C2_counterexample :
  exists item,
    Jsonl.produces Reference.host DEFAULT_OTEL_MAPPINGS Examples.canonicalRecord
      (Jsonl.ViaChain Jsonl.PassThrough) item
    /\ status item = VStr "approved"
    /\ status item <> VStr "pending".
Proof.
  destruct (passThrough_keeps_status Reference.host 1 0) as (item & s' & E & Estage & Est).
  exists item. split.
  - eapply Jsonl.produces_chain; eassumption.
  - split; [exact Est |]. rewrite Est. discriminate.
Qed.

Lemma C2_witness :
  exists item s',
    Jsonl.normalizeToReviewItem Reference.host Examples.genericEmptyResponse 1 0
    = (Ok item, s')
    /\ status item = VStr "pending".
Proof.
  eexists _, _. split; [vm_compute; reflexivity |].
  apply (C2_status_pending Reference.host DEFAULT_OTEL_MAPPINGS
           Examples.genericEmptyResponse (Jsonl.ViaChain Jsonl.Generic)).
  eapply (Jsonl.produces_chain _ _ _ 1 0); [reflexivity | vm_compute; reflexivity].
Defined.

(** On every host, the pass-through stage keeps a [null] prompt. *)
Lemma passThrough_keeps_null_prompt (H : Host) (n s : nat) :
  exists item s',
    Jsonl.normalizeToReviewItem H Examples.nullPrompt n s = (Ok item, s')
    /\ Jsonl.stageOf Examples.nullPrompt = Ok Jsonl.PassThrough
    /\ prompt item = VNull.
Proof. eexists _, _. split; [reflexivity |]. split; reflexivity. Qed.

(** Claim C3 as stated fails at the pass-through stage: the record
    produced for a canonical unit whose [input.prompt] is [null] has a
    [null] prompt. *)
Lemma C3_counterexample :
  exists item,
    Jsonl.produces Reference.host DEFAULT_OTEL_MAPPINGS Examples.nullPrompt
      (Jsonl.ViaChain Jsonl.PassThrough) item
    /\ prompt item = VNull
    /\ is_string (prompt item) = false.
Proof.
  destruct (passThrough_keeps_null_prompt Reference.host 1 0)
    as (item & s' & E & Estage & Ep).
  exists item. split.
  - eapply Jsonl.produces_chain; eassumption.
  - split; [exact Ep |]. rewrite Ep. reflexivity.
Qed.

Lemma C3_witness :
  exists item s',
    Jsonl.normalizeToReviewItem Reference.host Examples.genericEmptyResponse 1 0
    = (Ok item, s')
    /\ is_string (prompt item) = true.
Proof.
  eexists _, _. split; [vm_compute; reflexivity |].
  apply (C3_prompt_present Reference.host DEFAULT_OTEL_MAPPINGS
           Examples.genericEmptyResponse (Jsonl.ViaChain Jsonl.Generic)).
  eapply (Jsonl.produces_chain _ _ _ 1 0); [reflexivity | vm_compute; reflexivity].
Defined.

(** ** The fallback to root units *)

Lemma filter_res_all_false {A : Type} (p : A -> res bool) (l : list A) :
  (forall x, In x l -> p x = Ok false) -> filter_res p l = Ok [].
Proof.
  induction l as [| x l IH]; simpl; intros Hall.
  - reflexivity.
  - rewrite (Hall x (or_introl eq_refl)). simpl.
    rewrite IH by (intros y Hy; apply Hall; right; exact Hy). reflexivity.
Qed.

Lemma isLangSmithRun_object (data : value) :
  LangSmith.isLangSmithRun data = true -> is_object data = true.
Proof.
  unfold LangSmith.isLangSmithRun. destruct (is_object data); [reflexivity | discriminate].
Qed.

(** A payload that [detect] accepts has at least one root run. *)
Lemma isLangSmithExport_rootRuns (data : value) :
  LangSmith.isLangSmithExport data = true ->
  exists runs, LangSmith.rootRuns data = Ok (Some runs) /\ runs <> [].
Proof.
  unfold LangSmith.isLangSmithExport, LangSmith.rootRuns, in_op.
  destruct (is_object data) eqn:Hobj; simpl; [| discriminate].
  destruct (isArray data) eqn:Harr.
  - intros E. apply andb_prop in E. destruct E as [Hlen _].
    eexists. split; [reflexivity |].
    destruct (LangSmith.elements data); [discriminate Hlen | discriminate].
  - simpl. destruct (has_prop "runs" data && isArray (prop data "runs")) eqn:Hruns.
    + intros E. apply andb_prop in E. destruct E as [Hlen _].
      eexists. split; [reflexivity |].
      destruct (LangSmith.elements (prop data "runs")); [discriminate Hlen | discriminate].
    + destruct (has_prop "run" data) eqn:Hrun; simpl.
      * destruct (LangSmith.isLangSmithRun (prop data "run")) eqn:Hr.
        -- intros _. apply isLangSmithRun_object in Hr.
           assert (Ht : truthy (prop data "run") = true)
             by (destruct (prop data "run"); try discriminate Hr; reflexivity).
           rewrite Ht. eexists. split; [reflexivity | discriminate].
        -- intros E. rewrite E.
           destruct (truthy (prop data "run"));
             eexists; (split; [reflexivity | discriminate]).
      * intros E. rewrite E. eexists. split; [reflexivity | discriminate].
Qed.

Section Fallback.
Context (H : Host).

Lemma isOTelExport_not_array (data : value) :
  OTel.isOTelExport data = Ok true -> isArray data = false.
Proof.
  destruct data as [| | b | n | str | l | l]; try reflexivity.
  unfold OTel.isOTelExport.
  cbn [is_object negb].
  unfold has_prop. 
  rewrite !index_of_key_not_numeric by reflexivity. simpl. discriminate.
Qed.

Lemma isLLMSpan_false_llmLike (span : value) (mappings : OTelMappingConfig) :
  OTel.isLLMSpan H span mappings = Ok false ->
  OTel.llmLike H mappings span = Ok false /\ is_nullish span = false.
Proof.
  unfold OTel.isLLMSpan, OTel.llmLike. intros E.
  apply rbind_inv in E. destruct E as (span_name & Ename & E).
  apply rbind_inv in E. destruct E as (name & _ & E).
  split.
  - destruct (existsb _ (llmSpanNames mappings)); [discriminate E | exact E].
  - unfold JS.get in Ename. destruct (is_nullish span); [discriminate Ename | reflexivity].
Qed.

Lemma in_indexed (spans : list value) (x : nat * value) :
  In x (OTel.indexed spans) -> In (snd x) spans.
Proof.
  unfold OTel.indexed. destruct x as [i v]. intros Hin.
  apply in_combine_r in Hin. exact Hin.
Qed.

Lemma findLeafLLMSpans_none (spans : list value) (mappings : OTelMappingConfig)
  (leafs : list value) :
  (forall span, In span spans -> OTel.isLLMSpan H span mappings = Ok false) ->
  OTel.findLeafLLMSpans H spans mappings = Ok leafs -> leafs = [].
Proof.
  intros Hall. unfold OTel.findLeafLLMSpans.
  rewrite filter_res_all_false
    by (intros x Hx; apply Hall; apply in_indexed; exact Hx).
  simpl. intros E. apply rbind_inv in E. destruct E as (childMap & _ & E).
  injection E as <-. reflexivity.
Qed.

Lemma OTel_normalize_no_llm (mappings : OTelMappingConfig) (data : value)
  (spans : list value) (s s' : nat) (result : value) :
  OTel.isOTelExport data = Ok true ->
  OTel.extractSpans data = Ok spans ->
  (forall span, In span spans -> OTel.isLLMSpan H span mappings = Ok false) ->
  OTel.normalize H mappings data s = (Ok result, s') ->
  exists roots ctx now s1,
    filter_res OTel.isRoot spans = Ok roots
    /\ OTel.convertAll H roots ctx mappings now s1 = (Ok result, s')
    /\ List.length (Jsonl.normalizedItems result) = List.length roots.
Proof.
  intros Hdetect Hspans Hall E.
  unfold OTel.normalize in E.
  rewrite (isOTelExport_not_array data Hdetect), Hspans in E.
  apply bind_inv in E. destruct E as (now & s1 & _ & E).
  apply bind_inv in E. destruct E as (spans' & s2 & Es & E).
  apply lift_inv in Es. destruct Es as [Es _]. injection Es as <-.
  destruct spans as [| span spans].
  - apply ret_inv in E. destruct E as [<- <-]. exists [], [], now, s2.
    repeat split; reflexivity.
  - apply bind_inv in E. destruct E as (ctx & s3 & _ & E).
    apply bind_inv in E. destruct E as (leafLLMSpans & s4 & Eleaf & E).
    apply lift_inv in Eleaf. destruct Eleaf as [Eleaf _].
    apply (findLeafLLMSpans_none _ _ _ Hall) in Eleaf. subst leafLLMSpans.
    apply bind_inv in E. destruct E as (llmLikeSpans & s5 & Elike & E).
    apply lift_inv in Elike. destruct Elike as [Elike _].
    rewrite filter_res_all_false in Elike
      by (intros x Hx; apply isLLMSpan_false_llmLike; apply Hall; exact Hx).
    injection Elike as <-.
    apply bind_inv in E. destruct E as (rootSpans & s6 & Eroots & E).
    apply lift_inv in Eroots. destruct Eroots as [Eroots _].
    exists rootSpans, ctx, now, s6. split; [exact Eroots |]. split; [exact E |].
    eapply convertAll_items. exact E.
Qed.

(** A root run whose tree holds no LLM run is converted itself. *)
Lemma processRootRun_no_llm (now run : value) (s s' : nat) (items : list value) :
  LangSmith.findLLMLeafSpans H run = Ok [] ->
  LangSmith.processRootRun H now run s = (Ok items, s') ->
  exists item ctx s1,
    items = [item]
    /\ LangSmith.convertRunToReviewItem H run now ctx s1 = (Ok item, s').
Proof.
  intros Hnone E. unfold LangSmith.processRootRun in E.
  apply bind_inv in E. destruct E as (retrieverSpans & s1 & _ & E).
  apply bind_inv in E. destruct E as (contextChunks & s2 & _ & E).
  rewrite Hnone in E.
  apply bind_inv in E. destruct E as (llmSpans & s3 & El & E).
  apply lift_inv in El. destruct El as [El <-]. injection El as <-.
  apply bind_inv in E. destruct E as (item & s4 & Ec & E).
  apply ret_inv in E. destruct E as [<- <-].
  exists item, contextChunks, s2. split; [reflexivity | exact Ec].
Qed.

End Fallback.

(** ** Evaluations at failing inputs *)

Section Eval.
Context (H : Host).

(** Claim C4 at a failing input.  In the span list outer (LLM) > middle
    (chain) > inner (LLM), the outer and the inner span are the only
    LLM-classified spans and the inner one is nested in the outer one, yet
    [findLeafLLMSpans] returns both and [normalize] emits two records, one
    of them for the outer span: the leaf test looks at direct children
    only. *)
Theorem C4_outer_span_emitted (s : nat) :
  (forall span, In span [Examples.outerSpan; Examples.innerSpan] ->
     OTel.isLLMSpan H span DEFAULT_OTEL_MAPPINGS = Ok true)
  /\ OTel.isLLMSpan H Examples.middleSpan DEFAULT_OTEL_MAPPINGS = Ok false
  /\ OTel.findLeafLLMSpans H [Examples.outerSpan; Examples.middleSpan; Examples.innerSpan]
       DEFAULT_OTEL_MAPPINGS = Ok [Examples.outerSpan; Examples.innerSpan]
  /\ exists outerRecord innerRecord s',
       OTel.normalize H DEFAULT_OTEL_MAPPINGS Examples.nestedThroughChain s
       = (Ok (VArr [outerRecord; innerRecord]), s')
       /\ prop outerRecord "id" = VStr "outer"
       /\ prompt outerRecord = VStr "Outer prompt"
       /\ prop innerRecord "id" = VStr "inner"
       /\ prompt innerRecord = VStr "Inner prompt".
Proof.
  split; [intros span [<- | [<- | []]]; reflexivity |].
  split; [reflexivity |]. split; [reflexivity |].
  eexists _, _, _. split; [reflexivity |].
  repeat split; reflexivity.
Qed.

(** The LangSmith adapter, on the same nesting, emits the inner run only. *)
Lemma LangSmith_nested_run_inner_only (s : nat) :
  exists innerRecord s',
    LangSmith.normalize H Examples.nestedRun s = (Ok innerRecord, s')
    /\ prop innerRecord "id" = VStr "inner"
    /\ prompt innerRecord = VStr "Inner prompt".
Proof. eexists _, _. split; [reflexivity |]. split; reflexivity. Qed.

(** Claim C5 at a failing input.  The payload is a span list whose only
    span is not an LLM span and names a parent that is not in the file.
    The OTel adapter is the one that detects it, it holds one span and no
    LLM-classified span, and [normalize] returns the empty list: the last
    resort converts the spans without [parentSpanId], and there is none.
    [parseJsonData] then reports a successful import of no record, with no
    error.  The same span without its parent id is converted.  The
    LangSmith adapter converts a run that names a parent outside the
    file; it converts every root run whose tree holds no LLM run, and
    never returns the empty list for a payload it detects. *)
Theorem C5_detected_spans_yield_no_record (s : nat) :
  detectAdapter (Jsonl.adapterRegistry H) Examples.orphanSpans = Ok (Some (OTel.otelAdapter H))
  /\ OTel.extractSpans Examples.orphanSpans = Ok [ Examples.orphanSpan ]
  /\ OTel.isLLMSpan H Examples.orphanSpan DEFAULT_OTEL_MAPPINGS = Ok false
  /\ OTel.normalize H DEFAULT_OTEL_MAPPINGS Examples.orphanSpans s = (Ok (VArr []), S s)
  /\ Jsonl.parseJsonData H (Jsonl.adapterRegistry H) Examples.orphanSpans s
     = (Ok {| success := true; itemsImported := 0; items := []; errors := [] |}, S s)
  /\ (exists record s',
        OTel.normalize H DEFAULT_OTEL_MAPPINGS Examples.rootSpans s = (Ok record, s')
        /\ Jsonl.normalizedItems record = [record]
        /\ prop record "id" = VStr "s")
  /\ (exists record s',
        LangSmith.isLangSmithExport Examples.orphanRun = true
        /\ LangSmith.findLLMLeafSpans H Examples.orphanRun = Ok []
        /\ LangSmith.normalize H Examples.orphanRun s = (Ok record, s')
        /\ Jsonl.normalizedItems record = [record]
        /\ prop record "id" = VStr "s")
  /\ (forall now run s0 s' records,
        LangSmith.findLLMLeafSpans H run = Ok [] ->
        LangSmith.processRootRun H now run s0 = (Ok records, s') ->
        exists record chunks s1,
          records = [record]
          /\ LangSmith.convertRunToReviewItem H run now chunks s1 = (Ok record, s'))
  /\ (forall data s0 s' result,
        LangSmith.isLangSmithExport data = true ->
        LangSmith.normalize H data s0 = (Ok result, s') ->
        Jsonl.normalizedItems result <> []).
Proof.
  split; [reflexivity |]. split; [reflexivity |]. split; [reflexivity |].
  split; [reflexivity |]. split; [reflexivity |].
  split; [eexists _, _; repeat split; reflexivity |].
  split; [eexists _, _; repeat split; reflexivity |].
  split; [intros now run s0 s' records; apply processRootRun_no_llm |].
  intros data s0 s' result Hdetect E.
  destruct (isLangSmithExport_rootRuns data Hdetect) as (runs & Hruns & Hne).
  destruct (LangSmith_normalize_items H data s0 s' result E) as [_ Hlen].
  specialize (Hlen runs Hruns).
  destruct runs as [| run runs]; [contradiction |].
  destruct (Jsonl.normalizedItems result); [simpl in Hlen; lia | discriminate].
Qed.

(** Claim C6 at two failing inputs.  A generic line whose response is
    empty yields a record with one output of empty text, and a LangSmith
    run whose [outputs] object is empty yields a record with one output
    whose text is the string "{}" (the stringified [outputs]). *)
Theorem C6_output_fabricated (n s : nat) :
  (exists item s',
     Jsonl.normalizeToReviewItem H Examples.genericEmptyResponse n s = (Ok item, s')
     /\ outputs item
        = VArr [ VObj [ ("model_id", VStr "default"); ("text", VStr "");
                        ("token_usage", VNum 0%float); ("latency_ms", VNum 0%float) ] ])
  /\ (exists item s',
        LangSmith.normalize H Examples.emptyOutputsRun s = (Ok item, s')
        /\ LangSmith.extractResponse H (VObj []) = Ok (VStr "{}")
        /\ outputs item
           = VArr [ VObj [ ("model_id", VStr "langsmith"); ("text", VStr "{}");
                           ("token_usage", VNum 0%float);
                           ("latency_ms", VNum 0%float) ] ]).
Proof.
  split.
  - eexists _, _. split; [vm_compute; reflexivity |]. reflexivity.
  - eexists _, _. split; [vm_compute; reflexivity |]. split; reflexivity.
Qed.

(** The generic stage never returns an empty [outputs] list. *)
Lemma convertGenericFormat_one_output (data now : value) (s s' : nat) (item : value) :
  Jsonl.convertGenericFormat H data now s = (Ok item, s') ->
  exists output, outputs item = VArr [ output ].
Proof.
  unfold Jsonl.convertGenericFormat. intros E. mauto; eexists; reflexivity.
Qed.
End Eval.

Section Lines.
Context (H : Host).

(** Claim C8 at a failing input.  In a payload whose first line is blank
    and whose second line is malformed, the error of the malformed line
    is tagged with line 1, not with its line number 2: blank lines are
    removed before the lines are numbered. *)
Theorem C8_error_line_ignores_blank_lines (reg : AdapterRegistry) (e : string) (s : nat) :
  JSON_parse H "{bad" = Throw e ->
  split_on nl Examples.blankThenMalformed = [""; "{bad"]
  /\ Jsonl.parseJsonlLines H reg Examples.blankThenMalformed s
     = (Ok {| success := false;
              itemsImported := 0;
              items := [];
              errors := [ {| line := 1; message := e |} ] |}, s).
Proof.
  intros Hparse. split; [reflexivity |].
  unfold Jsonl.parseJsonlLines.
  change (Jsonl.nonBlankLines Examples.blankThenMalformed) with ["{bad"].
  unfold Jsonl.processLines, Jsonl.processLine, bind, try_catch, lift.
  rewrite Hparse. reflexivity.
Qed.
End Lines.

Lemma C8_witness :
  split_on nl Examples.blankThenMalformed = [""; "{bad"]
  /\ Jsonl.parseJsonlLines Reference.host (Jsonl.adapterRegistry Reference.host)
       Examples.blankThenMalformed 0
     = (Ok {| success := false;
              itemsImported := 0;
              items := [];
              errors := [ {| line := 1; message := "Unexpected token in JSON" |} ] |}, 0).
Proof.
  apply (C8_error_line_ignores_blank_lines Reference.host
           (Jsonl.adapterRegistry Reference.host) "Unexpected token in JSON" 0).
  reflexivity.
Defined.

(** A record, a blank line, a malformed third line: the error is tagged 2. *)
Lemma malformed_third_line_reported_as_second :
  nth 2 (split_on nl Examples.recordBlankMalformed) "" = "{bad"
  /\ exists r s',
       Jsonl.parseJsonlFile Reference.host (Jsonl.adapterRegistry Reference.host)
         {| Jsonl.size := 40; Jsonl.text := Examples.recordBlankMalformed |} 0 = (Ok r, s')
       /\ List.length (items r) = 1
       /\ errors r = [ {| line := 2; message := "Unexpected token in JSON" |} ].
Proof.
  split; [reflexivity |].
  eexists _, _. split; [vm_compute; reflexivity |]. split; reflexivity.
Qed.

(** The error-isolation example of the specification: two records and one
    error tagged with line 2. *)
Lemma error_isolation_example :
  exists r s',
    Jsonl.parseJsonlFile Reference.host (Jsonl.adapterRegistry Reference.host)
      {| Jsonl.size := 70; Jsonl.text := Examples.secondLineMalformed |} 0 = (Ok r, s')
    /\ List.length (items r) = 2
    /\ errors r = [ {| line := 2; message := "Unexpected token in JSON" |} ].
Proof.
  eexists _, _. split; [vm_compute; reflexivity |]. split; reflexivity.
Qed.

(** ** The repository's adapter tests, replayed on the embedding *)

Section RepositoryTests.
Import Tests.

Let D : OTelMappingConfig := DEFAULT_OTEL_MAPPINGS.

Example langsmith_detect :
  LangSmith.isLangSmithExport (payload singleRun) = true
  /\ LangSmith.isLangSmithExport (payload runArray) = true
  /\ LangSmith.isLangSmithExport (payload runsContainer) = true
  /\ LangSmith.isLangSmithExport (payload genericObject) = false
  /\ LangSmith.isLangSmithExport (payload otlpWithoutName) = false.
Proof. repeat split; vm_compute; reflexivity. Qed.

Example langsmith_simple_llm_run :
  let result := langsmith simpleLlmRun in
  path ["id"] result = VStr "run_abc123"
  /\ path ["input"; "prompt"] result = VStr "What is TypeScript?"
  /\ path ["outputs"; "0"; "text"] result
     = VStr "TypeScript is a typed superset of JavaScript."
  /\ path ["outputs"; "0"; "model_id"] result = VStr "gpt-4"
  /\ path ["outputs"; "0"; "token_usage"] result = VNum 50%float
  /\ path ["trace_metadata"; "latency_ms"] result = VNum 2000%float
  /\ path ["trace_metadata"; "source"] result = VStr "langsmith"
  /\ path ["trace_metadata"; "span_type"] result = VStr "llm".
Proof. repeat split; vm_compute; reflexivity. Qed.

Example langsmith_system_prompt :
  let result := langsmith systemPromptRun in
  path ["input"; "system_prompt"] result = VStr "You are a helpful assistant."
  /\ path ["input"; "prompt"] result = VStr "Hello!".
Proof. repeat split; vm_compute; reflexivity. Qed.

Example langsmith_context_chunks :
  let items := Jsonl.normalizedItems (langsmith ragChain) in
  List.length items = 1
  /\ path ["input"; "context_chunks"; "length"] (nth 0 items VUndef) = VNum 2%float
  /\ path ["input"; "context_chunks"; "0"; "text"] (nth 0 items VUndef)
     = VStr "RAG combines retrieval with generation."
  /\ path ["input"; "context_chunks"; "0"; "source"] (nth 0 items VUndef)
     = VStr "docs/rag.md"
  /\ path ["input"; "context_chunks"; "0"; "score"] (nth 0 items VUndef)
     = VNum (PrimFloat.div 95 100).
Proof. repeat split; vm_compute; reflexivity. Qed.

Example langsmith_multiple_runs :
  isArray (langsmith twoLlmRuns) = true
  /\ path ["length"] (langsmith twoLlmRuns) = VNum 2%float.
Proof. repeat split; vm_compute; reflexivity. Qed.

Example langsmith_feedback :
  let result := langsmith feedbackRun in
  path ["human_feedback"; "corrected_text"] result = VStr "Improved response text"
  /\ path ["human_feedback"; "comments"] result = VStr "[correctness] Good answer".
Proof. repeat split; vm_compute; reflexivity. Qed.

Example langsmith_run_with_error :
  path ["trace_metadata"; "error"] (langsmith errorRun) = VStr "Rate limit exceeded".
Proof. vm_compute; reflexivity. Qed.

Example otel_detect :
  OTel.isOTelExport (payload otlpExport) = Ok true
  /\ OTel.isOTelExport (payload flatSpans) = Ok true
  /\ OTel.isOTelExport (payload singleSpan) = Ok true
  /\ OTel.isOTelExport (payload singleRun) = Ok false
  /\ OTel.isOTelExport (payload genericObject) = Ok false.
Proof. repeat split; vm_compute; reflexivity. Qed.

Example otel_gen_ai_attributes :
  let result := otel D genAiSpan in
  path ["id"] result = VStr "span456"
  /\ path ["input"; "prompt"] result = VStr "What is AI?"
  /\ path ["outputs"; "0"; "text"] result = VStr "AI stands for Artificial Intelligence."
  /\ path ["outputs"; "0"; "model_id"] result = VStr "gpt-4"
  /\ path ["outputs"; "0"; "token_usage"] result = VNum 30%float
  /\ path ["trace_metadata"; "trace_id"] result = VStr "trace123"
  /\ path ["trace_metadata"; "span_id"] result = VStr "span456"
  /\ path ["trace_metadata"; "source"] result = VStr "otel"
  /\ path ["created_at"] result = VStr "2025-01-10T11:00:00.000Z".
Proof. repeat split; vm_compute; reflexivity. Qed.

Example otel_llm_convention :
  let result := otel D llmConventionSpan in
  path ["input"; "prompt"] result = VStr "Explain closures"
  /\ path ["outputs"; "0"; "text"] result = VStr "A closure is a function..."
  /\ path ["outputs"; "0"; "model_id"] result = VStr "claude-3".
Proof. repeat split; vm_compute; reflexivity. Qed.

Example otel_retriever_context :
  let result := otel D retrieverAndLlm in
  path ["input"; "context_chunks"; "length"] result = VNum 2%float
  /\ path ["input"; "context_chunks"; "0"; "text"] result = VStr "Document 1 content".
Proof. repeat split; vm_compute; reflexivity. Qed.

Example otel_span_with_error :
  path ["trace_metadata"; "error"] (otel D failedSpan) = VStr "Rate limit exceeded".
Proof. vm_compute; reflexivity. Qed.

Example otel_latency :
  let result := otel D timedSpan in
  path ["trace_metadata"; "latency_ms"] result = VNum 2500%float
  /\ path ["outputs"; "0"; "latency_ms"] result = VNum 2500%float.
Proof. repeat split; vm_compute; reflexivity. Qed.

Example otel_prompt_messages :
  path ["input"; "prompt"] (otel D messageArraySpan) = VStr "Hello!".
Proof. vm_compute; reflexivity. Qed.

Example otel_leaf_spans_only :
  let items := Jsonl.normalizedItems (otel D parentAndChild) in
  List.length items = 1
  /\ path ["input"; "prompt"] (nth 0 items VUndef) = VStr "Inner prompt".
Proof. repeat split; vm_compute; reflexivity. Qed.

Example otel_custom_mappings :
  let result := otel (getOTelMappings customRegistry) customSpan in
  path ["input"; "prompt"] result = VStr "Custom prompt"
  /\ path ["outputs"; "0"; "text"] result = VStr "Custom response".
Proof. repeat split; vm_compute; reflexivity. Qed.

Example validate_rejects_unrelated_data :
  LangSmith.isLangSmithExport (VObj [("foo", VStr "bar")]) = false
  /\ OTel.isOTelExport (VObj [("foo", VStr "bar")]) = Ok false.
Proof. repeat split; vm_compute; reflexivity. Qed.

End RepositoryTests.

(** * Further properties

    Properties of the code that the claims leave aside, read off the
    sources. *)

(** ** The adapter registry *)

Lemma map_get_map_set_same (k : string) (a : TraceAdapter) (l : list (string * TraceAdapter)) :
  map_get k (map_set k a l) = Some a.
Proof.
  induction l as [| [k' a'] l IH]; simpl.
  - rewrite String.eqb_refl. reflexivity.
  - destruct (String.eqb k' k) eqn:E; simpl.
    + rewrite String.eqb_refl. reflexivity.
    + rewrite E. exact IH.
Qed.

Lemma map_get_map_set_other (k k' : string) (a : TraceAdapter)
  (l : list (string * TraceAdapter)) :
  k' <> k -> map_get k (map_set k' a l) = map_get k l.
Proof.
  intros Hne. induction l as [| [k0 a0] l IH]; simpl.
  - destruct (String.eqb_spec k' k); [contradiction | reflexivity].
  - destruct (String.eqb_spec k0 k') as [-> | Hk0]; simpl.
    + destruct (String.eqb_spec k' k); [contradiction | reflexivity].
    + destruct (String.eqb k0 k); [reflexivity | exact IH].
Qed.

Lemma map_set_keys (k : string) (a : TraceAdapter) (l : list (string * TraceAdapter)) :
  map fst (map_set k a l)
  = match map_get k l with
    | Some _ => map fst l
    | None => map fst l ++ [k]
    end.
Proof.
  induction l as [| [k' a'] l IH]; simpl.
  - reflexivity.
  - destruct (String.eqb_spec k' k) as [-> | Hne]; simpl.
    + reflexivity.
    + rewrite IH. destruct (map_get k l); reflexivity.
Qed.

Lemma map_get_None_keys (k : string) (l : list (string * TraceAdapter)) :
  map_get k l = None -> ~ In k (map fst l).
Proof.
  induction l as [| [k' a'] l IH]; simpl; intros E.
  - intros [].
  - destruct (String.eqb_spec k' k) as [-> | Hne]; [discriminate E |].
    intros [Hk | Hin]; [contradiction | exact (IH E Hin)].
Qed.

(** Property X1.  [register] followed by [get] under the adapter's name
    returns the adapter; every other name is answered as before.  The
    registry is keyed by name: registering a name that is present
    replaces the adapter in place, a new name is appended, so the names
    stay free of duplicates; the OTel mappings are untouched. *)
Theorem register_get_round_trip (reg : AdapterRegistry) (adapter : TraceAdapter) :
  Adapters.get (register adapter reg) (name adapter) = Some adapter
  /\ (forall k, k <> name adapter ->
        Adapters.get (register adapter reg) k = Adapters.get reg k)
  /\ map fst (adapters (register adapter reg))
     = match Adapters.get reg (name adapter) with
       | Some _ => map fst (adapters reg)
       | None => map fst (adapters reg) ++ [name adapter]
       end
  /\ (NoDup (map fst (adapters reg)) -> NoDup (map fst (adapters (register adapter reg))))
  /\ getOTelMappings (register adapter reg) = getOTelMappings reg.
Proof.
  unfold Adapters.get, register. simpl.
  split; [apply map_get_map_set_same |].
  split; [intros k Hk; apply map_get_map_set_other; congruence |].
  split; [apply map_set_keys |].
  split; [| reflexivity].
  intros Hnd. rewrite map_set_keys.
  destruct (map_get (name adapter) (adapters reg)) eqn:E; [exact Hnd |].
  apply NoDup_app; [exact Hnd | repeat constructor; intros [] | ].
  intros k Hin [<- | []]. exact (map_get_None_keys _ _ E Hin).
Qed.

Lemma detectAdapter_standard (H : Host) (data : value) :
  detectAdapter (Jsonl.adapterRegistry H) data
  = if LangSmith.isLangSmithExport data
    then Ok (Some (LangSmith.langSmithAdapter H))
    else (otel <- OTel.isOTelExport data ;;
          Ok (if otel then Some (OTel.otelAdapter H) else None)).
Proof.
  unfold detectAdapter, Jsonl.adapterRegistry. simpl.
  destruct (LangSmith.isLangSmithExport data); [reflexivity |].
  destruct (OTel.isOTelExport data) as [[|] | e]; reflexivity.
Qed.

(** Property X2.  The registry that the import uses asks the LangSmith
    adapter first: a payload that it accepts goes to LangSmith, whatever
    the OTel detection would say (it is not even run, so it cannot
    raise); only a payload that LangSmith refuses is offered to OTel, and
    no adapter is selected when both refuse. *)
Theorem standard_registry_prefers_langsmith (H : Host) (data : value) :
  map fst (adapters (Jsonl.adapterRegistry H)) = ["langsmith"; "otel"]
  /\ (LangSmith.isLangSmithExport data = true ->
      detectAdapter (Jsonl.adapterRegistry H) data
      = Ok (Some (LangSmith.langSmithAdapter H)))
  /\ (LangSmith.isLangSmithExport data = false ->
      (OTel.isOTelExport data = Ok true ->
       detectAdapter (Jsonl.adapterRegistry H) data = Ok (Some (OTel.otelAdapter H)))
      /\ (OTel.isOTelExport data = Ok false ->
          detectAdapter (Jsonl.adapterRegistry H) data = Ok None)
      /\ (forall e, OTel.isOTelExport data = Throw e ->
            detectAdapter (Jsonl.adapterRegistry H) data = Throw e)).
Proof.
  split; [reflexivity |]. rewrite detectAdapter_standard.
  split; [intros ->; reflexivity |].
  intros ->. split; [intros ->; reflexivity |].
  split; [intros ->; reflexivity | intros e ->; reflexivity].
Qed.

(** ** Run trees of the LangSmith adapter *)

Lemma flat_map_res_In {A : Type} (f : value -> res (list A)) (l : list value)
  (ys : list A) :
  LangSmith.flat_map_res f l = Ok ys ->
  forall y, In y ys <-> exists x zs, In x l /\ f x = Ok zs /\ In y zs.
Proof.
  unfold LangSmith.flat_map_res. intros E.
  apply rbind_inv in E. destruct E as (ls & El & E). injection E as <-.
  revert ls El. induction l as [| x l IH]; simpl; intros ls El y.
  - injection El as <-. simpl. split; [intros [] | intros (x & zs & [] & _)].
  - apply rbind_inv in El. destruct El as (zs0 & Ex & El).
    apply rbind_inv in El. destruct El as (ls0 & El & E). injection E as <-.
    simpl. rewrite in_app_iff, (IH ls0 El y). split.
    + intros [Hy | (x' & zs & Hx' & Ef & Hy)].
      * exists x, zs0. auto.
      * exists x', zs. auto.
    + intros (x' & zs & [<- | Hx'] & Ef & Hy).
      * left. rewrite Ex in Ef. injection Ef as <-. exact Hy.
      * right. exists x', zs. auto.
Qed.

Section RunTrees.
Context (H : Host).

Lemma findRelatedRetrieverSpans_eq (run : value) :
  LangSmith.findRelatedRetrieverSpans run =
  (run_type <- JS.get run "run_type" ;;
   spanType <- LangSmith.getSpanType run_type ;;
   let self := if is_retriever spanType then [run] else [] in
   let child_runs := prop run "child_runs" in
   if truthy child_runs then
     children <- as_array child_runs ;;
     below <- LangSmith.flat_map_res LangSmith.findRelatedRetrieverSpans children ;;
     Ok (self ++ below)
   else Ok self)%js.
Proof.
  unfold LangSmith.findRelatedRetrieverSpans at 1. simpl.
  destruct (JS.get run "run_type") as [run_type | e]; [simpl | reflexivity].
  destruct (LangSmith.getSpanType run_type) as [spanType | e]; [simpl | reflexivity].
  destruct (truthy (prop run "child_runs")); [| reflexivity].
  destruct (as_array (prop run "child_runs")) as [children | e] eqn:E; simpl;
    [| reflexivity].
  unfold LangSmith.flat_map_res.
  rewrite (map_res_ext (LangSmith.findRelatedRetrieverSpans_rec (LangSmith.depth run))
             LangSmith.findRelatedRetrieverSpans children); [reflexivity |].
  intros child Hin. pose proof (child_depth run child children E Hin).
  unfold LangSmith.findRelatedRetrieverSpans.
  apply findRelatedRetrieverSpans_fuel; lia.
Qed.

Lemma leaves_sound_aux (n : nat) :
  forall run leaves,
    LangSmith.depth run < n ->
    LangSmith.findLLMLeafSpans H run = Ok leaves ->
    forall r, In r leaves ->
      inRunTree run r /\ runType r = Ok llm /\ LangSmith.findLLMLeafSpans H r = Ok [r].
Proof.
  induction n as [| n IH]; intros run leaves Hd E r Hr; [lia |].
  pose proof E as E0.
  rewrite findLLMLeafSpans_eq in E.
  apply rbind_inv in E. destruct E as (run_type & Ert & E).
  apply rbind_inv in E. destruct E as (spanType & Est & E).
  cbv zeta in E.
  assert (Hself : is_llm spanType = true -> leaves = [run] ->
            inRunTree run r /\ runType r = Ok llm
            /\ LangSmith.findLLMLeafSpans H r = Ok [r]).
  { intros Hllm ->. destruct Hr as [<- | []].
    split; [constructor |]. split; [| exact E0].
    unfold runType. rewrite Ert. simpl. rewrite Est.
    destruct spanType; try discriminate Hllm. reflexivity. }
  assert (Hbelow : forall children,
            as_array (prop run "child_runs") = Ok children ->
            LangSmith.flat_map_res (LangSmith.findLLMLeafSpans H) children = Ok leaves ->
            inRunTree run r /\ runType r = Ok llm
            /\ LangSmith.findLLMLeafSpans H r = Ok [r]).
  { intros children Ec Ef.
    destruct (proj1 (flat_map_res_In _ _ _ Ef r) Hr) as (child & zs & Hc & Ez & Hz).
    pose proof (child_depth run child children Ec Hc) as Hcd.
    destruct (IH child zs ltac:(lia) Ez r Hz) as (Ht & Hty & Hleaf).
    split; [| split; assumption].
    eapply inRunTree_child; [apply as_array_inv; exact Ec | exact Hc | exact Ht]. }
  destruct (is_llm spanType) eqn:Hllm.
  - destruct (negb (truthy (prop run "child_runs"))
              || eq_num (prop (prop run "child_runs") "length") 0).
    + injection E as <-. apply Hself; reflexivity.
    + apply rbind_inv in E. destruct E as (children & Ec & E).
      apply rbind_inv in E. destruct E as (childLLMSpans & Ef & E).
      destruct childLLMSpans as [| c cs].
      * injection E as <-. apply Hself; reflexivity.
      * injection E as <-. eapply Hbelow; eassumption.
  - destruct (truthy (prop run "child_runs")
              && gt_zero H (prop (prop run "child_runs") "length")).
    + apply rbind_inv in E. destruct E as (children & Ec & E).
      eapply Hbelow; eassumption.
    + injection E as <-. destruct Hr.
Qed.

(** Property X3.  Every run that [findLLMLeafSpans] returns lies in the
    tree of the given run, is of type LLM, and is a leaf among the LLM
    runs: the search started at it returns that run alone. *)
Theorem LangSmith_leaf_spans_are_llm_leaves (run : value) (leaves : list value) (r : value) :
  LangSmith.findLLMLeafSpans H run = Ok leaves ->
  In r leaves ->
  inRunTree run r
  /\ runType r = Ok llm
  /\ LangSmith.findLLMLeafSpans H r = Ok [r].
Proof.
  intros E Hr. eapply (leaves_sound_aux (S (LangSmith.depth run))); eauto.
Qed.

Lemma retrievers_sound_aux (n : nat) :
  forall run rs,
    LangSmith.depth run < n ->
    LangSmith.findRelatedRetrieverSpans run = Ok rs ->
    forall r, In r rs -> inRunTree run r /\ runType r = Ok retriever.
Proof.
  induction n as [| n IH]; intros run rs Hd E r Hr; [lia |].
  rewrite findRelatedRetrieverSpans_eq in E.
  apply rbind_inv in E. destruct E as (run_type & Ert & E).
  apply rbind_inv in E. destruct E as (spanType & Est & E).
  cbv zeta in E.
  assert (Hself : In r (if is_retriever spanType then [run] else []) ->
            inRunTree run r /\ runType r = Ok retriever).
  { destruct (is_retriever spanType) eqn:Hret; [| intros []].
    intros [<- | []]. split; [constructor |].
    unfold runType. rewrite Ert. simpl. rewrite Est.
    destruct spanType; try discriminate Hret. reflexivity. }
  destruct (truthy (prop run "child_runs")).
  - apply rbind_inv in E. destruct E as (children & Ec & E).
    apply rbind_inv in E. destruct E as (below & Ef & E). injection E as <-.
    apply in_app_iff in Hr. destruct Hr as [Hr | Hr]; [exact (Hself Hr) |].
    destruct (proj1 (flat_map_res_In _ _ _ Ef r) Hr) as (child & zs & Hc & Ez & Hz).
    pose proof (child_depth run child children Ec Hc) as Hcd.
    destruct (IH child zs ltac:(lia) Ez r Hz) as (Ht & Hty).
    split; [| exact Hty].
    eapply inRunTree_child; [apply as_array_inv; exact Ec | exact Hc | exact Ht].
  - injection E as <-. exact (Hself Hr).
Qed.

Lemma retrievers_complete_aux (run r : value) :
  inRunTree run r ->
  forall rs, LangSmith.findRelatedRetrieverSpans run = Ok rs ->
  runType r = Ok retriever -> In r rs.
Proof.
  induction 1 as [run | run child r children Hc Hin Ht IH]; intros rs E Hty.
  - rewrite findRelatedRetrieverSpans_eq in E. unfold runType in Hty.
    destruct (JS.get run "run_type") as [run_type | e]; [simpl in * | discriminate Hty].
    rewrite Hty in E. simpl in E.
    destruct (truthy (prop run "child_runs")).
    + apply rbind_inv in E. destruct E as (children & Ec & E).
      apply rbind_inv in E. destruct E as (below & Ef & E). injection E as <-.
      left. reflexivity.
    + injection E as <-. left. reflexivity.
  - rewrite findRelatedRetrieverSpans_eq in E.
    apply rbind_inv in E. destruct E as (run_type & Ert & E).
    apply rbind_inv in E. destruct E as (spanType & Est & E).
    cbv zeta in E. rewrite Hc in E. simpl in E.
    apply rbind_inv in E. destruct E as (below & Ef & E). injection E as <-.
    apply in_app_iff. right.
    assert (Hchild : exists zs, LangSmith.findRelatedRetrieverSpans child = Ok zs).
    { clear - Ef Hin. unfold LangSmith.flat_map_res in Ef.
      apply rbind_inv in Ef. destruct Ef as (ls & El & _).
      revert ls El. induction children as [| x l IHl]; intros ls El; [destruct Hin |].
      simpl in El. apply rbind_inv in El. destruct El as (zs0 & Ex & El).
      apply rbind_inv in El. destruct El as (ls0 & El & _).
      destruct Hin as [<- | Hin]; [exists zs0; exact Ex | eapply IHl; eassumption]. }
    destruct Hchild as (zs & Ez).
    apply (proj2 (flat_map_res_In _ _ _ Ef r)).
    exists child, zs. split; [exact Hin |]. split; [exact Ez |].
    apply IH; assumption.
Qed.

(** Property X4.  [findRelatedRetrieverSpans] returns exactly the runs
    of type retriever in the tree of the given run. *)
Theorem LangSmith_retriever_spans_exact (run : value) (rs : list value) (r : value) :
  LangSmith.findRelatedRetrieverSpans run = Ok rs ->
  (In r rs <-> inRunTree run r /\ runType r = Ok retriever).
Proof.
  intros E. split.
  - intros Hr. eapply (retrievers_sound_aux (S (LangSmith.depth run))); eauto.
  - intros [Ht Hty]. eapply retrievers_complete_aux; eassumption.
Qed.

End RunTrees.

(** ** Records of the OTel adapter *)

Lemma filter_res_In {A : Type} (p : A -> res bool) (l r : list A) :
  filter_res p l = Ok r -> forall x, In x r -> In x l /\ p x = Ok true.
Proof.
  revert r. induction l as [| y l IH]; simpl; intros r E x Hx.
  - injection E as <-. destruct Hx.
  - apply rbind_inv in E. destruct E as (b & Eb & E).
    apply rbind_inv in E. destruct E as (r0 & Er & E). injection E as <-.
    destruct b.
    + destruct Hx as [<- | Hx]; [split; [left; reflexivity | exact Eb] |].
      destruct (IH r0 Er x Hx). split; [right |]; assumption.
    + destruct (IH r0 Er x Hx). split; [right |]; assumption.
Qed.

Lemma filter_res_length {A : Type} (p : A -> res bool) (l r : list A) :
  filter_res p l = Ok r -> List.length r <= List.length l.
Proof.
  revert r. induction l as [| y l IH]; simpl; intros r E.
  - injection E as <-. apply Nat.le_refl.
  - apply rbind_inv in E. destruct E as (b & Eb & E).
    apply rbind_inv in E. destruct E as (r0 & Er & E). injection E as <-.
    specialize (IH r0 Er). destruct b; simpl; lia.
Qed.

Section OTelRecords.
Context (H : Host).

Lemma findLeafLLMSpans_sound (spans : list value) (mappings : OTelMappingConfig)
  (leaves : list value) :
  OTel.findLeafLLMSpans H spans mappings = Ok leaves ->
  List.length leaves <= List.length spans
  /\ forall span, In span leaves ->
       In span spans /\ OTel.isLLMSpan H span mappings = Ok true.
Proof.
  unfold OTel.findLeafLLMSpans. intros E.
  apply rbind_inv in E. destruct E as (llmSpans & Ellm & E).
  apply rbind_inv in E. destruct E as (childMap & _ & E).
  cbv zeta in E. injection E as <-.
  split.
  - rewrite length_map.
    eapply Nat.le_trans; [apply filter_length_le |].
    eapply Nat.le_trans; [eapply filter_res_length; exact Ellm |].
    unfold OTel.indexed. rewrite length_combine, length_seq. lia.
  - intros span Hin. apply in_map_iff in Hin. destruct Hin as (x & <- & Hx).
    apply filter_In in Hx. destruct Hx as [Hx _].
    destruct (filter_res_In _ _ _ Ellm x Hx) as [Hi Hp].
    split; [apply in_indexed; exact Hi | exact Hp].
Qed.

Lemma convertSpan_context (span now : value) (ctx : list value)
  (mappings : OTelMappingConfig) (s s' : nat) (item : value) :
  OTel.convertSpanToReviewItem H span ctx mappings now s = (Ok item, s') ->
  context_chunks item = VArr ctx.
Proof.
  unfold OTel.convertSpanToReviewItem. intros E. mauto; reflexivity.
Qed.

Lemma convertAll_from (spans ctx : list value) (mappings : OTelMappingConfig)
  (now : value) (s s' : nat) (result : value) :
  OTel.convertAll H spans ctx mappings now s = (Ok result, s') ->
  List.length (Jsonl.normalizedItems result) = List.length spans
  /\ forall item, In item (Jsonl.normalizedItems result) ->
       exists span s1 s2,
         In span spans
         /\ OTel.convertSpanToReviewItem H span ctx mappings now s1 = (Ok item, s2).
Proof.
  intros E. pose proof (convertAll_items H _ _ _ _ _ _ _ E) as [Hall Hlen].
  split; [exact Hlen |].
  unfold OTel.convertAll in E.
  apply bind_inv in E. destruct E as (items & s1 & Eitems & E).
  apply ret_inv in E. destruct E as [<- _].
  rewrite normalizedItems_one_or_many.
  - intros item Hin.
    destruct (mapM_In _ _ _ _ _ Eitems item Hin) as (span & s2 & s3 & Hs & Ec).
    exists span, s2, s3. split; assumption.
  - eapply mapM_Forall; [| exact Eitems].
    intros x s2 s3 y Ey. eapply (fromSpan_not_array H mappings).
    exists x, now, ctx, s2, s3. exact Ey.
Qed.

(** Property X5.  Every record of an OTel import is the conversion of
    one span of the file, and there are at most as many records as spans:
    the adapter invents no record. *)
Theorem OTel_records_convert_file_spans (mappings : OTelMappingConfig) (data : value)
  (spans : list value) (s s' : nat) (result : value) :
  spansOf data = Ok spans ->
  OTel.normalize H mappings data s = (Ok result, s') ->
  List.length (Jsonl.normalizedItems result) <= List.length spans
  /\ forall item, In item (Jsonl.normalizedItems result) ->
       exists span ctx now s1 s2,
         In span spans
         /\ OTel.convertSpanToReviewItem H span ctx mappings now s1 = (Ok item, s2).
Proof.
  unfold spansOf, OTel.normalize. intros Hspans E.
  apply bind_inv in E. destruct E as (now & s1 & _ & E).
  apply bind_inv in E. destruct E as (spans' & s2 & Es & E).
  apply lift_inv in Es. destruct Es as [Es _].
  rewrite Hspans in Es. injection Es as <-.
  destruct spans as [| span0 spans0].
  - apply ret_inv in E. destruct E as [<- _]. split; [simpl; lia | intros item []].
  - set (spans := span0 :: spans0) in *.
    apply bind_inv in E. destruct E as (ctx & s3 & _ & E).
    apply bind_inv in E. destruct E as (leafLLMSpans & s4 & Eleaf & E).
    apply lift_inv in Eleaf. destruct Eleaf as [Eleaf _].
    destruct (findLeafLLMSpans_sound _ _ _ Eleaf) as [Hleaflen Hleaf].
    assert (Hsub : forall chosen s5,
              List.length chosen <= List.length spans ->
              (forall x, In x chosen -> In x spans) ->
              OTel.convertAll H chosen ctx mappings now s5 = (Ok result, s') ->
              List.length (Jsonl.normalizedItems result) <= List.length spans
              /\ forall item, In item (Jsonl.normalizedItems result) ->
                   exists span ctx now s1 s2,
                     In span spans
                     /\ OTel.convertSpanToReviewItem H span ctx mappings now s1
                        = (Ok item, s2)).
    { intros chosen s5 Hlen Hin Ec.
      destruct (convertAll_from _ _ _ _ _ _ _ Ec) as [Hl Hfrom].
      split; [rewrite Hl; exact Hlen |].
      intros item Hitem. destruct (Hfrom item Hitem) as (span & s6 & s7 & Hs & Hc).
      exists span, ctx, now, s6, s7. split; [apply Hin; exact Hs | exact Hc]. }
    destruct leafLLMSpans as [| leaf leafs].
    + apply bind_inv in E. destruct E as (llmLikeSpans & s5 & Elike & E).
      apply lift_inv in Elike. destruct Elike as [Elike _].
      destruct llmLikeSpans as [| like likes].
      * apply bind_inv in E. destruct E as (rootSpans & s6 & Eroots & E).
        apply lift_inv in Eroots. destruct Eroots as [Eroots _].
        eapply Hsub; [| | exact E].
        -- eapply filter_res_length; exact Eroots.
        -- intros x Hx. eapply filter_res_In; eassumption.
      * eapply Hsub; [| | exact E].
        -- eapply filter_res_length; exact Elike.
        -- intros x Hx. eapply filter_res_In; eassumption.
    + eapply Hsub; [| | exact E].
      * exact Hleaflen.
      * intros x Hx. apply Hleaf. exact Hx.
Qed.

(** Property X6.  All records of one OTel import carry the same context
    chunks: those that [extractContextFromRetrievers] collects from all
    spans of the file, whatever trace or parent they belong to. *)
Theorem OTel_records_share_context (mappings : OTelMappingConfig) (data : value)
  (spans : list value) (s s' : nat) (result : value) :
  spansOf data = Ok spans ->
  OTel.normalize H mappings data s = (Ok result, s') ->
  Jsonl.normalizedItems result = []
  \/ exists chunks s1,
       OTel.extractContextFromRetrievers H spans mappings (S s) = (Ok chunks, s1)
       /\ forall item, In item (Jsonl.normalizedItems result) ->
            context_chunks item = VArr chunks.
Proof.
  unfold spansOf, OTel.normalize. intros Hspans E.
  apply bind_inv in E. destruct E as (now & s1 & Enow & E).
  apply now_iso_inv in Enow. destruct Enow as [-> ->].
  apply bind_inv in E. destruct E as (spans' & s2 & Es & E).
  apply lift_inv in Es. destruct Es as [Es <-].
  rewrite Hspans in Es. injection Es as <-.
  destruct spans as [| span0 spans0].
  - apply ret_inv in E. destruct E as [<- _]. left. reflexivity.
  - set (spans := span0 :: spans0) in *.
    apply bind_inv in E. destruct E as (ctx & s3 & Ectx & E).
    right. exists ctx, s3. split; [exact Ectx |].
    assert (Hall : forall chosen s5,
              OTel.convertAll H chosen ctx mappings (VStr (clock H s)) s5 = (Ok result, s') ->
              forall item, In item (Jsonl.normalizedItems result) ->
                context_chunks item = VArr ctx).
    { intros chosen s5 Ec item Hitem.
      destruct (convertAll_from _ _ _ _ _ _ _ Ec) as [_ Hfrom].
      destruct (Hfrom item Hitem) as (span & s6 & s7 & _ & Hc).
      eapply convertSpan_context. exact Hc. }
    apply bind_inv in E. destruct E as (leafLLMSpans & s4 & _ & E).
    destruct leafLLMSpans as [| leaf leafs].
    + apply bind_inv in E. destruct E as (llmLikeSpans & s5 & _ & E).
      destruct llmLikeSpans as [| like likes].
      * apply bind_inv in E. destruct E as (rootSpans & s6 & _ & E).
        eapply Hall. exact E.
      * eapply Hall. exact E.
    + eapply Hall. exact E.
Qed.

End OTelRecords.

(** ** The line loop *)

Lemma split_on_nonempty (c : ascii) (s : string) : split_on c s <> [].
Proof.
  destruct s as [| a s]; simpl; [discriminate |].
  destruct (Ascii.eqb a c); [discriminate |].
  destruct (split_on c s); discriminate.
Qed.

Lemma split_on_app (c : ascii) (a b : string) :
  split_on c (a ++ String c b) = split_on c a ++ split_on c b.
Proof.
  induction a as [| x a IH]; simpl.
  - rewrite Ascii.eqb_refl. reflexivity.
  - destruct (Ascii.eqb x c); [rewrite IH; reflexivity |].
    rewrite IH. pose proof (split_on_nonempty c a) as Hne.
    destruct (split_on c a) as [| w ws]; [contradiction | reflexivity].
Qed.

Lemma split_on_singleLine (s : string) : singleLine s = true -> split_on nl s = [s].
Proof.
  induction s as [| x s IH]; simpl; intros E; [reflexivity |].
  apply andb_prop in E. destruct E as [Ex Es].
  apply negb_true_iff in Ex. rewrite Ex, (IH Es). reflexivity.
Qed.

Lemma nonBlankLines_lines2 (a b : string) :
  Jsonl.nonBlankLines (lines2 a b) = Jsonl.nonBlankLines a ++ Jsonl.nonBlankLines b.
Proof.
  unfold Jsonl.nonBlankLines, lines2. rewrite split_on_app. apply filter_app.
Qed.

Section LineLoop.
Context (H : Host).

(** The outcome of one line does not depend on its number nor on what
    was accumulated before: it either appends records, or one error. *)
Lemma processLine_cases (reg : AdapterRegistry) (line : string) (s : nat) :
  (exists new s', forall n acc,
      Jsonl.processLine H reg n line acc s = (Ok (fst acc ++ new, snd acc), s'))
  \/ (exists e s', forall n acc,
        Jsonl.processLine H reg n line acc s
        = (Ok (fst acc, snd acc ++ [ {| line := n; message := e |} ]), s')).
Proof.
  unfold Jsonl.processLine, try_catch, bind, lift, ret.
  destruct (JSON_parse H line) as [parsed | e];
    [| right; exists e, s; intros; reflexivity].
  destruct (detectAdapter reg parsed) as [[adapter |] | e];
    [| | right; exists e, s; intros; reflexivity].
  - destruct (normalize adapter (getOTelMappings reg) parsed s) as [[result | e] s1].
    + left. exists (Jsonl.normalizedItems result), s1. intros; reflexivity.
    + right. exists e, s1. intros; reflexivity.
  - assert (Hn : forall n, Jsonl.normalizeToReviewItem H parsed n
                           = Jsonl.normalizeToReviewItem H parsed 0) by reflexivity.
    destruct (Jsonl.normalizeToReviewItem H parsed 0 s) as [[item | e] s1] eqn:E.
    + left. exists (if truthy item then [item] else []), s1. intros n [its errs].
      rewrite Hn, E. destruct (truthy item); simpl; [reflexivity |].
      rewrite app_nil_r. reflexivity.
    + right. exists e, s1. intros n acc. rewrite Hn, E. reflexivity.
Qed.

Lemma processLines_errors (reg : AdapterRegistry) (lines : list string) :
  forall i acc s acc' s',
    Jsonl.processLines H reg i lines acc s = (Ok acc', s') ->
    exists new errs,
      fst acc' = fst acc ++ new
      /\ snd acc' = snd acc ++ errs
      /\ List.length errs <= List.length lines
      /\ StronglySorted lt (map line errs)
      /\ Forall (fun e => i < line e <= i + List.length lines) errs.
Proof.
  induction lines as [| l lines IH]; simpl; intros i acc s acc' s' E.
  - apply ret_inv in E. destruct E as [<- _]. exists [], [].
    rewrite !app_nil_r. repeat split; constructor.
  - apply bind_inv in E. destruct E as (acc1 & s1 & E1 & E).
    destruct (IH _ _ _ _ _ E) as (new & errs & Hi & He & Hlen & Hsort & Hall).
    destruct (processLine_cases reg l s) as [(new0 & s0 & Hok) | (e & s0 & Hbad)].
    + rewrite Hok in E1. injection E1 as <- <-. simpl in *.
      exists (new0 ++ new), errs. rewrite Hi, He, app_assoc.
      split; [reflexivity |]. split; [reflexivity |]. split; [lia |].
      split; [exact Hsort |].
      eapply Forall_impl; [| exact Hall]. simpl. intros; lia.
    + rewrite Hbad in E1. injection E1 as <- <-. simpl in *.
      exists new, ({| line := i + 1; message := e |} :: errs).
      rewrite Hi, He, <- app_assoc.
      split; [reflexivity |]. split; [reflexivity |]. split; [simpl; lia |].
      split.
      * simpl. constructor; [exact Hsort |].
        rewrite Forall_map. eapply Forall_impl; [| exact Hall]. simpl. intros; lia.
      * constructor; [simpl; lia |].
        eapply Forall_impl; [| exact Hall]. simpl. intros; lia.
Qed.

(** Property X7.  A line-by-line import returns, and in its result the
    errors are tagged with strictly increasing numbers between 1 and the
    number of non-blank lines: each non-blank line accounts for at most
    one error. *)
Theorem line_errors_are_numbered_in_order (reg : AdapterRegistry) (text : string)
  (s : nat) :
  exists r s',
    Jsonl.parseJsonlLines H reg text s = (Ok r, s')
    /\ List.length (errors r) <= List.length (Jsonl.nonBlankLines text)
    /\ StronglySorted lt (map line (errors r))
    /\ Forall (fun e => 1 <= line e <= List.length (Jsonl.nonBlankLines text)) (errors r).
Proof.
  destruct (parseJsonlLines_returns H reg text s) as (items & errs0 & s' & E).
  eexists _, _. split; [exact E |].
  unfold Jsonl.parseJsonlLines in E.
  apply bind_inv in E. destruct E as (acc & s1 & E1 & E).
  apply ret_inv in E. destruct E as [E _].
  destruct (processLines_errors _ _ _ _ _ _ _ E1) as (new & errs & _ & He & Hlen & Hs & Hall).
  assert (Herr : errs0 = snd acc) by (injection E as _ _ _ Herr; symmetry; exact Herr).
  simpl in *. subst. repeat split; assumption.
Qed.

Lemma processLines_app (reg : AdapterRegistry) (l1 l2 : list string) :
  forall i acc s,
    Jsonl.processLines H reg i (l1 ++ l2) acc s
    = bind (Jsonl.processLines H reg i l1 acc)
        (fun acc1 => Jsonl.processLines H reg (i + List.length l1) l2 acc1) s.
Proof.
  induction l1 as [| l l1 IH]; simpl; intros i acc s.
  - unfold bind, ret. rewrite Nat.add_0_r. reflexivity.
  - unfold bind at 1 2 3.
    destruct (Jsonl.processLine H reg (i + 1) l acc s) as [[acc1 | e] s1];
      [| reflexivity].
    rewrite IH. unfold bind. replace (S i + List.length l1) with (i + S (List.length l1)) by lia.
    reflexivity.
Qed.

(** The records and the oracle state after a run of lines do not depend
    on the line numbers nor on the errors accumulated before. *)
Lemma processLines_records (reg : AdapterRegistry) (lines : list string) :
  forall i j its errs errs0 s,
    exists new e1 e2 s',
      Jsonl.processLines H reg i lines (its, errs) s = (Ok (its ++ new, errs ++ e1), s')
      /\ Jsonl.processLines H reg j lines (its, errs0) s = (Ok (its ++ new, errs0 ++ e2), s')
      /\ List.length e1 = List.length e2.
Proof.
  induction lines as [| l lines IH]; simpl; intros i j its errs errs0 s.
  - exists [], [], [], s. rewrite !app_nil_r. repeat split; reflexivity.
  - unfold bind.
    destruct (processLine_cases reg l s) as [(new0 & s0 & Hok) | (e & s0 & Hbad)].
    + rewrite !Hok. simpl.
      destruct (IH (S i) (S j) (its ++ new0) errs errs0 s0)
        as (new & e1 & e2 & s' & E1 & E2 & Hlen).
      exists (new0 ++ new), e1, e2, s'. rewrite !app_assoc.
      repeat split; assumption.
    + rewrite !Hbad. simpl.
      destruct (IH (S i) (S j) its (errs ++ [ {| line := i + 1; message := e |} ])
                  (errs0 ++ [ {| line := j + 1; message := e |} ]) s0)
        as (new & e1 & e2 & s' & E1 & E2 & Hlen).
      exists new, ({| line := i + 1; message := e |} :: e1),
        ({| line := j + 1; message := e |} :: e2), s'.
      rewrite <- !app_assoc in E1, E2. simpl in *.
      repeat split; try assumption. lia.
Qed.

(** Property X8.  Error isolation: a malformed line between two texts
    adds one error, tagged with its position among the non-blank lines,
    and nothing else; the records imported, their order and the oracle
    draws are those of the import without that line. *)
Theorem malformed_line_is_isolated (reg : AdapterRegistry) (before bad after e : string)
  (s : nat) :
  JSON_parse H bad = Throw e ->
  singleLine bad = true ->
  str_truthy (trim bad) = true ->
  exists r r0 s',
    Jsonl.parseJsonlLines H reg (lines2 before (lines2 bad after)) s = (Ok r, s')
    /\ Jsonl.parseJsonlLines H reg (lines2 before after) s = (Ok r0, s')
    /\ items r = items r0
    /\ List.length (errors r) = S (List.length (errors r0))
    /\ In {| line := S (List.length (Jsonl.nonBlankLines before)); message := e |} (errors r).
Proof.
  intros Hparse Hsingle Hblank.
  unfold Jsonl.parseJsonlLines.
  rewrite !nonBlankLines_lines2.
  assert (Hbad : Jsonl.nonBlankLines bad = [bad]).
  { unfold Jsonl.nonBlankLines. rewrite (split_on_singleLine bad Hsingle). simpl.
    rewrite Hblank. reflexivity. }
  rewrite Hbad.
  set (l1 := Jsonl.nonBlankLines before). set (l2 := Jsonl.nonBlankLines after).
  unfold bind. rewrite !processLines_app. unfold bind.
  destruct (processLines_records reg l1 0 0 [] [] [] s)
    as (new1 & e1 & e1' & s1 & E1 & _ & _).
  rewrite E1. simpl.
  assert (Hline : forall n acc s0,
            Jsonl.processLine H reg n bad acc s0
            = (Ok (fst acc, snd acc ++ [ {| line := n; message := e |} ]), s0)).
  { intros n acc s0. unfold Jsonl.processLine, try_catch, bind, lift.
    rewrite Hparse. reflexivity. }
  unfold bind. rewrite Hline. simpl fst. simpl snd.
  destruct (processLines_records reg l2 (S (List.length l1)) (List.length l1)
              new1 (e1 ++ [ {| line := List.length l1 + 1; message := e |} ]) e1 s1)
    as (new2 & e2 & e2' & s2 & E2 & E2' & Hlen).
  rewrite E2, E2'. unfold ret.
  eexists _, _, _. split; [reflexivity |]. split; [reflexivity |].
  simpl. split; [reflexivity |]. split.
  - rewrite !length_app. simpl. lia.
  - apply in_or_app. left. apply in_or_app. right.
    replace (List.length l1 + 1) with (S (List.length l1)) by lia.
    left. reflexivity.
Qed.

End LineLoop.

(** ** Canonical records *)

(** Settles a goal about the shape of a record whose [outputs] depend on
    a truthiness test. *)
Ltac shape :=
  unfold Jsonl.isReviewItemFormat, LangSmith.isLangSmithExport,
    LangSmith.isLangSmithRun, OTel.isOTelExport, JS.get;
  cbn [prop assoc String.eqb Ascii.eqb Bool.eqb is_nullish is_object isArray has_prop
       negb andb orb rbind];
  repeat match goal with
    | |- context [if truthy ?v then _ else _] => destruct (truthy v)
    end;
  reflexivity.

Section Closure.
Context (H : Host).

Lemma convertRun_canonical (run now : value) (ctx : list value) (s s' : nat)
  (item : value) :
  LangSmith.convertRunToReviewItem H run now ctx s = (Ok item, s') ->
  canonical_undetected H item.
Proof.
  unfold LangSmith.convertRunToReviewItem, canonical_undetected. intros E.
  rewrite detectAdapter_standard.
  mauto; (split; shape).
Qed.

Lemma convertSpan_canonical (span now : value) (ctx : list value)
  (mappings : OTelMappingConfig) (s s' : nat) (item : value) :
  OTel.convertSpanToReviewItem H span ctx mappings now s = (Ok item, s') ->
  canonical_undetected H item.
Proof.
  unfold OTel.convertSpanToReviewItem, canonical_undetected. intros E.
  rewrite detectAdapter_standard.
  mauto; (split; shape).
Qed.

Lemma chain_canonical (stage : Jsonl.Stage) (data now : value) (s s' : nat) (item : value) :
  stage <> Jsonl.PassThrough ->
  stageConversion H stage data now s = (Ok item, s') ->
  canonical_undetected H item.
Proof.
  intros Hne E. unfold canonical_undetected. rewrite detectAdapter_standard.
  destruct stage; simpl in E; try contradiction.
  - unfold Jsonl.convertOpenAIFormat in E. mauto; (split; shape).
  - unfold Jsonl.convertOpenAIFineTuneFormat in E. mauto; (split; shape).
  - unfold Jsonl.convertGenericFormat in E. mauto; (split; shape).
  - unfold Jsonl.convertBestEffort in E. mauto; (split; shape).
Qed.

Lemma passThrough_canonical (data now : value) (s s' : nat) (item : value) :
  Jsonl.isReviewItemFormat data = Ok true ->
  Jsonl.passThrough H data now s = (Ok item, s') ->
  Jsonl.isReviewItemFormat item = Ok true.
Proof.
  intros Ef E.
  destruct (isReviewItemFormat_object data Ef) as (l & -> & Ei & Ep & Eo).
  destruct (passThrough_returns H l now s) as (id & s1 & E1).
  rewrite E1 in E. injection E as <- <-.
  unfold Jsonl.isReviewItemFormat, JS.get. cbn [is_nullish rbind].
  rewrite !passThrough_frame by reflexivity. rewrite Ei, Ep, Eo. reflexivity.
Qed.

(** Property X9.  Every record that the import produces is itself in
    the canonical format, so the generic chain passes it through when it
    is imported again; and, unless it was passed through itself, no trace
    adapter claims it. *)
Theorem produced_records_are_canonical (mappings : OTelMappingConfig) (data : value)
  (route : Jsonl.Route) (item : value) :
  Jsonl.produces H mappings data route item ->
  Jsonl.isReviewItemFormat item = Ok true
  /\ Jsonl.stageOf item = Ok Jsonl.PassThrough
  /\ (route <> Jsonl.ViaChain Jsonl.PassThrough ->
      detectAdapter (Jsonl.adapterRegistry H) item = Ok None).
Proof.
  intros Hp.
  assert (Hc : Jsonl.isReviewItemFormat item = Ok true
               /\ (route <> Jsonl.ViaChain Jsonl.PassThrough ->
                   detectAdapter (Jsonl.adapterRegistry H) item = Ok None)).
  { destruct Hp as [s s' result item' E Hin | s s' result item' E Hin
                   | n s s' stage item' Estage E].
    - destruct (LangSmith_normalize_items H data s s' result E) as [Hall _].
      rewrite Forall_forall in Hall.
      destruct (Hall item' Hin) as (run & now & ctx & s1 & s2 & Ec).
      destruct (convertRun_canonical _ _ _ _ _ _ Ec). split; [assumption | intros _; assumption].
    - pose proof (OTel_normalize_items H mappings data s s' result E) as Hall.
      rewrite Forall_forall in Hall.
      destruct (Hall item' Hin) as (span & now & ctx & s1 & s2 & Ec).
      destruct (convertSpan_canonical _ _ _ _ _ _ _ Ec).
      split; [assumption | intros _; assumption].
    - rewrite (normalizeToReviewItem_dispatch H data n s stage Estage) in E.
      destruct stage;
        try (match type of E with
             | stageConversion _ ?st _ _ _ = _ =>
                 assert (Hst : st <> Jsonl.PassThrough) by discriminate;
                 destruct (chain_canonical st data _ _ _ _ Hst E)
             end;
             split; [assumption | intros _; assumption]).
      split; [| intros Hne; contradiction].
      eapply passThrough_canonical; [| exact E].
      apply stageOf_passThrough. exact Estage. }
  destruct Hc as [Hf Hd]. split; [exact Hf |]. split; [| exact Hd].
  unfold Jsonl.stageOf. rewrite Hf. reflexivity.
Qed.

(** Property X10.  A record in the canonical format is not a LangSmith
    run, and without the container keys [runs] and [run] the LangSmith
    adapter does not claim it. *)
Theorem canonical_record_is_no_langsmith_run (data : value) :
  Jsonl.isReviewItemFormat data = Ok true ->
  LangSmith.isLangSmithRun data = false
  /\ (has_prop "runs" data = false -> has_prop "run" data = false ->
      LangSmith.isLangSmithExport data = false).
Proof.
  intros Ef.
  destruct (isReviewItemFormat_object data Ef) as (l & -> & Ei & Ep & Eo).
  assert (Hrun : LangSmith.isLangSmithRun (VObj l) = false).
  { unfold LangSmith.isLangSmithRun. cbn [is_object negb].
    assert (Ho : has_prop "outputs" (VObj l) = true).
    { simpl in *. destruct (assoc "outputs" l); [reflexivity | discriminate Eo]. }
    rewrite Ho, Eo. reflexivity. }
  split; [exact Hrun |].
  intros Hruns Hr. unfold LangSmith.isLangSmithExport.
  cbn [is_object negb isArray]. rewrite Hruns, Hr. simpl. exact Hrun.
Qed.


End Closure.

(** ** Export *)

Lemma singleLine_app (a b : string) :
  singleLine (a ++ b) = singleLine a && singleLine b.
Proof.
  induction a as [| c a IH]; simpl; [reflexivity |].
  rewrite IH. apply andb_assoc.
Qed.

Lemma singleLine_concat (sep : string) (l : list string) :
  singleLine sep = true -> Forall (fun t => singleLine t = true) l ->
  singleLine (String.concat sep l) = true.
Proof.
  intros Hsep Hall. induction Hall as [| t l Ht Hl IH]; [reflexivity |].
  destruct l as [| t' l]; [exact Ht |].
  change (String.concat sep (t :: t' :: l))
    with (t ++ sep ++ String.concat sep (t' :: l))%string.
  rewrite !singleLine_app, Ht, Hsep, IH. reflexivity.
Qed.

Lemma escape_char_singleLine (c : ascii) : singleLine (escape_char c) = true.
Proof. destruct c as [[] [] [] [] [] [] [] []]; reflexivity. Qed.

Lemma escape_singleLine (s : string) : singleLine (escape s) = true.
Proof.
  induction s as [| c s IH]; simpl; [reflexivity |].
  rewrite singleLine_app, escape_char_singleLine, IH. reflexivity.
Qed.

Lemma quote_singleLine (s : string) : singleLine (quote s) = true.
Proof.
  unfold quote. simpl. rewrite singleLine_app, escape_singleLine. reflexivity.
Qed.

Lemma depth_member (k : string) (x : value) (l : list (string * value)) :
  In (k, x) l -> LangSmith.depth x < LangSmith.depth (VObj l).
Proof.
  simpl. induction l as [| [k' y] l IH]; simpl; intros Hin; [contradiction |].
  destruct Hin as [E | Hin]; [injection E as _ ->; lia | specialize (IH Hin); lia].
Qed.

Section ExportLines.
Context (H : Host).
Hypothesis numbers_single_line : forall n, singleLine (String_of_number H n) = true.

Lemma stringify_singleLine_aux (n : nat) :
  forall v t, LangSmith.depth v < n -> stringify H v = Some t -> singleLine t = true.
Proof.
  induction n as [| n IH]; intros v t Hd E; [lia |].
  destruct v as [| | b | x | str | l | l]; simpl in E.
  - discriminate E.
  - injection E as <-. reflexivity.
  - destruct b; injection E as <-; reflexivity.
  - injection E as <-. destruct (num_finite x); [apply numbers_single_line | reflexivity].
  - injection E as <-. apply quote_singleLine.
  - injection E as <-. simpl. rewrite singleLine_app. simpl. rewrite andb_true_r.
    apply singleLine_concat; [reflexivity |].
    apply Forall_forall. intros t Ht. apply in_map_iff in Ht.
    destruct Ht as (x & <- & Hx).
    pose proof (depth_element x l Hx) as Hdx.
    destruct (stringify H x) as [tx |] eqn:Ex; [| reflexivity].
    apply (IH x tx); [lia | exact Ex].
  - injection E as <-. simpl. rewrite singleLine_app. simpl. rewrite andb_true_r.
    apply singleLine_concat; [reflexivity |].
    apply Forall_forall. intros t Ht. apply in_flat_map in Ht.
    destruct Ht as ([k x] & Hx & Ht).
    pose proof (depth_member k x l Hx) as Hdx.
    destruct (stringify H x) as [tx |] eqn:Ex; [| destruct Ht].
    destruct Ht as [<- | []].
    cbn [singleLine]. rewrite !singleLine_app, escape_singleLine. cbn [singleLine].
    rewrite (IH x tx) by (lia || exact Ex). reflexivity.
Qed.

Lemma JSON_stringify_singleLine (v : value) : lineOk (JSON_stringify H v).
Proof.
  unfold JSON_stringify. destruct (stringify H v) as [t |] eqn:E; [| exact I].
  eapply stringify_singleLine_aux; [apply Nat.lt_succ_diag_r | exact E].
Qed.

Lemma split_join (l : list string) :
  l <> [] -> Forall (fun t => singleLine t = true) l ->
  split_on nl (String.concat (String nl "") l) = l.
Proof.
  intros Hne Hall. induction Hall as [| t l Ht Hl IH]; [contradiction |].
  destruct l as [| t' l]; [apply split_on_singleLine; exact Ht |].
  change (String.concat (String nl "") (t :: t' :: l))
    with (t ++ String nl (String.concat (String nl "") (t' :: l)))%string.
  rewrite split_on_app, (split_on_singleLine t Ht), IH by discriminate. reflexivity.
Qed.

Lemma join_lines (f : value -> res value) (items lines : list value) :
  (forall item line, f item = Ok line -> lineOk line) ->
  map_res f items = Ok lines ->
  items <> [] ->
  split_on nl (JsonlExport.join H (String nl "") lines) = map (lineText H) lines
  /\ List.length lines = List.length items.
Proof.
  intros Hf E Hne.
  assert (Hall : Forall lineOk lines /\ List.length lines = List.length items).
  { clear Hne. revert lines E. induction items as [| item items IH]; simpl; intros lines E.
    - injection E as <-. split; [constructor | reflexivity].
    - apply rbind_inv in E. destruct E as (line & El & E).
      apply rbind_inv in E. destruct E as (rest & Er & E). injection E as <-.
      destruct (IH rest Er) as [Hr Hlen].
      split; [constructor; [eapply Hf; exact El | exact Hr] | simpl; rewrite Hlen; reflexivity]. }
  destruct Hall as [Hall Hlen]. split; [| exact Hlen].
  unfold JsonlExport.join. fold (lineText H).
  apply split_join.
  - destruct lines; [destruct items; [contradiction | discriminate Hlen] | discriminate].
  - apply Forall_forall. intros t Ht. apply in_map_iff in Ht.
    destruct Ht as (x & <- & Hx). rewrite Forall_forall in Hall. specialize (Hall x Hx).
    destruct x; try contradiction; try reflexivity. exact Hall.
Qed.

Lemma exportLine_lineOk (options item line : value) :
  JsonlExport.exportLine H options item = Ok line -> lineOk line.
Proof.
  unfold JsonlExport.exportLine. intros Eline.
  destruct (truthy (prop options "includeMetadata")).
  - injection Eline as <-. apply JSON_stringify_singleLine.
  - apply rbind_inv in Eline. destruct Eline as (msgs & _ & Eline).
    injection Eline as <-. apply JSON_stringify_singleLine.
Qed.

Lemma trainingLine_lineOk (item line : value) :
  (exported <- JsonlExport.exportedRecord H item ;; Ok (JSON_stringify H exported)) = Ok line ->
  lineOk line.
Proof.
  intros Eline. apply rbind_inv in Eline. destruct Eline as (exported & _ & Eline).
  injection Eline as <-. apply JSON_stringify_singleLine.
Qed.

(** Property X12.  Both exports write JSON Lines: on a host whose number
    texts hold no line feed, the text exported for a non-empty list of
    records splits at line feeds into exactly one line per record, in
    order, each line being the serialization of that record's export. *)
Theorem export_writes_one_line_per_record (items : list value) (options : value)
  (text : string) :
  items <> [] ->
  (JsonlExport.exportToJsonl H items options = Ok text ->
   exists lines,
     map_res (JsonlExport.exportLine H options) items = Ok lines
     /\ split_on nl text = map (lineText H) lines
     /\ List.length (split_on nl text) = List.length items)
  /\ (JsonlExport.exportForTraining H items = Ok text ->
      List.length (split_on nl text) = List.length items).
Proof.
  intros Hne. split.
  - unfold JsonlExport.exportToJsonl. intros E.
    apply rbind_inv in E. destruct E as (lines & El & E). injection E as <-.
    destruct (join_lines _ items lines (exportLine_lineOk options) El Hne) as [Hs Hl].
    exists lines. split; [exact El |]. split; [exact Hs |].
    rewrite Hs, length_map. exact Hl.
  - unfold JsonlExport.exportForTraining. intros E.
    apply rbind_inv in E. destruct E as (lines & El & E). injection E as <-.
    destruct (join_lines _ items lines trainingLine_lineOk El Hne) as [Hs Hl].
    rewrite Hs, length_map. exact Hl.
Qed.

End ExportLines.

Section RoundTrip.
Context (H : Host).

(** Property X13.  Re-importing a line written by the fine-tuning export,
    on a host that parses the line back to the object serialized.  The
    line is taken by the fine-tune stage of the generic chain (no trace
    adapter claims it) and yields one record with the prompt, the system
    prompt and the chosen response of the exported record; the record
    gets a fresh id and an empty context: identity, context chunks and
    model ids do not survive this export. *)
Theorem finetune_export_reimports (item : value) (messages : list value) (response : value)
  (line : string) (n : nat) (acc : list value * list ImportError) (s : nat) :
  JsonlExport.exportMessages item = Ok messages ->
  JsonlExport.responseText item = Ok response ->
  JsonlExport.exportLine H VUndef item = Ok (VStr line) ->
  JSON_parse H line = Ok (VObj [ ("messages", VArr messages) ]) ->
  exists record,
    Jsonl.processLine H (Jsonl.adapterRegistry H) n line acc s
    = (Ok (fst acc ++ [record], snd acc), S (S s))
    /\ prompt record = or_else (prompt item) (VStr "")
    /\ system_prompt record
       = (if truthy (system_prompt item) then system_prompt item else VUndef)
    /\ outputs record
       = (if truthy response
          then VArr [ VObj [ ("model_id", VStr "assistant"); ("text", response);
                             ("token_usage", VNum 0%float);
                             ("latency_ms", VNum 0%float) ] ]
          else VArr [])
    /\ context_chunks record = VArr []
    /\ prop record "id" = VStr (uuid H (S s))
    /\ status record = VStr "pending".
Proof.
  intros Emsgs Eresp _ Hparse.
  unfold JsonlExport.exportMessages in Emsgs.
  apply rbind_inv in Emsgs. destruct Emsgs as (inp & Einp & Emsgs).
  apply rbind_inv in Emsgs. destruct Emsgs as (sp & Esp & Emsgs).
  rewrite Eresp in Emsgs. cbn [rbind] in Emsgs. injection Emsgs as <-.
  assert (Hinp : inp = input item).
  { unfold JS.get in Einp. destruct (is_nullish item); [discriminate Einp |].
    injection Einp as <-. reflexivity. }
  assert (Hsp : sp = system_prompt item).
  { unfold JS.get in Esp. destruct (is_nullish inp); [discriminate Esp |].
    injection Esp as <-. rewrite Hinp. reflexivity. }
  subst inp sp.
  unfold Jsonl.processLine, try_catch, bind, lift. rewrite Hparse.
  rewrite detectAdapter_standard.
  unfold prompt, system_prompt, context_chunks, status, outputs.
  destruct (truthy (prop (input item) "system_prompt")) eqn:Tsp;
    destruct (truthy response) eqn:Tr;
    (eexists; split; [reflexivity |]); repeat split; reflexivity.
Qed.

End RoundTrip.

Lemma insert_sorted_perm (compare : value -> value -> float) (x : value) (l : list value) :
  Permutation (JsonlExport.insert_sorted compare x l) (x :: l).
Proof.
  induction l as [| y l IH]; simpl; [apply Permutation_refl |].
  destruct (PrimFloat.ltb 0 (compare x y)); [| apply Permutation_refl].
  eapply Permutation_trans; [apply perm_skip; exact IH | apply perm_swap].
Qed.

Lemma sort_perm (compare : value -> value -> float) (l : list value) :
  Permutation (JsonlExport.sort compare l) l.
Proof.
  induction l as [| x l IH]; simpl; [constructor |].
  eapply Permutation_trans; [apply insert_sorted_perm | apply perm_skip; exact IH].
Qed.

Lemma filter_res_not_excluded (chunks kept : list value) :
  filter_res JsonlExport.not_excluded chunks = Ok kept -> kept = keptChunks chunks.
Proof.
  revert kept. induction chunks as [| c chunks IH]; simpl; intros kept E.
  - injection E as <-. reflexivity.
  - apply rbind_inv in E. destruct E as (b & Eb & E).
    apply rbind_inv in E. destruct E as (r & Er & E). injection E as <-.
    rewrite (IH r Er). unfold JsonlExport.not_excluded, JS.get in Eb.
    destruct (is_nullish c); [discriminate Eb |]. injection Eb as <-. reflexivity.
Qed.

Section Training.
Context (H : Host).

Lemma sort_unranked (l : list value) :
  Forall (fun c => is_nullish (prop c "rank") = true) l ->
  JsonlExport.sort (JsonlExport.byRank H) l = l.
Proof.
  induction 1 as [| x l Hx Hl IH]; simpl; [reflexivity |].
  rewrite IH. destruct l as [| y l]; [reflexivity |].
  inversion Hl as [| ? ? Hy _]; subst.
  simpl. unfold JsonlExport.byRank, JsonlExport.rank. rewrite Hx, Hy. reflexivity.
Qed.

(** Property X14.  The context written by the training export holds the
    chunks of the record that are not excluded, each exactly once,
    reduced to text, source and score; when none of them has a rank they
    keep their order.  The id and the feedback are copied. *)
Theorem training_export_drops_excluded_chunks (item exported : value) :
  JsonlExport.exportedRecord H item = Ok exported ->
  exists chunks context,
    context_chunks item = VArr chunks
    /\ prop exported "context" = VArr context
    /\ Permutation context (map JsonlExport.exportedChunk (keptChunks chunks))
    /\ (Forall (fun c => is_nullish (prop c "rank") = true) (keptChunks chunks) ->
        context = map JsonlExport.exportedChunk (keptChunks chunks))
    /\ prop exported "id" = prop item "id"
    /\ prop exported "human_feedback" = prop item "human_feedback".
Proof.
  unfold JsonlExport.exportedRecord. intros E.
  apply rbind_inv in E. destruct E as (id & Eid & E).
  apply rbind_inv in E. destruct E as (inp & Einp & E).
  apply rbind_inv in E. destruct E as (cc & Ecc & E).
  apply rbind_inv in E. destruct E as (chunks & Echunks & E).
  apply rbind_inv in E. destruct E as (kept & Ekept & E).
  cbv zeta in E.
  apply rbind_inv in E. destruct E as (messages & _ & E). injection E as <-.
  apply as_array_inv in Echunks. apply filter_res_not_excluded in Ekept. subst cc kept.
  unfold JS.get in Eid, Einp, Ecc.
  destruct (is_nullish item); [discriminate Eid |].
  injection Eid as <-. injection Einp as <-.
  destruct (is_nullish (prop item "input")); [discriminate Ecc |].
  injection Ecc as Ecc.
  exists chunks, (map JsonlExport.exportedChunk
                    (JsonlExport.sort (JsonlExport.byRank H) (keptChunks chunks))).
  split; [exact Ecc |]. split; [reflexivity |].
  split; [apply Permutation_map; apply sort_perm |].
  split; [intros Hall; rewrite (sort_unranked _ Hall); reflexivity |].
  split; reflexivity.
Qed.

End Training.

(** ** The review store *)

Section StoreImport.
Context (H : Host) {D : Type} (T : Db.Table D).

Lemma loadItems_keeps (w : Store.World) :
  Store.selectedIds (Store.store (Store.loadItems T w)) = Store.selectedIds (Store.store w)
  /\ Store.selectedItemId (Store.store (Store.loadItems T w))
     = Store.selectedItemId (Store.store w)
  /\ Store.filters (Store.store (Store.loadItems T w)) = Store.filters (Store.store w)
  /\ Store.isLoading (Store.store (Store.loadItems T w)) = false
  /\ Store.draws (Store.loadItems T w) = Store.draws w.
Proof.
  unfold Store.loadItems.
  destruct (Db.getAllItems T (Store.db w)) as [[loaded | e] d1];
    [destruct (Db.getStatusCounts T d1) as [[counts | e] d2] |];
    repeat split; reflexivity.
Qed.

(** Property X15.  What [importFile] reports.  The import never raises.
    It reports success exactly when the parser produced at least one
    record and the bulk insert went through; a file without any record is
    reported as 'No valid items found in file' and leaves the database
    alone, also when the parser itself called the import a success. *)
Theorem import_outcome_reflects_storage (reg : AdapterRegistry) (file : Jsonl.File)
  (w : Store.World) :
  exists r s',
    Jsonl.parseJsonlFile H reg file (Store.draws w) = (Ok r, s')
    /\ let outcome := fst (Store.importFile H T reg file w) in
       let w' := snd (Store.importFile H T reg file w) in
       Store.draws w' = s'
       /\ Store.isLoading (Store.store w') = false
       /\ (Store.success outcome = true -> success r = true /\ items r <> [])
       /\ match items r with
          | [] =>
              outcome = {| Store.success := false; Store.message := "No valid items found in file" |}
              /\ Store.db w' = Store.db w
              /\ Store.items (Store.store w') = Store.items (Store.store w)
              /\ Store.error (Store.store w') = None
          | _ :: _ =>
              match Db.addItems T (items r) (Store.db w) with
              | (Ok _, d1) =>
                  outcome = {| Store.success := true; Store.message := Store.importedMessage r |}
              | (Throw e, d1) =>
                  outcome = {| Store.success := false; Store.message := e |}
                  /\ Store.db w' = d1
                  /\ Store.items (Store.store w') = Store.items (Store.store w)
                  /\ Store.error (Store.store w') = Some e
              end
          end.
Proof.
  destruct (parseJsonlFile_returns H reg file (Store.draws w)) as (r & s' & E & Hshape).
  exists r, s'. split; [exact E |].
  destruct (ImportShape_successRule r Hshape) as [Hs _].
  unfold Store.importFile. rewrite E.
  destruct (items r) as [| item rest] eqn:Eitems.
  - simpl. repeat split; try reflexivity; discriminate.
  - cbn [List.length Nat.ltb Nat.leb].
    destruct (Db.addItems T (item :: rest) (Store.db w)) as [[u | e] d1]; cbn [fst snd].
    + split; [apply loadItems_keeps |]. split; [reflexivity |].
      split; [| reflexivity].
      intros _. split; [rewrite Hs; apply orb_true_r | discriminate].
    + repeat split; try reflexivity; discriminate.
Qed.

(** Property X16.  After [deleteItems], no deleted id is left in the
    selection and the selected item is cleared if it was deleted; the
    other selected ids stay, in order.  When the database refuses, the
    selection is untouched and the error message is stored. *)
Theorem delete_clears_selection (ids : list string) (w : Store.World) :
  let st := Store.store w in
  let st' := Store.store (Store.deleteItems T ids w) in
  match Db.deleteItems T ids (Store.db w) with
  | (Ok _, _) =>
      Store.selectedIds st'
      = filter (fun id => negb (existsb (String.eqb id) ids)) (Store.selectedIds st)
      /\ (forall id, In id (Store.selectedIds st') <->
                     In id (Store.selectedIds st) /\ ~ In id ids)
      /\ (forall id, Store.selectedItemId st' = Some id ->
                     Store.selectedItemId st = Some id /\ ~ In id ids)
      /\ (forall id, Store.selectedItemId st = Some id -> ~ In id ids ->
                     Store.selectedItemId st' = Some id)
  | (Throw e, _) =>
      Store.selectedIds st' = Store.selectedIds st
      /\ Store.selectedItemId st' = Store.selectedItemId st
      /\ Store.items st' = Store.items st
      /\ Store.error st' = Some e
  end.
Proof.
  intros st st'. subst st'. unfold Store.deleteItems. fold st.
  destruct (Db.deleteItems T ids (Store.db w)) as [[u | e] d1].
  - match goal with |- context [Store.loadItems T ?x] =>
      destruct (loadItems_keeps x) as (Hids & Hsel & _) end.
    rewrite Hids, Hsel. cbn [Store.store Store.selectedIds Store.selectedItemId].
    assert (Hin : forall id, existsb (String.eqb id) ids = true <-> In id ids).
    { intros id. rewrite existsb_exists. split.
      - intros (x & Hx & Ex). apply String.eqb_eq in Ex. subst. exact Hx.
      - intros Hx. exists id. split; [exact Hx | apply String.eqb_refl]. }
    split; [reflexivity |]. split.
    + intros id. rewrite filter_In, negb_true_iff, <- Hin.
      destruct (existsb (String.eqb id) ids); intuition congruence.
    + unfold Store.selectedItemDeleted.
      destruct (Store.selectedItemId st) as [sel |] eqn:Esel.
      * destruct (existsb (String.eqb sel) ids) eqn:Ex.
        -- split; [intros id Hid; discriminate Hid |].
           intros id Hid Hnot. injection Hid as <-. apply Hin in Ex. contradiction.
        -- split; [| intros id Hid _; exact Hid].
           intros id Hid. injection Hid as <-. split; [reflexivity |].
           intros Hc. apply Hin in Hc. congruence.
      * destruct (existsb (String.eqb "") ids); split; intros id Hid; discriminate Hid.
  - repeat split; reflexivity.
Qed.

End StoreImport.

Lemma set_has_In (id : string) (s : list string) : Store.set_has id s = true <-> In id s.
Proof.
  unfold Store.set_has. rewrite existsb_exists. split.
  - intros (x & Hx & Ex). apply String.eqb_eq in Ex. subst. exact Hx.
  - intros Hx. exists id. split; [exact Hx | apply String.eqb_refl].
Qed.

Lemma set_delete_In (id x : string) (s : list string) :
  In x (Store.set_delete id s) <-> In x s /\ x <> id.
Proof.
  unfold Store.set_delete. rewrite filter_In, negb_true_iff, String.eqb_neq. reflexivity.
Qed.

Lemma set_delete_absent (id : string) (s : list string) :
  ~ In id s -> Store.set_delete id s = s.
Proof.
  intros Hnot. unfold Store.set_delete. induction s as [| x s IH]; simpl; [reflexivity |].
  destruct (String.eqb_spec x id) as [-> | Hne]; simpl.
  - exfalso. apply Hnot. left. reflexivity.
  - rewrite IH; [reflexivity |]. intros Hin. apply Hnot. right. exact Hin.
Qed.

(** Property X17.  Toggling the selection of an id twice restores the
    selected set: the same members, without duplicates; the whole state
    is restored when the id was not selected before. *)
Theorem toggle_twice_restores_selection (id : string) (st : Store.State) :
  NoDup (Store.selectedIds st) ->
  let twice := Store.toggleItemSelection id (Store.toggleItemSelection id st) in
  (forall x, In x (Store.selectedIds twice) <-> In x (Store.selectedIds st))
  /\ NoDup (Store.selectedIds twice)
  /\ List.length (Store.selectedIds twice) = List.length (Store.selectedIds st)
  /\ (~ In id (Store.selectedIds st) -> twice = st)
  /\ Store.items twice = Store.items st
  /\ Store.selectedItemId twice = Store.selectedItemId st.
Proof.
  intros Hnd twice. subst twice. destruct st as [its sel ids f stt l e]. simpl in *.
  unfold Store.toggleItemSelection. simpl.
  destruct (Store.set_has id ids) eqn:Ehas.
  - assert (Hin : In id ids) by (apply set_has_In; exact Ehas).
    assert (Hnot : Store.set_has id (Store.set_delete id ids) = false).
    { apply not_true_is_false. intros Hc. apply set_has_In in Hc.
      apply set_delete_In in Hc. destruct Hc as [_ Hc]. apply Hc. reflexivity. }
    rewrite Hnot. unfold Store.set_add. rewrite Hnot.
    assert (Hperm : Permutation (Store.set_delete id ids ++ [id]) ids).
    { clear - Hnd Hin. induction ids as [| x ids IH]; [destruct Hin |].
      inversion Hnd as [| ? ? Hx Hnd']; subst. unfold Store.set_delete. simpl.
      destruct (String.eqb_spec x id) as [-> | Hne]; simpl.
      - fold (Store.set_delete id ids). rewrite (set_delete_absent id ids Hx).
        apply Permutation_sym. apply Permutation_cons_append.
      - destruct Hin as [-> | Hin]; [contradiction Hne; reflexivity |].
        apply perm_skip. apply IH; assumption. }
    split; [intros x; split; apply Permutation_in;
            [exact Hperm | apply Permutation_sym; exact Hperm] |].
    split; [eapply Permutation_NoDup; [apply Permutation_sym; exact Hperm | exact Hnd] |].
    split; [apply Permutation_length; exact Hperm |].
    split; [intros Hc; contradiction | split; reflexivity].
  - assert (Hnot : ~ In id ids).
    { intros Hc. apply set_has_In in Hc. congruence. }
    unfold Store.set_add. rewrite Ehas.
    assert (Hhas : Store.set_has id (ids ++ [id]) = true).
    { apply set_has_In. apply in_or_app. right. left. reflexivity. }
    rewrite Hhas.
    assert (Hdel : Store.set_delete id (ids ++ [id]) = ids).
    { unfold Store.set_delete. rewrite filter_app. simpl. rewrite String.eqb_refl. simpl.
      rewrite app_nil_r. apply (set_delete_absent id ids Hnot). }
    rewrite Hdel. repeat split; try reflexivity; try assumption; intros Hx; exact Hx.
Qed.

(** ** Helpers of the user interface *)

Lemma substring_0_length (s : string) (k : nat) :
  k <= String.length s -> String.length (String.substring 0 k s) = k.
Proof.
  revert k. induction s as [| c s IH]; intros k Hk; simpl in *.
  - destruct k; [reflexivity | lia].
  - destruct k; [reflexivity |]. simpl. rewrite IH by lia. reflexivity.
Qed.

Lemma substring_0_app (a b : string) :
  String.substring 0 (String.length a) (a ++ b) = a.
Proof. induction a as [| c a IH]; simpl; [destruct b; reflexivity | rewrite IH; reflexivity]. Qed.

Lemma string_length_app (a b : string) :
  String.length (a ++ b) = String.length a + String.length b.
Proof. induction a as [| c a IH]; simpl; [reflexivity | rewrite IH; reflexivity]. Qed.

Lemma slice_prefix (s : string) (n : Z) :
  (0 <= n < Z.of_nat (String.length s))%Z ->
  Utils.slice s 0 n = String.substring 0 (Z.to_nat n) s.
Proof.
  intros Hn. unfold Utils.slice. cbv zeta.
  destruct (Z.ltb_spec 0 0); [lia |]. destruct (Z.ltb_spec n 0); [lia |].
  rewrite (Z.min_l 0) by lia. rewrite (Z.min_l n) by lia.
  rewrite Z.sub_0_r, Z.max_l by lia. reflexivity.
Qed.

(** Property X18.  [truncateText] with a non-negative limit: a text within
    the limit is returned as it is; a longer one is cut to the limit and
    gets three dots, so the result has at most [maxLength + 3] characters
    (it can be longer than the text); truncating twice changes nothing
    more. *)
Theorem truncateText_cuts_to_limit (text : string) (maxLength : Z) :
  (0 <= maxLength)%Z ->
  ((Z.of_nat (String.length text) <= maxLength)%Z ->
   Utils.truncateText text maxLength = text)
  /\ ((maxLength < Z.of_nat (String.length text))%Z ->
      Utils.truncateText text maxLength
      = (String.substring 0 (Z.to_nat maxLength) text ++ "...")%string
      /\ Z.of_nat (String.length (Utils.truncateText text maxLength)) = (maxLength + 3)%Z)
  /\ (Z.of_nat (String.length (Utils.truncateText text maxLength))
      <= Z.max (Z.of_nat (String.length text)) (maxLength + 3))%Z
  /\ Utils.truncateText (Utils.truncateText text maxLength) maxLength
     = Utils.truncateText text maxLength.
Proof.
  intros Hn.
  assert (Hshort : (Z.of_nat (String.length text) <= maxLength)%Z ->
                   Utils.truncateText text maxLength = text).
  { intros Hle. unfold Utils.truncateText.
    destruct (Z.leb_spec (Z.of_nat (String.length text)) maxLength); [reflexivity | lia]. }
  assert (Hlong : (maxLength < Z.of_nat (String.length text))%Z ->
                  Utils.truncateText text maxLength
                  = (String.substring 0 (Z.to_nat maxLength) text ++ "...")%string
                  /\ Z.of_nat (String.length (Utils.truncateText text maxLength))
                     = (maxLength + 3)%Z).
  { intros Hlt. unfold Utils.truncateText.
    destruct (Z.leb_spec (Z.of_nat (String.length text)) maxLength); [lia |].
    rewrite slice_prefix by lia. split; [reflexivity |].
    rewrite string_length_app, substring_0_length by lia. simpl. lia. }
  split; [exact Hshort |]. split; [exact Hlong |].
  destruct (Z.le_gt_cases (Z.of_nat (String.length text)) maxLength) as [Hle | Hgt].
  - rewrite (Hshort Hle). split; [lia | apply Hshort; exact Hle].
  - destruct (Hlong ltac:(lia)) as [Heq Hlen]. split; [lia |].
    unfold Utils.truncateText at 1.
    destruct (Z.leb_spec (Z.of_nat (String.length (Utils.truncateText text maxLength)))
                maxLength); [lia |].
    rewrite slice_prefix by lia. rewrite Heq at 1.
    replace (Z.to_nat maxLength)
      with (String.length (String.substring 0 (Z.to_nat maxLength) text)) at 1
      by (apply substring_0_length; lia).
    rewrite substring_0_app. symmetry. exact Heq.
Qed.

Section RelativeTime.
Variable toLocaleDateString : option Z -> string.

(** Property X19.  The label of [formatRelativeTime], by the distance in
    milliseconds between now and the given time: 'just now' below one
    minute (also for a time in the future), whole minutes below one hour,
    whole hours below one day, whole days below one week, the locale date
    from one week on and for an invalid date. *)
Theorem formatRelativeTime_labels (now t : Z) :
  let d := (now - t)%Z in
  let label := Utils.formatRelativeTime toLocaleDateString now (Some t) in
  ((d < 60000)%Z -> label = "just now")
  /\ ((60000 <= d < 3600000)%Z ->
      label = (nat_to_string (Z.to_nat (d / 60000)) ++ "m ago")%string)
  /\ ((3600000 <= d < 86400000)%Z ->
      label = (nat_to_string (Z.to_nat (d / 3600000)) ++ "h ago")%string)
  /\ ((86400000 <= d < 604800000)%Z ->
      label = (nat_to_string (Z.to_nat (d / 86400000)) ++ "d ago")%string)
  /\ ((604800000 <= d)%Z -> label = toLocaleDateString (Some t))
  /\ Utils.formatRelativeTime toLocaleDateString now None = toLocaleDateString None.
Proof.
  intros d label. subst label. unfold Utils.formatRelativeTime. fold d. cbv zeta.
  assert (Hmin : (d / 1000 / 60 = d / 60000)%Z)
    by (rewrite Z.div_div by lia; reflexivity).
  assert (Hhour : (d / 1000 / 60 / 60 = d / 3600000)%Z)
    by (rewrite Hmin, Z.div_div by lia; reflexivity).
  assert (Hday : (d / 1000 / 60 / 60 / 24 = d / 86400000)%Z)
    by (rewrite Hhour, Z.div_div by lia; reflexivity).
  rewrite Hday, Hhour, Hmin.
  repeat split; intros Hd;
    repeat match goal with
      | |- context [(?a <? ?b)%Z] => destruct (Z.ltb_spec a b)
      end;
    try reflexivity; exfalso; Z.div_mod_to_equations; lia.
Qed.

End RelativeTime.

(** ** Further accounting *)

Section More.
Context (H : Host).

Lemma convertRun_context (run now : value) (ctx : list value) (s s' : nat) (item : value) :
  LangSmith.convertRunToReviewItem H run now ctx s = (Ok item, s') ->
  context_chunks item = VArr ctx.
Proof.
  unfold LangSmith.convertRunToReviewItem. intros E. mauto; reflexivity.
Qed.

(** Property X20.  All records made from one LangSmith root run carry
    the same context chunks: the documents of every retriever run of the
    root's tree. *)
Theorem LangSmith_root_run_shares_context (now run : value) (s s' : nat)
  (records : list value) :
  LangSmith.processRootRun H now run s = (Ok records, s') ->
  exists retrievers chunks s1,
    LangSmith.findRelatedRetrieverSpans run = Ok retrievers
    /\ LangSmith.flat_mapM (LangSmith.extractContextFromRetriever H) retrievers s
       = (Ok chunks, s1)
    /\ forall record, In record records -> context_chunks record = VArr chunks.
Proof.
  unfold LangSmith.processRootRun. intros E.
  apply bind_inv in E. destruct E as (retrievers & s1 & Er & E).
  apply lift_inv in Er. destruct Er as [Er <-].
  apply bind_inv in E. destruct E as (chunks & s2 & Ec & E).
  apply bind_inv in E. destruct E as (llmSpans & s3 & _ & E).
  exists retrievers, chunks, s2. split; [exact Er |]. split; [exact Ec |].
  intros record Hin. destruct llmSpans as [| llmSpan llmSpans].
  - apply bind_inv in E. destruct E as (item & s4 & Ei & E).
    apply ret_inv in E. destruct E as [<- _]. destruct Hin as [<- | []].
    eapply convertRun_context. exact Ei.
  - destruct (mapM_In _ _ _ _ _ E record Hin) as (x & s4 & s5 & _ & Ei).
    eapply convertRun_context. exact Ei.
Qed.

Lemma normalizeToReviewItem_truthy (data : value) (n s s' : nat) (item : value) :
  Jsonl.normalizeToReviewItem H data n s = (Ok item, s') -> truthy item = true.
Proof.
  intros E. destruct (normalizeToReviewItem_stage H _ _ _ _ _ E) as (stage & Estage).
  rewrite (normalizeToReviewItem_dispatch H data n s stage Estage) in E.
  destruct stage; simpl in E.
  - unfold Jsonl.passThrough in E. mauto; reflexivity.
  - unfold Jsonl.convertOpenAIFormat in E. mauto; reflexivity.
  - unfold Jsonl.convertOpenAIFineTuneFormat in E. mauto; reflexivity.
  - unfold Jsonl.convertGenericFormat in E. mauto; reflexivity.
  - unfold Jsonl.convertBestEffort in E. mauto; reflexivity.
Qed.

Lemma processItem_cases (n : nat) (item : value) (acc : list value * list ImportError)
  (s : nat) :
  (exists record s', Jsonl.processItem H n item acc s
                     = (Ok (fst acc ++ [record], snd acc), s'))
  \/ (exists e s', Jsonl.processItem H n item acc s
                   = (Ok (fst acc, snd acc ++ [ {| line := n; message := e |} ]), s')).
Proof.
  unfold Jsonl.processItem, try_catch, bind, ret.
  destruct (Jsonl.normalizeToReviewItem H item n s) as [[record | e] s1] eqn:E.
  - left. exists record, s1. rewrite (normalizeToReviewItem_truthy _ _ _ _ _ E). reflexivity.
  - right. exists e, s1. reflexivity.
Qed.

Lemma processItems_accounts (data : list value) :
  forall i acc s,
    exists new errs s',
      Jsonl.processItems H i data acc s = (Ok (fst acc ++ new, snd acc ++ errs), s')
      /\ List.length new + List.length errs = List.length data
      /\ StronglySorted lt (map line errs)
      /\ Forall (fun e => i < line e <= i + List.length data) errs.
Proof.
  induction data as [| item data IH]; simpl; intros i acc s.
  - exists [], [], s. rewrite !app_nil_r. destruct acc. repeat split; constructor.
  - unfold bind.
    destruct (processItem_cases (i + 1) item acc s) as [(record & s1 & E) | (e & s1 & E)];
      rewrite E.
    + destruct (IH (S i) (fst acc ++ [record], snd acc) s1)
        as (new & errs & s' & E' & Hlen & Hsort & Hall).
      exists (record :: new), errs, s'. simpl in E'. rewrite <- app_assoc in E'.
      split; [exact E' |]. split; [simpl; lia |]. split; [exact Hsort |].
      eapply Forall_impl; [| exact Hall]. simpl. intros; lia.
    + destruct (IH (S i) (fst acc, snd acc ++ [ {| line := i + 1; message := e |} ]) s1)
        as (new & errs & s' & E' & Hlen & Hsort & Hall).
      exists new, ({| line := i + 1; message := e |} :: errs), s'.
      simpl in E'. rewrite <- app_assoc in E'.
      split; [exact E' |]. split; [simpl; lia |]. split.
      * simpl. constructor; [exact Hsort |].
        rewrite Forall_map. eapply Forall_impl; [| exact Hall]. simpl. intros; lia.
      * constructor; [simpl; lia |].
        eapply Forall_impl; [| exact Hall]. simpl. intros; lia.
Qed.

(** Property X21.  A JSON array that no trace adapter claims is imported
    element by element, and every element is accounted for: it yields
    exactly one record or exactly one error, the error carrying the
    1-based position of the element. *)
Theorem array_elements_are_all_accounted_for (elements : list value) (s : nat) :
  detectAdapter (Jsonl.adapterRegistry H) (VArr elements) = Ok None ->
  exists r s',
    Jsonl.parseJsonData H (Jsonl.adapterRegistry H) (VArr elements) s = (Ok r, s')
    /\ List.length (items r) + List.length (errors r) = List.length elements
    /\ StronglySorted lt (map line (errors r))
    /\ Forall (fun e => 1 <= line e <= List.length elements) (errors r).
Proof.
  intros Hnone. unfold Jsonl.parseJsonData, bind, lift. rewrite Hnone.
  cbn [ret isArray].
  assert (Hls : LangSmith.isLangSmithExport (VArr elements) = false).
  { rewrite detectAdapter_standard in Hnone.
    destruct (LangSmith.isLangSmithExport (VArr elements)); [discriminate Hnone | reflexivity]. }
  change (Adapters.get (Jsonl.adapterRegistry H) "langsmith")
    with (Some (LangSmith.langSmithAdapter H)).
  cbn [detect LangSmith.langSmithAdapter]. rewrite Hls. cbn [ret].
  destruct (processItems_accounts elements 0 ([], []) s)
    as (new & errs & s' & E & Hlen & Hsort & Hall).
  change (Jsonl.elements (VArr elements)) with elements. rewrite E.
  eexists _, _. split; [reflexivity |]. simpl. repeat split; assumption.
Qed.

Lemma dashed_no_colon (t : string) (c : ascii) :
  In c (list_ascii_of_string (Store.dashed t)) -> c <> ":"%char /\ c <> "."%char.
Proof.
  induction t as [| x t IH]; simpl; [intros [] |].
  intros [<- | Hin]; [| exact (IH Hin)].
  destruct (Ascii.eqb_spec x ":") as [-> | Hc]; simpl; [split; discriminate |].
  destruct (Ascii.eqb_spec x ".") as [-> | Hd]; [split; discriminate |].
  split; assumption.
Qed.

(** Property X22.  [exportItems] offers no file when no item of the store
    qualifies; otherwise the file holds the export of exactly the
    qualifying items, in store order.  An item qualifies when its status
    is the one the status filter names, or, without a status filter, when
    it is approved or modified. *)
Theorem store_export_selects_by_status (st : Store.State) (options : value)
  (s s' : nat) (r : option Store.Download) :
  Store.exportItems H st options s = (Ok r, s') ->
  exists chosen,
    filter_res (Store.exportable (Store.filters st)) (Store.items st) = Ok chosen
    /\ (forall item, In item chosen ->
          In item (Store.items st)
          /\ Store.exportable (Store.filters st) item = Ok true)
    /\ match r with
       | None => chosen = [] /\ s' = s
       | Some file =>
           chosen <> []
           /\ JsonlExport.exportToJsonl H chosen options = Ok (Store.content file)
           /\ Store.filename file
              = ("loopdeck-export-" ++ Store.dashed (clock H s) ++ ".jsonl")%string
           /\ (forall c, In c (list_ascii_of_string (Store.dashed (clock H s))) ->
                          c <> ":"%char /\ c <> "."%char)
           /\ Store.mimeType file = "application/jsonl"
           /\ s' = S s
       end.
Proof.
  unfold Store.exportItems. intros E.
  apply bind_inv in E. destruct E as (chosen & s1 & Ec & E).
  apply lift_inv in Ec. destruct Ec as [Ec <-].
  exists chosen. split; [exact Ec |].
  split; [intros item Hin; eapply filter_res_In; eassumption |].
  destruct chosen as [| item chosen].
  - apply ret_inv in E. destruct E as [<- <-]. split; reflexivity.
  - apply bind_inv in E. destruct E as (jsonl & s2 & Ej & E).
    apply lift_inv in Ej. destruct Ej as [Ej <-].
    apply bind_inv in E. destruct E as (now & s3 & En & E).
    apply now_iso_inv in En. destruct En as [-> ->].
    apply ret_inv in E. destruct E as [<- <-]. simpl.
    split; [discriminate |]. split; [exact Ej |]. split; [reflexivity |].
    split; [apply dashed_no_colon |]. split; reflexivity.
Qed.

End More.

(** ** Adapter failures and the token estimate *)

Section AdapterFailure.
Context (H : Host).

(** Property X23.  When the adapter that claims a JSON object fails, the
    failure is recorded as the first error, at line 0 and under the
    adapter's name, and the object is still handed to the generic chain:
    the result holds that error and either one record or a second error. *)
Theorem adapter_failure_falls_back_to_chain (reg : AdapterRegistry)
  (adapter : TraceAdapter) (data : value) (e : string) (s s1 : nat) :
  detectAdapter reg data = Ok (Some adapter) ->
  normalize adapter (getOTelMappings reg) data s = (Throw e, s1) ->
  isArray data = false ->
  is_object data = true ->
  exists r s',
    Jsonl.parseJsonData H reg data s = (Ok r, s')
    /\ hd_error (errors r)
       = Some {| line := 0; message := (name adapter ++ " adapter error: " ++ e)%string |}
    /\ List.length (items r) + List.length (errors r) = 2
    /\ (forall record, In record (items r) ->
          Jsonl.normalizeToReviewItem H data 1 s1 = (Ok record, s'))
    /\ (items r <> [] -> success r = true).
Proof.
  intros Hd Hn Harr Hobj.
  unfold Jsonl.parseJsonData, Jsonl.tryAdapter, bind, lift, try_catch, ret.
  rewrite Hd, Hn, Harr, Hobj.
  unfold Jsonl.processItem, try_catch, bind, ret.
  destruct (Jsonl.normalizeToReviewItem H data 1 s1) as [[record | e1] s2] eqn:E.
  - rewrite (normalizeToReviewItem_truthy H _ _ _ _ _ E). cbn [fst snd app].
    eexists _, _. split; [reflexivity |]. cbn.
    split; [reflexivity |]. split; [reflexivity |].
    split; [intros r [<- | []]; reflexivity | intros _; reflexivity].
  - cbn [fst snd app].
    eexists _, _. split; [reflexivity |]. cbn.
    split; [reflexivity |]. split; [reflexivity |].
    split; [intros r [] | intros Hc; contradiction].
Qed.
End AdapterFailure.

(** Property X24.  The token estimate is the least number of four
    character blocks that cover the text. *)
Theorem estimateTokenCount_covers_text (text : string) :
  String.length text <= 4 * Utils.estimateTokenCount text
  /\ 4 * Utils.estimateTokenCount text < String.length text + 4
  /\ (Utils.estimateTokenCount text = 0 <-> text = "").
Proof.
  unfold Utils.estimateTokenCount, Utils.ceil_div.
  pose proof (Nat.div_mod_eq (String.length text) 4) as Hdm.
  pose proof (Nat.mod_upper_bound (String.length text) 4 ltac:(lia)) as Hm.
  destruct (Nat.eqb_spec (String.length text mod 4) 0) as [E | E].
  - split; [lia |]. split; [lia |]. split.
    + intros Hz. destruct text; [reflexivity | simpl in *; lia].
    + intros ->. reflexivity.
  - split; [lia |]. split; [lia |]. split.
    + intros Hz. lia.
    + intros ->. simpl in E. contradiction.
Qed.

(** ** The further properties at sample data *)

Lemma uint_singleLine (u : Decimal.uint) : singleLine (NilEmpty.string_of_uint u) = true.
Proof. induction u; simpl; try reflexivity; exact IHu. Qed.

Lemma Reference_numbers_single_line (n : float) :
  singleLine (String_of_number Reference.host n) = true.
Proof.
  simpl. unfold Reference.string_of_number.
  destruct (Reference.Z_of_num n) as [z |]; [| reflexivity].
  unfold Reference.Z_to_string, nat_to_string.
  destruct (z <? 0)%Z; [simpl |]; apply uint_singleLine.
Qed.

Lemma register_get_round_trip_witness :
  Adapters.get (Jsonl.adapterRegistry Reference.host) "otel"
  = Some (OTel.otelAdapter Reference.host)
  /\ Adapters.get (Jsonl.adapterRegistry Reference.host) "langsmith"
     = Some (LangSmith.langSmithAdapter Reference.host)
  /\ NoDup (map fst (adapters (Jsonl.adapterRegistry Reference.host))).
Proof.
  pose proof (register_get_round_trip
                (register (LangSmith.langSmithAdapter Reference.host) empty_registry)
                (OTel.otelAdapter Reference.host)) as (Hget & Hother & _ & Hnd & _).
  split; [exact Hget |]. split.
  - unfold Jsonl.adapterRegistry. rewrite Hother by discriminate. reflexivity.
  - apply Hnd. repeat constructor; intros [].
Defined.

Lemma standard_registry_prefers_langsmith_witness :
  OTel.isOTelExport Samples.runAndSpan = Ok true
  /\ detectAdapter (Jsonl.adapterRegistry Reference.host) Samples.runAndSpan
     = Ok (Some (LangSmith.langSmithAdapter Reference.host)).
Proof.
  split; [reflexivity |].
  apply (proj1 (proj2 (standard_registry_prefers_langsmith Reference.host Samples.runAndSpan))).
  reflexivity.
Defined.

Lemma LangSmith_leaf_spans_witness :
  inRunTree Examples.nestedRun Samples.innerRun
  /\ runType Samples.innerRun = Ok llm
  /\ LangSmith.findLLMLeafSpans Reference.host Samples.innerRun = Ok [Samples.innerRun].
Proof.
  apply (LangSmith_leaf_spans_are_llm_leaves Reference.host Examples.nestedRun
           [Samples.innerRun] Samples.innerRun).
  - reflexivity.
  - left. reflexivity.
Defined.

Lemma LangSmith_retriever_spans_witness :
  exists retriever,
    LangSmith.findRelatedRetrieverSpans (Tests.payload Tests.ragChain) = Ok [retriever]
    /\ prop retriever "run_id" = VStr "run_retriever"
    /\ inRunTree (Tests.payload Tests.ragChain) retriever
    /\ runType retriever = Ok Review.retriever.
Proof.
  eexists. split; [vm_compute; reflexivity |]. split; [reflexivity |].
  match goal with |- inRunTree _ ?r /\ _ =>
    apply (proj1 (LangSmith_retriever_spans_exact (Tests.payload Tests.ragChain) [r] r
                    ltac:(vm_compute; reflexivity)))
  end.
  left. reflexivity.
Defined.

Lemma OTel_records_convert_file_spans_witness :
  exists spans result s',
    spansOf (Tests.payload Tests.retrieverAndLlm) = Ok spans
    /\ OTel.normalize Reference.host DEFAULT_OTEL_MAPPINGS
         (Tests.payload Tests.retrieverAndLlm) 0 = (Ok result, s')
    /\ List.length (Jsonl.normalizedItems result) <= List.length spans
    /\ List.length spans = 2.
Proof.
  destruct (spansOf (Tests.payload Tests.retrieverAndLlm)) as [spans | e] eqn:Es;
    [| vm_compute in Es; discriminate Es].
  destruct (OTel.normalize Reference.host DEFAULT_OTEL_MAPPINGS
              (Tests.payload Tests.retrieverAndLlm) 0) as [[result | e] s'] eqn:E;
    [| vm_compute in E; discriminate E].
  exists spans, result, s'. split; [reflexivity |]. split; [reflexivity |].
  split.
  - apply (OTel_records_convert_file_spans Reference.host DEFAULT_OTEL_MAPPINGS
             (Tests.payload Tests.retrieverAndLlm) spans 0 s' result Es E).
  - vm_compute in Es. injection Es as <-. reflexivity.
Defined.

Lemma OTel_records_share_context_witness :
  exists result s' chunks,
    OTel.normalize Reference.host DEFAULT_OTEL_MAPPINGS
      (Tests.payload Tests.retrieverAndLlm) 0 = (Ok result, s')
    /\ List.length chunks = 2
    /\ forall item, In item (Jsonl.normalizedItems result) ->
         context_chunks item = VArr chunks.
Proof.
  destruct (spansOf (Tests.payload Tests.retrieverAndLlm)) as [spans | e] eqn:Es;
    [| vm_compute in Es; discriminate Es].
  destruct (OTel.normalize Reference.host DEFAULT_OTEL_MAPPINGS
              (Tests.payload Tests.retrieverAndLlm) 0) as [[result | e] s'] eqn:E;
    [| vm_compute in E; discriminate E].
  destruct (OTel_records_share_context Reference.host DEFAULT_OTEL_MAPPINGS
              (Tests.payload Tests.retrieverAndLlm) spans 0 s' result Es E)
    as [Hnil | (chunks & s1 & Ec & Hall)].
  - vm_compute in E. injection E as <- _. discriminate Hnil.
  - exists result, s', chunks. split; [reflexivity |]. split; [| exact Hall].
    vm_compute in Es. injection Es as <-.
    vm_compute in Ec. injection Ec as <- _. reflexivity.
Defined.

Lemma malformed_line_is_isolated_witness :
  exists r r0 s',
    Jsonl.parseJsonlLines Reference.host (Jsonl.adapterRegistry Reference.host)
      (lines2 Samples.firstLine (lines2 "{bad" Samples.thirdLine)) 0 = (Ok r, s')
    /\ Jsonl.parseJsonlLines Reference.host (Jsonl.adapterRegistry Reference.host)
         (lines2 Samples.firstLine Samples.thirdLine) 0 = (Ok r0, s')
    /\ items r = items r0
    /\ List.length (errors r) = S (List.length (errors r0))
    /\ In {| line := S (List.length (Jsonl.nonBlankLines Samples.firstLine));
             message := "Unexpected token in JSON" |} (errors r).
Proof.
  apply (malformed_line_is_isolated Reference.host (Jsonl.adapterRegistry Reference.host)
           Samples.firstLine "{bad" Samples.thirdLine "Unexpected token in JSON" 0);
    reflexivity.
Defined.

Lemma produced_records_are_canonical_witness :
  exists item s',
    Jsonl.normalizeToReviewItem Reference.host Examples.genericEmptyResponse 1 0
    = (Ok item, s')
    /\ Jsonl.isReviewItemFormat item = Ok true
    /\ Jsonl.stageOf item = Ok Jsonl.PassThrough
    /\ detectAdapter (Jsonl.adapterRegistry Reference.host) item = Ok None.
Proof.
  eexists _, _. split; [vm_compute; reflexivity |].
  match goal with |- Jsonl.isReviewItemFormat ?item = _ /\ _ =>
    destruct (produced_records_are_canonical Reference.host DEFAULT_OTEL_MAPPINGS
                Examples.genericEmptyResponse (Jsonl.ViaChain Jsonl.Generic) item)
      as (Hf & Hs & Hd)
  end.
  - eapply (Jsonl.produces_chain _ _ _ 1 0); [reflexivity | vm_compute; reflexivity].
  - split; [exact Hf |]. split; [exact Hs |]. apply Hd. discriminate.
Defined.

Lemma canonical_record_is_no_langsmith_run_witness :
  LangSmith.isLangSmithRun Examples.canonicalRecord = false
  /\ LangSmith.isLangSmithExport Examples.canonicalRecord = false.
Proof.
  destruct (canonical_record_is_no_langsmith_run Examples.canonicalRecord eq_refl)
    as [Hrun Hexport].
  split; [exact Hrun | apply Hexport; reflexivity].
Defined.


Lemma export_writes_one_line_per_record_witness :
  exists text,
    JsonlExport.exportToJsonl Reference.host [Samples.reviewed; Samples.unreviewed] VUndef
    = Ok text
    /\ List.length (split_on nl text) = 2
    /\ nth 0 (split_on nl text) "" = Samples.reviewedLine.
Proof.
  eexists. split; [vm_compute; reflexivity |].
  split; [| vm_compute; reflexivity].
  match goal with |- List.length (split_on nl ?text) = _ =>
    destruct (proj1 (export_writes_one_line_per_record Reference.host
                       Reference_numbers_single_line
                       [Samples.reviewed; Samples.unreviewed] VUndef text
                       ltac:(discriminate)))
      as (lines & _ & _ & Hlen)
  end.
  - vm_compute. reflexivity.
  - exact Hlen.
Defined.

Lemma finetune_export_reimports_witness :
  exists record,
    Jsonl.processLine Reference.host (Jsonl.adapterRegistry Reference.host) 1
      Samples.reviewedLine ([], []) 0
    = (Ok ([record], []), 2)
    /\ prompt record = VStr "What is RAG?"
    /\ system_prompt record = VStr "Be brief."
    /\ outputs record
       = VArr [ VObj [ ("model_id", VStr "assistant");
                       ("text", VStr "Retrieval augmented generation.");
                       ("token_usage", VNum 0%float); ("latency_ms", VNum 0%float) ] ]
    /\ context_chunks record = VArr []
    /\ prop record "id" = VStr "uuid-1"
    /\ status record = VStr "pending".
Proof.
  apply (finetune_export_reimports Reference.host Samples.reviewed
           [ JsonlExport.message "system" (VStr "Be brief.");
             JsonlExport.message "user" (VStr "What is RAG?");
             JsonlExport.message "assistant" (VStr "Retrieval augmented generation.") ]
           (VStr "Retrieval augmented generation.")
           Samples.reviewedLine 1 ([], []) 0);
    vm_compute; reflexivity.
Defined.

Lemma training_export_drops_excluded_chunks_witness :
  exists exported,
    JsonlExport.exportedRecord Reference.host Samples.reviewed = Ok exported
    /\ prop exported "context"
       = VArr [ VObj [ ("text", VStr "one"); ("source", VStr "a"); ("score", VNum 1%float) ];
                VObj [ ("text", VStr "three"); ("source", VStr "c");
                       ("score", VNum 3%float) ] ]
    /\ prop exported "id" = VStr "r-7".
Proof.
  destruct (JsonlExport.exportedRecord Reference.host Samples.reviewed)
    as [exported | e] eqn:E; [| vm_compute in E; discriminate E].
  exists exported. split; [reflexivity |].
  destruct (training_export_drops_excluded_chunks Reference.host Samples.reviewed exported E)
    as (chunks & context & Hc & Hctx & _ & Hsame & Hid & _).
  split; [| exact Hid].
  injection Hc as <-. rewrite Hctx, Hsame; [reflexivity |].
  repeat constructor.
Defined.

Lemma import_outcome_reflects_storage_witness :
  exists r s',
    Jsonl.parseJsonlFile Reference.host (Jsonl.adapterRegistry Reference.host)
      {| Jsonl.size := 0; Jsonl.text := "" |} 0 = (Ok r, s')
    /\ success r = true
    /\ fst (Store.importFile Reference.host Samples.memoryTable
              (Jsonl.adapterRegistry Reference.host)
              {| Jsonl.size := 0; Jsonl.text := "" |} Samples.twoItemsWorld)
       = {| Store.success := false; Store.message := "No valid items found in file" |}.
Proof.
  destruct (import_outcome_reflects_storage Reference.host Samples.memoryTable
              (Jsonl.adapterRegistry Reference.host)
              {| Jsonl.size := 0; Jsonl.text := "" |} Samples.twoItemsWorld)
    as (r & s' & E & _ & _ & _ & Hout).
  exists r, s'. split; [exact E |].
  vm_compute in E. injection E as <- _. split; [reflexivity |].
  apply Hout.
Defined.

Lemma delete_clears_selection_witness :
  let st' := Store.store (Store.deleteItems Samples.memoryTable ["r-7"]
                            Samples.twoItemsWorld) in
  Store.selectedIds st' = ["r-8"]
  /\ Store.selectedItemId st' = None
  /\ ~ In "r-7" (Store.selectedIds st').
Proof.
  pose proof (delete_clears_selection Samples.memoryTable ["r-7"] Samples.twoItemsWorld)
    as (Hids & Hin & _ & _).
  split; [exact Hids |]. split; [reflexivity |].
  intros Hc. apply Hin in Hc. destruct Hc as [_ Hc]. apply Hc. left. reflexivity.
Defined.

Lemma toggle_twice_restores_selection_witness :
  Store.selectedIds
    (Store.toggleItemSelection "r-7" (Store.toggleItemSelection "r-7" Samples.twoItems))
  = ["r-8"; "r-7"]
  /\ forall x,
       In x (Store.selectedIds
               (Store.toggleItemSelection "r-7"
                  (Store.toggleItemSelection "r-7" Samples.twoItems)))
       <-> In x (Store.selectedIds Samples.twoItems).
Proof.
  split; [reflexivity |].
  apply (toggle_twice_restores_selection "r-7" Samples.twoItems).
  repeat constructor; simpl; intuition discriminate.
Defined.

Lemma truncateText_cuts_to_limit_witness :
  Utils.truncateText "hello" 10 = "hello"
  /\ Utils.truncateText "hello world" 5 = "hello..."
  /\ Utils.truncateText (Utils.truncateText "hello world" 5) 5 = "hello...".
Proof.
  destruct (truncateText_cuts_to_limit "hello" 10 ltac:(lia)) as (Hshort & _).
  destruct (truncateText_cuts_to_limit "hello world" 5 ltac:(lia))
    as (_ & Hlong & _ & Hidem).
  split; [apply Hshort; simpl; lia |].
  destruct Hlong as [Heq _]; [simpl; lia |].
  split; [exact Heq | rewrite Hidem; exact Heq].
Defined.

Lemma formatRelativeTime_labels_witness :
  Utils.formatRelativeTime Samples.localeDate 7200000 (Some 5400000%Z) = "30m ago"
  /\ Utils.formatRelativeTime Samples.localeDate 7200000 (Some 0%Z) = "2h ago"
  /\ Utils.formatRelativeTime Samples.localeDate 0 (Some 1000%Z) = "just now".
Proof.
  split; [| split].
  - apply (proj1 (proj2 (formatRelativeTime_labels Samples.localeDate 7200000 5400000))).
    lia.
  - apply (proj1 (proj2 (proj2 (formatRelativeTime_labels Samples.localeDate 7200000 0)))).
    lia.
  - apply (proj1 (formatRelativeTime_labels Samples.localeDate 0 1000)). lia.
Defined.

Lemma LangSmith_root_run_shares_context_witness :
  exists records s' chunks,
    LangSmith.processRootRun Reference.host (VStr "now") (Tests.payload Tests.ragChain) 0
    = (Ok records, s')
    /\ List.length chunks = 2
    /\ forall record, In record records -> context_chunks record = VArr chunks.
Proof.
  destruct (LangSmith.processRootRun Reference.host (VStr "now")
              (Tests.payload Tests.ragChain) 0) as [[records | e] s'] eqn:E;
    [| vm_compute in E; discriminate E].
  destruct (LangSmith_root_run_shares_context Reference.host (VStr "now")
              (Tests.payload Tests.ragChain) 0 s' records E)
    as (retrievers & chunks & s1 & Er & Ec & Hall).
  exists records, s', chunks. split; [reflexivity |]. split; [| exact Hall].
  vm_compute in Er. injection Er as <-.
  vm_compute in Ec. injection Ec as <- _. reflexivity.
Defined.

Lemma array_elements_are_all_accounted_for_witness :
  exists r s',
    Jsonl.parseJsonData Reference.host (Jsonl.adapterRegistry Reference.host)
      (VArr Samples.recordAndNull) 0 = (Ok r, s')
    /\ List.length (items r) + List.length (errors r) = 2
    /\ map line (errors r) = [2].
Proof.
  destruct (array_elements_are_all_accounted_for Reference.host Samples.recordAndNull 0
              eq_refl) as (r & s' & E & Hlen & _ & _).
  exists r, s'. split; [exact E |]. split; [exact Hlen |].
  vm_compute in E. injection E as <- _. reflexivity.
Defined.

Lemma store_export_selects_by_status_witness :
  exists file s',
    Store.exportItems Reference.host Samples.twoItems VUndef 0 = (Ok (Some file), s')
    /\ Store.content file = Samples.reviewedLine
    /\ Store.filename file = "loopdeck-export-2026-01-11T00-00-00-000Z.jsonl"
    /\ JsonlExport.exportToJsonl Reference.host [Samples.reviewed] VUndef
       = Ok (Store.content file).
Proof.
  eexists _, _. split; [vm_compute; reflexivity |].
  split; [reflexivity |]. split; [reflexivity |].
  match goal with |- _ = Ok (Store.content ?file) =>
    destruct (store_export_selects_by_status Reference.host Samples.twoItems VUndef 0 1
                (Some file) ltac:(vm_compute; reflexivity))
      as (chosen & Ec & _ & _ & Hexp & _)
  end.
  vm_compute in Ec. injection Ec as <-. exact Hexp.
Defined.

Lemma adapter_failure_falls_back_to_chain_witness :
  exists r s',
    Jsonl.parseJsonData Reference.host (Jsonl.adapterRegistry Reference.host)
      Samples.runWithTextInputs 0 = (Ok r, s')
    /\ hd_error (errors r)
       = Some {| line := 0;
                 message := "langsmith adapter error: Cannot use 'in' operator to search for a key in a primitive" |}
    /\ List.length (items r) = 1
    /\ success r = true.
Proof.
  destruct (adapter_failure_falls_back_to_chain Reference.host
              (Jsonl.adapterRegistry Reference.host)
              (LangSmith.langSmithAdapter Reference.host)
              Samples.runWithTextInputs type_error_in 0 1
              eq_refl eq_refl eq_refl eq_refl)
    as (r & s' & E & Hhd & _ & _ & Hs).
  exists r, s'. split; [exact E |]. split; [exact Hhd |].
  vm_compute in E. injection E as <- _. split; reflexivity.
Defined.

(** ** Records of one LangSmith root run *)

Section RootRecords.
Context (H : Host).

(** Property X25.  The records made from one LangSmith root run are the
    conversions of its LLM leaves: the i-th record is the conversion of
    the i-th leaf that [findLLMLeafSpans] returns, every leaf is converted
    once, and all conversions get the same context chunks.  A root
    without LLM leaf is converted itself, so a root yields
    [max 1 (number of leaves)] records. *)
Theorem LangSmith_one_record_per_leaf (now run : value) (s s' : nat)
  (records : list value) :
  LangSmith.processRootRun H now run s = (Ok records, s') ->
  exists leaves chunks,
    LangSmith.findLLMLeafSpans H run = Ok leaves
    /\ Forall2 (fun source record =>
                  exists s1 s2,
                    LangSmith.convertRunToReviewItem H source now chunks s1
                    = (Ok record, s2))
               (match leaves with [] => [run] | _ :: _ => leaves end) records
    /\ List.length records = Nat.max 1 (List.length leaves).
Proof.
  unfold LangSmith.processRootRun. intros E.
  apply bind_inv in E. destruct E as (retrievers & s1 & _ & E).
  apply bind_inv in E. destruct E as (chunks & s2 & _ & E).
  apply bind_inv in E. destruct E as (leaves & s3 & El & E).
  apply lift_inv in El. destruct El as [El _].
  exists leaves, chunks.
  split; [exact El |].
  destruct leaves as [| leaf leaves].
  - apply bind_inv in E. destruct E as (item & s4 & Ei & E).
    apply ret_inv in E. destruct E as [<- _].
    split; [| reflexivity].
    constructor; [exists s3, s4; exact Ei | constructor].
  - split.
    + exact (mapM_Forall2 _ _ _ _ _ E).
    + rewrite (mapM_length _ _ _ _ _ E). simpl. lia.
Qed.

End RootRecords.

Lemma LangSmith_one_record_per_leaf_witness :
  exists records s',
    LangSmith.processRootRun Reference.host (VStr "now") Examples.nestedRun 0
    = (Ok records, s')
    /\ List.length records = 1.
Proof.
  destruct (LangSmith.processRootRun Reference.host (VStr "now") Examples.nestedRun 0)
    as [[records | e] s'] eqn:E; [| vm_compute in E; discriminate E].
  destruct (LangSmith_one_record_per_leaf Reference.host (VStr "now") Examples.nestedRun
              0 s' records E) as (leaves & chunks & El & _ & Hlen).
  exists records, s'. split; [reflexivity |].
  vm_compute in El. injection El as <-. exact Hlen.
Defined.
